(** * plotly.express._imshow: a shallow embedding and its properties

    The module under study is [plotly/express/_imshow.py]: the helpers
    [_vectorize_zvalue] and [_infer_zmax_from_type], and the entry point
    [imshow].  Python objects that the caller owns (numpy arrays, xarray
    DataArrays) live in an explicit store; every numpy call that returns a
    new array allocates it.  Exceptions are values of [exn]. *)

From Stdlib Require Import ZArith Floats Ascii DecimalString.
From stdpp Require Import base option list gmap strings.

Local Open Scope Z_scope.
Local Open Scope string_scope.
Local Open Scope list_scope.

(** ** Python scalars and numpy element types *)

(** The C integer types behind [np.byte], [np.ubyte], [np.short], ... *)
Inductive ctype :=
  | c_byte | c_ubyte | c_short | c_ushort | c_intc | c_uintc
  | c_int_ | c_uint | c_longlong | c_ulonglong.

Inductive fkind := f_half | f_single | f_double.

(** A numpy scalar type object ([img.dtype.type]); [np.uint8] is [np.ubyte]
    and [np.bool] is the Python [bool]. *)
Inductive scalar_type :=
  | np_bool
  | np_integer (c : ctype)
  | np_floating (k : fkind).

Definition np_uint8 : scalar_type := np_integer c_ubyte.

(** The width of [long] is the only thing that differs between the platforms
    numpy runs on. *)
Inductive data_model := LP64 | LLP64.

Definition ctype_signed (c : ctype) : bool :=
  match c with
  | c_byte | c_short | c_intc | c_int_ | c_longlong => true
  | _ => false
  end.

Definition ctype_bits (dm : data_model) (c : ctype) : Z :=
  match c with
  | c_byte | c_ubyte => 8
  | c_short | c_ushort => 16
  | c_intc | c_uintc => 32
  | c_int_ | c_uint => match dm with LP64 => 64 | LLP64 => 32 end
  | c_longlong | c_ulonglong => 64
  end.

#[global] Instance ctype_eq_dec : EqDecision ctype.
Proof. solve_decision. Defined.
#[global] Instance fkind_eq_dec : EqDecision fkind.
Proof. solve_decision. Defined.
#[global] Instance scalar_type_eq_dec : EqDecision scalar_type.
Proof. solve_decision. Defined.

(** A Python or numpy scalar: what [zmin], [zmax], [img.max()] hold. *)
Inductive scalar :=
  | SBool (b : bool)
  | SInt (z : Z)
  | SFloat (f : float).

(** ** Arrays *)

(** The element buffer carries its element type, so that the contents always
    agree with [dtype].  Elements are in row-major order.  Every half and
    single precision value is a binary64 value, which is what numpy compares
    against a Python float. *)
Inductive buffer :=
  | BoolBuf (l : list bool)
  | IntBuf (c : ctype) (l : list Z)
  | FloatBuf (k : fkind) (l : list float).

Record ndarray := mk_ndarray { buf : buffer; shape : list nat }.

Definition dtype_type (a : ndarray) : scalar_type :=
  match buf a with
  | BoolBuf _ => np_bool
  | IntBuf c _ => np_integer c
  | FloatBuf k _ => np_floating k
  end.

Definition ndim (a : ndarray) : nat := length (shape a).

Definition buffer_size (b : buffer) : nat :=
  match b with
  | BoolBuf l => length l
  | IntBuf _ l => length l
  | FloatBuf _ l => length l
  end.

(** ** Python object identity against numpy's dtype equality

    [img.dtype] is an instance of [numpy.dtype]; [np.uint8] and [np.bool] are
    type objects.  [==] on a dtype converts its right operand with
    [np.dtype(...)] and compares the descriptions; [is] compares the two
    objects. *)
Inductive pyobject :=
  | DtypeInstance (t : scalar_type)
  | TypeObject (t : scalar_type).

Definition py_is (a b : pyobject) : bool :=
  match a, b with
  | DtypeInstance t, DtypeInstance u => bool_decide (t = u)
  | TypeObject t, TypeObject u => bool_decide (t = u)
  | _, _ => false
  end.

Definition np_dtype (o : pyobject) : scalar_type :=
  match o with DtypeInstance t => t | TypeObject t => t end.

Definition dtype_equiv (dm : data_model) (t u : scalar_type) : bool :=
  match t, u with
  | np_bool, np_bool => true
  | np_integer c, np_integer d =>
      bool_decide (ctype_signed c = ctype_signed d)
      && bool_decide (ctype_bits dm c = ctype_bits dm d)
  | np_floating k, np_floating j => bool_decide (k = j)
  | _, _ => false
  end.

Definition dtype_eq (dm : data_model) (d : pyobject) (other : pyobject) : bool :=
  dtype_equiv dm (np_dtype d) (np_dtype other).

Definition img_dtype (a : ndarray) : pyobject := DtypeInstance (dtype_type a).

(** ** Exceptions, the store and the monad *)

Inductive exn :=
  | ValueError (msg : string)
  | IndexError (msg : string)
  | TypeError (msg : string)
  | KeyError (key : string)
  | UnboundLocalError (name : string)
  (** raised by a collaborator outside this module, whatever its class *)
  | External (msg : string).

Inductive outcome (A : Type) :=
  | Ok (a : A)
  | Raise (e : exn).
Arguments Ok {A} a.
Arguments Raise {A} e.

(** A coordinate of a DataArray. *)
Inductive coord :=
  | CoordNum (v : list scalar)
  | CoordDatetime (ns : list Z)
  | CoordStr (v : list string).

(** A reference to an object of the store. *)
Abbreviation loc := nat (only parsing).

(** [xa_label] is what [xarray.plot.utils.label_from_attrs] returns for the
    array; [xa_values] is the numpy array that [np.asanyarray] hands out. *)
Record DataArray := mk_DataArray {
  xa_values : loc;
  xa_dims : list string;
  xa_coords : gmap string coord;
  xa_label : string
}.

Inductive pyobj :=
  | ObjNdarray (a : ndarray)
  | ObjDataArray (x : DataArray).

Abbreviation heap := (list pyobj) (only parsing).

Definition Py (A : Type) : Type := heap -> outcome A * heap.

Definition ret {A} (a : A) : Py A := fun h => (Ok a, h).
Definition raise {A} (e : exn) : Py A := fun h => (Raise e, h).
Definition bind {A B} (m : Py A) (k : A -> Py B) : Py B :=
  fun h => match m h with
           | (Ok a, h') => k a h'
           | (Raise e, h') => (Raise e, h')
           end.
Definition lift {A} (o : outcome A) : Py A := fun h => (o, h).

Declare Scope py_scope.
Delimit Scope py_scope with py.
Notation "x <- m ;; k" := (bind m (fun x => k))
  (at level 100, m at next level, right associativity) : py_scope.

Definition alloc (o : pyobj) : Py loc := fun h => (Ok (length h), h ++ [o]).
Definition load (l : loc) : Py pyobj :=
  fun h => match h !! l with
           | Some o => (Ok o, h)
           | None => (Raise (TypeError "dangling reference"), h)
           end.
Definition store (l : loc) (o : pyobj) : Py unit :=
  fun h => (Ok tt, <[l := o]> h).
Definition load_ndarray (l : loc) : Py ndarray :=
  bind (load l) (fun o =>
    match o with
    | ObjNdarray a => ret a
    | ObjDataArray _ => raise (TypeError "not an ndarray")
    end).

(** ** Printing, as [str] does *)

Definition str_Z (z : Z) : string := NilZero.string_of_int (Z.to_int z).
Definition str_nat (n : nat) : string := str_Z (Z.of_nat n).

Fixpoint join (sep : string) (l : list string) : string :=
  match l with
  | [] => ""
  | [s] => s
  | s :: rest => s +:+ sep +:+ join sep rest
  end.

(** [str] of a tuple of ints, such as [img.shape]: [()], [(4,)], [(4, 5, 2)]. *)
Definition str_shape (s : list nat) : string :=
  match s with
  | [n] => "(" +:+ str_nat n +:+ ",)"
  | _ => "(" +:+ join ", " (map str_nat s) +:+ ")"
  end.

(** ** The numpy calls that [imshow] makes *)

(** Conversion of an integer to binary64, rounding to nearest even; this is
    how Python and numpy compare or multiply an int with a float. *)
Definition Z2float (z : Z) : float := SF2Prim (binary_normalize prec emax z 0 false).

(** Truncation towards zero, the C cast of a float to an integer type. *)
Definition float_trunc (f : float) : Z :=
  match Prim2SF f with
  | S754_finite s m e => let v := Z.shiftl (Zpos m) e in if s then - v else v
  | _ => 0
  end.

(** [img.astype(np.uint8)]: the elements of the new uint8 array. *)
Definition astype_uint8 (b : buffer) : list Z :=
  match b with
  | BoolBuf l => map (fun x : bool => if x then 1 else 0) l
  | IntBuf _ l => map (fun x => x mod 256) l
  | FloatBuf _ l => map (fun x => float_trunc x mod 256) l
  end.

(** [k * a] for a uint8 array [a] and a Python int [k] that fits uint8: the
    result is again uint8, with wrap-around. *)
Definition uint8_mul (k : Z) (l : list Z) : list Z := map (fun x => (k * x) mod 256) l.

(** [np.isfinite(a)], element by element. *)
Definition isfinite (b : buffer) : list bool :=
  match b with
  | BoolBuf l => map (fun _ => true) l
  | IntBuf _ l => map (fun _ => true) l
  | FloatBuf _ l => map is_finite l
  end.

Fixpoint select {A} (mask : list bool) (l : list A) : list A :=
  match mask, l with
  | m :: mask', x :: l' => if m then x :: select mask' l' else select mask' l'
  | _, _ => []
  end.

(** [a[mask]] for a boolean mask of the shape of [a]: a new 1-d array. *)
Definition getitem_mask (a : ndarray) (mask : list bool) : ndarray :=
  let b := match buf a with
           | BoolBuf l => BoolBuf (select mask l)
           | IntBuf c l => IntBuf c (select mask l)
           | FloatBuf k l => FloatBuf k (select mask l)
           end in
  mk_ndarray b [buffer_size b].

(** [np.maximum] and [np.minimum] on floats propagate NaN. *)
Definition fmaximum (x y : float) : float :=
  if is_nan x then x else if is_nan y then y else if (x <? y)%float then y else x.
Definition fminimum (x y : float) : float :=
  if is_nan x then x else if is_nan y then y else if (y <? x)%float then y else x.

Definition reduce {A} (f : A -> A -> A) (l : list A) : option A :=
  match l with
  | [] => None
  | x :: l' => Some (foldl f x l')
  end.

Definition buffer_max (b : buffer) : option scalar :=
  match b with
  | BoolBuf l => SBool <$> reduce orb l
  | IntBuf _ l => SInt <$> reduce Z.max l
  | FloatBuf _ l => SFloat <$> reduce fmaximum l
  end.

Definition buffer_min (b : buffer) : option scalar :=
  match b with
  | BoolBuf l => SBool <$> reduce andb l
  | IntBuf _ l => SInt <$> reduce Z.min l
  | FloatBuf _ l => SFloat <$> reduce fminimum l
  end.

Definition zero_size (op : string) : exn :=
  ValueError ("zero-size array to reduction operation " +:+ op +:+
              " which has no identity").

(** [a.max()] and [a.min()] read the array at [l]. *)
Definition ndarray_max (l : loc) : Py scalar :=
  (a <- load_ndarray l ;;
   match buffer_max (buf a) with
   | Some s => ret s
   | None => raise (zero_size "maximum")
   end)%py.

Definition ndarray_min (l : loc) : Py scalar :=
  (a <- load_ndarray l ;;
   match buffer_min (buf a) with
   | Some s => ret s
   | None => raise (zero_size "minimum")
   end)%py.

Definition np_isfinite (l : loc) : Py loc :=
  (a <- load_ndarray l ;;
   alloc (ObjNdarray (mk_ndarray (BoolBuf (isfinite (buf a))) (shape a))))%py.

Definition ndarray_getitem_mask (l mask : loc) : Py loc :=
  (a <- load_ndarray l ;;
   m <- load_ndarray mask ;;
   match buf m with
   | BoolBuf bs => alloc (ObjNdarray (getitem_mask a bs))
   | _ => raise (IndexError "arrays used as indices must be of integer (or boolean) type")
   end)%py.

(** [s <= x] for a numpy scalar [s] and a Python float [x]. *)
Definition scalar_to_float (s : scalar) : float :=
  match s with
  | SBool b => if b then 1%float else 0%float
  | SInt z => Z2float z
  | SFloat f => f
  end.
Definition scalar_le (s : scalar) (x : float) : bool := (scalar_to_float s <=? x)%float.

(** ** Module-level tables *)

Definition _integer_types : list scalar_type :=
  [ np_integer c_byte; np_integer c_ubyte;
    np_integer c_short; np_integer c_ushort;
    np_integer c_intc; np_integer c_uintc;
    np_integer c_int_; np_integer c_uint;
    np_integer c_longlong; np_integer c_ulonglong ].

Section Platform.
Variable dm : data_model.

(** [np.iinfo(t).min] and [np.iinfo(t).max] *)
Definition iinfo_min (c : ctype) : Z :=
  if ctype_signed c then - 2 ^ (ctype_bits dm c - 1) else 0.
Definition iinfo_max (c : ctype) : Z :=
  if ctype_signed c then 2 ^ (ctype_bits dm c - 1) - 1 else 2 ^ ctype_bits dm c - 1.

Definition iinfo (t : scalar_type) : option (Z * Z) :=
  match t with
  | np_integer c => Some (iinfo_min c, iinfo_max c)
  | _ => None
  end.

(** The dict comprehension [{t: (np.iinfo(t).min, np.iinfo(t).max) ...}]. *)
Definition _integer_ranges : list (scalar_type * (Z * Z)) :=
  omap (fun t => pair t <$> iinfo t) _integer_types.
End Platform.

(** [d[k]] on a dict keyed by type objects; [None] stands for KeyError. *)
Definition dict_get {V} (d : list (scalar_type * V)) (k : scalar_type) : option V :=
  (fun hit => snd (snd hit)) <$> list_find (fun kv => fst kv = k) d.

(** ** [_vectorize_zvalue] *)

(** What a caller passes for [zmin] or [zmax] when it is not [None]: a scalar
    ([np.isscalar]) or a sized sequence, here a list or a tuple.  A value
    without a length that is no scalar either (a generator, a 0-d array) makes
    [len] raise a TypeError; such values are left out. *)
Inductive zvalue :=
  | ZScalar (s : scalar)
  | ZList (l : list scalar)
  | ZTuple (l : list scalar).

(** Python's [l * n] on lists. *)
Fixpoint list_mul {A} (l : list A) (n : nat) : list A :=
  match n with
  | O => []
  | S n' => l ++ list_mul l n'
  end.

Section Vectorize.
(** [repr] of a float (the shortest string that reads back as the same
    float) is taken as given. *)
Variable repr_float : float -> string.

Definition repr_scalar (s : scalar) : string :=
  match s with
  | SBool true => "True"
  | SBool false => "False"
  | SInt z => str_Z z
  | SFloat f => repr_float f
  end.

Definition str_zvalue (z : zvalue) : string :=
  match z with
  | ZScalar s => repr_scalar s
  | ZList l => "[" +:+ join ", " (map repr_scalar l) +:+ "]"
  | ZTuple [s] => "(" +:+ repr_scalar s +:+ ",)"
  | ZTuple l => "(" +:+ join ", " (map repr_scalar l) +:+ ")"
  end.

Definition zmax_message (z : zvalue) : string :=
  "zmax can be a scalar, or an iterable of length 1, 3 or 4. "
  +:+ "A value of " +:+ str_zvalue z +:+ " was passed for zmax.".

Definition _vectorize_zvalue (z : option zvalue) : outcome (option zvalue) :=
  match z with
  | None => Ok None
  | Some (ZScalar s) => Ok (Some (ZList (list_mul [s] 3 ++ [SInt 1])))
  | Some ((ZList l | ZTuple l) as v) =>
      if bool_decide (length l = 1%nat) then Ok (Some (ZList (list_mul l 3 ++ [SInt 1])))
      else if bool_decide (length l = 3%nat) then Ok (Some (ZList (l ++ [SInt 1])))
      else if bool_decide (length l = 4%nat) then Ok (Some v)
      else Raise (ValueError (zmax_message v))
  end.
End Vectorize.

(** ** [_infer_zmax_from_type] *)

(** The binary64 value nearest to 1.05. *)
Definition rtol : float := 0x1.0cccccccccccdp+0%float.

Section Infer.
Variable dm : data_model.

Definition _infer_zmax_from_type (img : loc) : Py scalar :=
  (a <- load_ndarray img ;;
   let dt := dtype_type a in
   if bool_decide (dt ∈ _integer_types) then
     match dict_get (_integer_ranges dm) dt with
     | Some r => ret (SInt (snd r))
     | None => raise (KeyError "dtype")
     end
   else
     mask <- np_isfinite img ;;
     finite <- ndarray_getitem_mask img mask ;;
     im_max <- ndarray_max finite ;;
     if scalar_le im_max (Z2float 1 * rtol) then ret (SInt 1)
     else if scalar_le im_max (Z2float 255 * rtol) then ret (SInt 255)
     else if scalar_le im_max (Z2float 65535 * rtol) then ret (SInt 65535)
     else ret (SInt (2 ^ 32)))%py.
End Infer.

(** ** The figure description

    [go.Heatmap], [go.Image] and [go.Figure] are taken as constructors of the
    description; the validation they run on their arguments belongs to the
    graph object library. *)

Inductive trace_type := Heatmap | Image.

Record trace := mk_trace {
  tr_type : trace_type;
  tr_z : ndarray;
  tr_coloraxis : option string;
  tr_zmin : option zvalue;
  tr_zmax : option zvalue;
  tr_x : option coord;
  tr_y : option coord;
  tr_hovertemplate : option string
}.

Inductive autorange := AutorangeTrue | AutorangeReversed.

(** What [imshow] reads of a [go.layout.Template]: [layout.margin.t]. *)
Record Template := mk_Template {
  template_name : string;
  template_margin_t : option Z
}.

(** A colour scale as the caller names it (a name or a list of CSS colours)
    and as the validator returns it (positions with colours). *)
Inductive colorscale_spec :=
  | ScaleName (name : string)
  | ScaleColors (colors : list string).

Definition Colorscale := list (float * string).

Record coloraxis := mk_coloraxis {
  colorscale : Colorscale;
  cmid : option scalar;
  cmin : option zvalue;
  cmax : option zvalue;
  colorbar_title : string
}.

Record layout := mk_layout {
  yaxis_autorange : option autorange;
  yaxis_constrain : option string;
  xaxis_scaleanchor : option string;
  xaxis_constrain : option string;
  coloraxis1 : option coloraxis;
  layout_title : option string;
  layout_height : option Z;
  layout_width : option Z;
  margin_t : option Z;
  xaxis_title_text : option string;
  yaxis_title_text : option string;
  layout_template : option Template
}.

Record Figure := mk_Figure { fig_data : trace; fig_layout : layout }.

(** The calls of plotly's graph objects that [imshow] makes once the trace
    and its layout are chosen (lines 249-264), each with its arguments. *)
Inductive plotly_call :=
  (** [go.Figure(data=trace, layout=layout)] *)
  | New_Figure (data : trace) (lay : layout)
  (** [fig.update_layout(layout_patch)], with the entries of the patch *)
  | Update_layout (title : option string) (height width margin_t : option Z)
  (** [fig.update_traces(x=x, y=y, hovertemplate=hovertemplate)] *)
  | Update_traces (x y : coord) (hovertemplate : string)
  (** [fig.update_xaxes(title_text=x_label)] *)
  | Update_xaxes (title_text : string)
  (** [fig.update_yaxes(title_text=y_label)] *)
  | Update_yaxes (title_text : string)
  (** [fig.update_layout(template=args["template"], overwrite=True)] *)
  | Set_template (template : Template).

(** The arguments of [imshow]; [arg_img] refers to the caller's object. *)
Record imshow_args := mk_args {
  arg_img : loc;
  arg_zmin : option zvalue;
  arg_zmax : option zvalue;
  arg_origin : option string;
  arg_labels : option (gmap string string);
  arg_color_continuous_scale : option colorscale_spec;
  arg_color_continuous_midpoint : option scalar;
  arg_range_color : option (list scalar);
  arg_title : option string;
  arg_template : option Template;
  arg_width : option Z;
  arg_height : option Z;
  arg_aspect : option string
}.

(** The entries of [args = locals()] that [imshow] reads back after
    [apply_default_cascade(args)]. *)
Record args_view := mk_args_view {
  args_color_continuous_scale : option colorscale_spec;
  args_title : option string;
  args_height : option Z;
  args_width : option Z;
  args_template : Template
}.

(** The local variables that the first part of [imshow] sets; [None] in
    [x_label], [y_label], [x], [y] is a name that is not bound yet. *)
Record locals := mk_locals {
  x_label : option string;
  y_label : option string;
  x : option coord;
  y : option coord;
  img_is_xarray : bool;
  aspect : option string;
  z_name : string
}.

(** [s.replace(newline, "<br>")] *)
Fixpoint replace_newline (s : string) : string :=
  match s with
  | EmptyString => EmptyString
  | String c rest =>
      if bool_decide (c = "010"%char) then "<br>" +:+ replace_newline rest
      else String c (replace_newline rest)
  end.

(** Python's truth value of a string, a number and a list. *)
Definition truthy_str (o : option string) : bool :=
  match o with Some s => negb (bool_decide (s = "")) | None => false end.
Definition truthy_num (o : option Z) : bool :=
  match o with Some n => negb (bool_decide (n = 0)) | None => false end.
Definition truthy_list {A} (o : option (list A)) : bool :=
  match o with Some (_ :: _) => true | _ => false end.

(** [l[i]] on a list or tuple. *)
Definition getitem {A} (what : string) (l : list A) (i : nat) : outcome A :=
  match l !! i with
  | Some v => Ok v
  | None => Raise (IndexError (what +:+ " index out of range"))
  end.

(** A local variable that must be bound where it is read. *)
Definition read_local {A} (name : string) (v : option A) : outcome A :=
  match v with
  | Some a => Ok a
  | None => Raise (UnboundLocalError name)
  end.

(** ** [imshow] *)

Section Imshow.
(** The platform, and whether [import xarray] succeeded. *)
Variable dm : data_model.
Variable xarray_imported : bool.

(** Collaborators from outside the module: [._core.apply_default_cascade],
    [ColorscaleValidator("colorscale", "imshow").validate_coerce], [repr] of
    a float and numpy's conversion of a datetime64 to [str].  [inl msg] is an
    exception of theirs. *)
Variable apply_default_cascade : imshow_args -> string + args_view.
Variable validate_coerce : option colorscale_spec -> string + Colorscale.
Variable repr_float : float -> string.
Variable datetime_str : Z -> string.

(** plotly's graph objects validate what they are given: a call is accepted,
    or it raises ([inl msg]), as a height below 10 or a list for [cmin] does. *)
Variable plotly_accepts : plotly_call -> string + unit.

Definition external {A} (r : string + A) : Py A :=
  match r with
  | inl msg => raise (External msg)
  | inr a => ret a
  end.

Definition load_DataArray (l : loc) : Py DataArray :=
  (o <- load l ;;
   match o with
   | ObjDataArray d => ret d
   | ObjNdarray _ => raise (TypeError "not a DataArray")
   end)%py.

(** [img.coords[key]]: the stored coordinate, or the default integer index
    that xarray makes up for a dimension without one. *)
Definition coords_getitem (img : loc) (key : string) : Py coord :=
  (d <- load_DataArray img ;;
   match xa_coords d !! key with
   | Some c => ret c
   | None =>
       v <- load_ndarray (xa_values d) ;;
       let dim_sizes : gmap string nat :=
         list_to_map (reverse (zip (xa_dims d) (shape v))) in
       match dim_sizes !! key with
       | Some n => ret (CoordNum (map (fun i => SInt (Z.of_nat i)) (seq 0 n)))
       | None => raise (KeyError key)
       end
   end)%py.

(** [img.coords[key] = c] *)
Definition coords_setitem (img : loc) (key : string) (c : coord) : Py unit :=
  (d <- load_DataArray img ;;
   store img (ObjDataArray
     (mk_DataArray (xa_values d) (xa_dims d) (<[key := c]> (xa_coords d)) (xa_label d))))%py.

Definition is_datetime64 (c : coord) : bool :=
  match c with CoordDatetime _ => true | _ => false end.

Definition coord_astype_str (c : coord) : coord :=
  match c with
  | CoordNum v => CoordStr (map (repr_scalar repr_float) v)
  | CoordDatetime ns => CoordStr (map datetime_str ns)
  | CoordStr v => CoordStr v
  end.

(** One round of the loop [for ax in [x_label, y_label]]. *)
Definition datetime_to_str (img : loc) (ax : string) : Py unit :=
  (c <- coords_getitem img ax ;;
   if is_datetime64 c then
     c' <- coords_getitem img ax ;;
     coords_setitem img ax (coord_astype_str c')
   else ret tt)%py.

Definition is_DataArray (img : loc) : Py bool :=
  (o <- load img ;;
   ret (match o with ObjDataArray _ => true | ObjNdarray _ => false end))%py.

(** Lines 170-184: what is read off a DataArray. *)
Definition read_xarray (a : imshow_args) : Py locals :=
  (let img := arg_img a in
   let l0 := mk_locals None None None None false (arg_aspect a) "" in
   if xarray_imported then
     isx <- is_DataArray img ;;
     if isx then
       d <- load_DataArray img ;;
       y_label <- lift (getitem "tuple" (xa_dims d) 0) ;;
       x_label <- lift (getitem "tuple" (xa_dims d) 1) ;;
       _ <- datetime_to_str img x_label ;;
       _ <- datetime_to_str img y_label ;;
       x <- coords_getitem img x_label ;;
       y <- coords_getitem img y_label ;;
       let aspect := match arg_aspect a with None => Some "auto" | asp => asp end in
       d' <- load_DataArray img ;;
       ret (mk_locals (Some x_label) (Some y_label) (Some x) (Some y) true aspect
                      (replace_newline (xa_label d')))
     else ret l0
   else ret l0)%py.

(** Lines 186-196: the label overrides and the default aspect. *)
Definition apply_labels (labels : option (gmap string string)) (l : locals) : locals :=
  let l1 :=
    match labels with
    | Some labels =>
        let x_label := match labels !! "x" with Some v => Some v | None => x_label l end in
        let y_label := match labels !! "y" with Some v => Some v | None => y_label l end in
        let z_name := match labels !! "color" with Some v => v | None => z_name l end in
        mk_locals x_label y_label (x l) (y l) (img_is_xarray l) (aspect l) z_name
    | None => l
    end in
  if negb (img_is_xarray l1) then
    match aspect l1 with
    | None => mk_locals (x_label l1) (y_label l1) (x l1) (y l1) (img_is_xarray l1)
                        (Some "equal") (z_name l1)
    | Some _ => l1
    end
  else l1.

(** [np.asanyarray(img)]: an ndarray is returned as it is, a DataArray
    hands out its values. *)
Definition np_asanyarray (img : loc) : Py loc :=
  (o <- load img ;;
   match o with
   | ObjNdarray _ => ret img
   | ObjDataArray d => ret (xa_values d)
   end)%py.

(** Lines 198-202: [img] is rebound to the array that is drawn. *)
Definition normalize (img : loc) : Py loc :=
  (img <- np_asanyarray img ;;
   a <- load_ndarray img ;;
   if dtype_eq dm (img_dtype a) (TypeObject np_bool) then
     let u := astype_uint8 (buf a) in
     _ <- alloc (ObjNdarray (mk_ndarray (IntBuf c_ubyte u) (shape a))) ;;
     alloc (ObjNdarray (mk_ndarray (IntBuf c_ubyte (uint8_mul 255 u)) (shape a)))
   else ret img)%py.

Definition str_eq (o : option string) (s : string) : bool := bool_decide (o = Some s).

(** Lines 205-226: a 2d array becomes a Heatmap trace. *)
Definition heatmap_branch (a : imshow_args) (args : args_view) (l : locals) (img : loc)
  : Py (trace * layout) :=
  (z <- load_ndarray img ;;
   let trace := mk_trace Heatmap z (Some "coloraxis1") None None None None None in
   let autorange := if str_eq (arg_origin a) "lower" then AutorangeTrue else AutorangeReversed in
   let equal := str_eq (aspect l) "equal" in
   let zmin := arg_zmin a in
   let zmax := arg_zmax a in
   zmax <- (if bool_decide (zmin <> None) && bool_decide (zmax = None)
            then m <- ndarray_max img ;; ret (Some (ZScalar m)) else ret zmax) ;;
   zmin <- (if bool_decide (zmax <> None) && bool_decide (zmin = None)
            then m <- ndarray_min img ;; ret (Some (ZScalar m)) else ret zmin) ;;
   let range_color : list (option zvalue) :=
     if truthy_list (arg_range_color a)
     then map (fun s => Some (ZScalar s)) (default [] (arg_range_color a))
     else [zmin; zmax] in
   cs <- external (validate_coerce (args_color_continuous_scale args)) ;;
   lo <- lift (getitem "list" range_color 0) ;;
   hi <- lift (getitem "list" range_color 1) ;;
   ret (trace,
        mk_layout (Some autorange)
                  (if equal then Some "domain" else None)
                  (if equal then Some "y" else None)
                  (if equal then Some "domain" else None)
                  (Some (mk_coloraxis cs (arg_color_continuous_midpoint a) lo hi (z_name l)))
                  None None None None None None None))%py.

(** Lines 229-236: an array with 3 or 4 channels becomes an Image trace. *)
Definition image_branch (a : imshow_args) (img : loc) : Py (trace * layout) :=
  (z <- load_ndarray img ;;
   let zmin := arg_zmin a in
   let zmax := arg_zmax a in
   zmax <- (if bool_decide (zmax = None) && negb (py_is (img_dtype z) (TypeObject np_uint8))
            then m <- _infer_zmax_from_type dm img ;; ret (Some (ZScalar m)) else ret zmax) ;;
   zmin <- lift (_vectorize_zvalue repr_float zmin) ;;
   zmax <- lift (_vectorize_zvalue repr_float zmax) ;;
   let trace := mk_trace Image z None zmin zmax None None None in
   ret (trace,
        mk_layout (if str_eq (arg_origin a) "lower" then Some AutorangeTrue else None)
                  None None None None None None None None None None None))%py.

Definition shape_message (s : list nat) : string :=
  "px.imshow only accepts 2D single-channel, RGB or RGBA images. "
  +:+ "An image of shape " +:+ str_shape s +:+ " was provided".

(** [img.ndim == 3 and img.shape[-1] in [3, 4]] *)
Definition is_rgb_shape (s : list nat) : bool :=
  bool_decide (length s = 3%nat)
  && match last s with
     | Some n => bool_decide (n = 3%nat) || bool_decide (n = 4%nat)
     | None => false
     end.

(** Lines 204-241: the choice of the trace. *)
Definition build_trace (a : imshow_args) (args : args_view) (l : locals) (img : loc)
  : Py (trace * layout) :=
  (z <- load_ndarray img ;;
   if bool_decide (ndim z = 2%nat) then heatmap_branch a args l img
   else if is_rgb_shape (shape z) then image_branch a img
   else raise (ValueError (shape_message (shape z))))%py.

(** Lines 243-265: the layout patch, the figure and what a DataArray adds.
    Each call of plotly is put to [plotly_accepts] where the source makes
    it; a call that is not accepted raises there. *)
Definition finish (args : args_view) (l : locals) (img : loc) (tl : trace * layout)
  : Py Figure :=
  (let tr := fst tl in
   let lay := snd tl in
   let patch_title := if truthy_str (args_title args) then args_title args else None in
   let patch_height := if truthy_num (args_height args) then args_height args else None in
   let patch_width := if truthy_num (args_width args) then args_width args else None in
   let patch_margin :=
     if bool_decide (patch_title = None)
        && bool_decide (template_margin_t (args_template args) = None)
     then Some 60 else None in
   z <- load_ndarray img ;;
   _ <- external (plotly_accepts (New_Figure tr lay)) ;;
   _ <- external (plotly_accepts
                    (Update_layout patch_title patch_height patch_width patch_margin)) ;;
   r <-
     (if img_is_xarray l then
        tr <- (if bool_decide (ndim z <= 2)%nat then
                 xl <- lift (read_local "x_label" (x_label l)) ;;
                 yl <- lift (read_local "y_label" (y_label l)) ;;
                 let hovertemplate :=
                   xl +:+ ": %{x} <br>" +:+ yl +:+ ": %{y} <br>" +:+ z_name l
                   +:+ " : %{z}<extra></extra>" in
                 xv <- lift (read_local "x" (x l)) ;;
                 yv <- lift (read_local "y" (y l)) ;;
                 _ <- external (plotly_accepts (Update_traces xv yv hovertemplate)) ;;
                 ret (mk_trace (tr_type tr) (tr_z tr) (tr_coloraxis tr) (tr_zmin tr)
                               (tr_zmax tr) (Some xv) (Some yv) (Some hovertemplate))
               else ret tr) ;;
        xl <- lift (read_local "x_label" (x_label l)) ;;
        _ <- external (plotly_accepts (Update_xaxes xl)) ;;
        yl <- lift (read_local "y_label" (y_label l)) ;;
        _ <- external (plotly_accepts (Update_yaxes yl)) ;;
        ret (tr, Some xl, Some yl)
      else ret (tr, None, None)) ;;
   let '(tr, xt, yt) := r in
   _ <- external (plotly_accepts (Set_template (args_template args))) ;;
   ret (mk_Figure tr
          (mk_layout (yaxis_autorange lay) (yaxis_constrain lay)
                     (xaxis_scaleanchor lay) (xaxis_constrain lay) (coloraxis1 lay)
                     patch_title patch_height patch_width patch_margin
                     xt yt (Some (args_template args)))))%py.

Definition imshow (a : imshow_args) : Py Figure :=
  (args <- external (apply_default_cascade a) ;;
   l <- read_xarray a ;;
   let l := apply_labels (arg_labels a) l in
   img <- normalize (arg_img a) ;;
   tl <- build_trace a args l img ;;
   finish args l img tl)%py.
End Imshow.

(** ** Notions used to state the properties *)

(** The numpy array behind an argument of [imshow]: the object itself, or the
    values of a DataArray. *)
Definition input_array (h : heap) (img : loc) : option ndarray :=
  match h !! img with
  | Some (ObjNdarray a) => Some a
  | Some (ObjDataArray d) =>
      match h !! xa_values d with
      | Some (ObjNdarray a) => Some a
      | _ => None
      end
  | None => None
  end.

(** The array that is drawn: a boolean array becomes 0 and 255 in uint8. *)
Definition remap (b : bool) : Z := if b then 255 else 0.

Definition normalized (a : ndarray) : ndarray :=
  match buf a with
  | BoolBuf l => mk_ndarray (IntBuf c_ubyte (map remap l)) (shape a)
  | _ => a
  end.

(** The shapes that [imshow] accepts. *)
Definition accepted_shape (s : list nat) : bool :=
  bool_decide (length s = 2%nat) || is_rgb_shape s.

(** The length of a sized value; a scalar has none. *)
Definition zlen (z : zvalue) : option nat :=
  match z with
  | ZScalar _ => None
  | ZList l | ZTuple l => Some (length l)
  end.

Definition accepted_length (n : nat) : bool :=
  bool_decide (n = 1%nat) || bool_decide (n = 3%nat) || bool_decide (n = 4%nat).

(** A range vector of an Image trace that is set has four entries. *)
Definition four_or_unset (z : option zvalue) : Prop :=
  match z with
  | None => True
  | Some v => zlen v = Some 4%nat
  end.

(** What vectorizing makes of a value that is given: a value of four entries
    is kept as it is, every other one becomes a list of four entries that
    ends in the opacity 1. *)
Definition vectorized (zin : zvalue) (zout : option zvalue) : Prop :=
  if bool_decide (zlen zin = Some 4%nat) then zout = Some zin
  else exists l, zout = Some (ZList l) /\ length l = 4%nat /\ l !! 3%nat = Some (SInt 1).

(** [c] is at least [m], with the tolerance of 5%. *)
Definition within_tolerance (m : scalar) (c : Z) : bool := scalar_le m (Z2float c * rtol).

(** The smallest of the candidates, listed in increasing order, that is at
    least [m] within the tolerance. *)
Definition smallest_within (candidates : list Z) (m : scalar) : option Z :=
  snd <$> list_find (fun c => within_tolerance m c = true) candidates.

(** The finite entries of a float buffer, in order. *)
Definition finite_values (l : list float) : list float := select (map is_finite l) l.

Definition set_labels (labels : option (gmap string string)) (a : imshow_args) : imshow_args :=
  mk_args (arg_img a) (arg_zmin a) (arg_zmax a) (arg_origin a) labels
          (arg_color_continuous_scale a) (arg_color_continuous_midpoint a)
          (arg_range_color a) (arg_title a) (arg_template a) (arg_width a)
          (arg_height a) (arg_aspect a).

(** The store has grown from [h] to [h'] and what the caller sees of its
    arrays is the same: an ndarray is untouched, a DataArray keeps its values
    and its dimensions. *)
Definition keeps (o o' : pyobj) : Prop :=
  match o with
  | ObjNdarray a => o' = ObjNdarray a
  | ObjDataArray d =>
      match o' with
      | ObjDataArray d' => xa_values d' = xa_values d /\ xa_dims d' = xa_dims d
      | ObjNdarray _ => False
      end
  end.

Definition stable (h h' : heap) : Prop :=
  (length h <= length h')%nat /\
  forall l o, h !! l = Some o -> exists o', h' !! l = Some o' /\ keeps o o'.

(** The relations between the store before and the store after that every
    allocation respects. *)
Class Growth (R : heap -> heap -> Prop) := {
  growth_refl : forall h, R h h;
  growth_trans : forall h1 h2 h3, R h1 h2 -> R h2 h3 -> R h1 h3;
  growth_alloc : forall h o, R h (h ++ [o])
}.

(** A computation whose every run relates the store before to the store
    after by [R]. *)
Definition respects (R : heap -> heap -> Prop) {A} (m : Py A) : Prop :=
  forall h, R h (snd (m h)).

(** A computation that raises only exceptions in [P]. *)
Definition raises_only (P : exn -> Prop) {A} (m : Py A) : Prop :=
  forall h e, fst (m h) = Raise e -> P e.

Definition not_shape_error (e : exn) : Prop :=
  forall s, e <> ValueError (shape_message s).

(** The display range of a Heatmap as the code resolves it: a non-empty
    [range_color] comes first; otherwise [zmin] and [zmax] are used, a missing
    one being filled from the array when the other is given. *)
Definition resolved_range (a : imshow_args) (z : ndarray) (lo hi : option zvalue) : Prop :=
  match arg_range_color a with
  | Some (r0 :: rest) =>
      lo = Some (ZScalar r0) /\ exists r1, rest !! 0%nat = Some r1 /\ hi = Some (ZScalar r1)
  | _ =>
      match arg_zmin a, arg_zmax a with
      | Some zmin, Some zmax => lo = Some zmin /\ hi = Some zmax
      | Some zmin, None =>
          lo = Some zmin /\ exists m, buffer_max (buf z) = Some m /\ hi = Some (ZScalar m)
      | None, Some zmax =>
          (exists m, buffer_min (buf z) = Some m /\ lo = Some (ZScalar m)) /\ hi = Some zmax
      | None, None => lo = None /\ hi = None
      end
  end.

(** What the resolution needs in order not to raise: an entry to fill a
    missing bound from, and two entries in a [range_color] that is given. *)
Definition range_defined (a : imshow_args) (z : ndarray) : Prop :=
  (match arg_zmin a, arg_zmax a with
   | Some _, None | None, Some _ => buffer_size (buf z) <> 0%nat
   | _, _ => True
   end)
  /\ (truthy_list (arg_range_color a) = true ->
      (2 <= length (default [] (arg_range_color a)))%nat).

(** An exception is what plotly raised for a call that it does not accept. *)
Definition plotly_rejection (plotly_accepts : plotly_call -> string + unit) (e : exn) : Prop :=
  exists c msg, plotly_accepts c = inl msg /\ e = External msg.

(** [imshow] returns, unless plotly does not accept a call of lines 249-264
    and [imshow] raises what that call raised. *)
Definition returns_unless_rejected (plotly_accepts : plotly_call -> string + unit)
    (r : outcome Figure) : Prop :=
  match r with
  | Ok _ => True
  | Raise e => plotly_rejection plotly_accepts e
  end.

(** ** A concrete setting for the examples *)

Definition plotly_template : Template := mk_Template "plotly" None.

Definition demo_cascade (a : imshow_args) : string + args_view :=
  inr (mk_args_view (arg_color_continuous_scale a) (arg_title a) (arg_height a) (arg_width a)
                    (default plotly_template (arg_template a))).

Definition demo_validate (c : option colorscale_spec) : string + Colorscale :=
  match c with
  | Some (ScaleColors cs) => inr (map (fun s => (0%float, s)) cs)
  | Some (ScaleName "gray") => inr [(0%float, "black"); (1%float, "white")]
  | Some (ScaleName n) => inl ("Invalid colorscale " +:+ n)
  | None => inl "Invalid colorscale None"
  end.

Definition demo_repr_float (f : float) : string := "<float>".
Definition demo_datetime_str (t : Z) : string := str_Z t.

(** plotly's validators, as far as the examples go: a height or a width
    below 10 is refused, and so is a list or a tuple for an end of the colour
    axis. *)
Definition below_ten (n : option Z) : bool :=
  match n with Some v => bool_decide (v < 10) | None => false end.

Definition is_sequence (z : option zvalue) : bool :=
  match z with Some (ZList _ | ZTuple _) => true | _ => false end.

Definition demo_plotly (c : plotly_call) : string + unit :=
  match c with
  | New_Figure _ lay =>
      match coloraxis1 lay with
      | Some ca =>
          if is_sequence (cmin ca) || is_sequence (cmax ca)
          then inl "Invalid value for the cmin or cmax property of layout.coloraxis"
          else inr tt
      | None => inr tt
      end
  | Update_layout _ height width _ =>
      if below_ten height || below_ten width
      then inl "Invalid value for the height or width property of layout"
      else inr tt
  | _ => inr tt
  end.

Definition demo_imshow : imshow_args -> Py Figure :=
  imshow LP64 true demo_cascade demo_validate demo_repr_float demo_datetime_str demo_plotly.

(** [imshow(img)] with every option left out, but a gray colour scale. *)
Definition plain_args (img : loc) : imshow_args :=
  mk_args img None None None (Some ∅) (Some (ScaleName "gray")) None None None None None None None.

Definition with_range (zmin zmax : option zvalue) (rc : option (list scalar)) (a : imshow_args)
  : imshow_args :=
  mk_args (arg_img a) zmin zmax (arg_origin a) (arg_labels a)
          (arg_color_continuous_scale a) (arg_color_continuous_midpoint a)
          rc (arg_title a) (arg_template a) (arg_width a) (arg_height a) (arg_aspect a).

Definition heap_of (a : ndarray) : heap := [ObjNdarray a].

Definition gray_2x2 : ndarray := mk_ndarray (IntBuf c_ushort [7; 300; 12; 40]) [2%nat; 2%nat].
Definition rgb_uint8 : ndarray := mk_ndarray (IntBuf c_ubyte [10; 20; 30]) [1%nat; 1%nat; 3%nat].
Definition rgb_uint16 : ndarray := mk_ndarray (IntBuf c_ushort [10; 20; 30]) [1%nat; 1%nat; 3%nat].
Definition rgb_float (l : list float) : ndarray :=
  mk_ndarray (FloatBuf f_double l) [1%nat; 1%nat; 3%nat].
Definition bool_1x2 : ndarray := mk_ndarray (BoolBuf [true; false]) [1%nat; 2%nat].
Definition shape_4_5_2 : ndarray :=
  mk_ndarray (IntBuf c_ubyte (replicate 40 0)) [4%nat; 5%nat; 2%nat].

(** The binary64 value nearest to 0.98. *)
Definition f0_98 : float := 0x1.f5c28f5c28f5cp-1%float.

(** ** Notions used for the further properties *)

(** The hover text of line 253. *)
Definition hover_text (xl yl zn : string) : string :=
  xl +:+ ": %{x} <br>" +:+ yl +:+ ": %{y} <br>" +:+ zn +:+ " : %{z}<extra></extra>".

(** The aspect mode in force after lines 182-196, for a plain array and for
    a DataArray. *)
Definition plain_aspect (asp : option string) : option string :=
  match asp with None => Some "equal" | _ => asp end.
Definition xarray_aspect (asp : option string) : option string :=
  match asp with None => Some "auto" | Some mode => Some mode end.

(** An array has an entry that [np.isfinite] keeps. *)
Definition has_finite (b : buffer) : bool :=
  match b with
  | BoolBuf l => bool_decide (l <> [])
  | IntBuf _ l => bool_decide (l <> [])
  | FloatBuf _ l => existsb is_finite l
  end.

Definition is_integer_buffer (b : buffer) : bool :=
  match b with IntBuf _ _ => true | _ => false end.

Fixpoint has_newline (s : string) : bool :=
  match s with
  | EmptyString => false
  | String c rest => bool_decide (c = "010"%char) || has_newline rest
  end.

Definition is_unbound (e : exn) : bool :=
  match e with UnboundLocalError _ => true | _ => false end.

(** Where [x_label], [y_label], [x] and [y] are read, they are bound. *)
Definition bound_if_xarray (l : locals) : Prop :=
  img_is_xarray l = true ->
  is_Some (x_label l) /\ is_Some (y_label l) /\ is_Some (x l) /\ is_Some (y l).

(** The DataArray at [img] has the coordinate [c] stored for [ax]; and a
    store that has it keeps it. *)
Definition coord_at (img : loc) (ax : string) (c : coord) (h : heap) : Prop :=
  exists d, h !! img = Some (ObjDataArray d) /\ xa_coords d !! ax = Some c.

Definition keeps_coord (img : loc) (ax : string) (c : coord) (h h' : heap) : Prop :=
  coord_at img ax c h -> coord_at img ax c h'.

(** A computation that leaves the store [h] as it is. *)
Definition unchanged {A} (m : Py A) (h : heap) : Prop := snd (m h) = h.

(** Nothing of a DataArray but its coordinates changes. *)
Definition same_but_coords (o o' : pyobj) : Prop :=
  match o with
  | ObjNdarray a => o' = ObjNdarray a
  | ObjDataArray d =>
      match o' with
      | ObjDataArray d' =>
          xa_values d' = xa_values d /\ xa_dims d' = xa_dims d /\ xa_label d' = xa_label d
      | ObjNdarray _ => False
      end
  end.

Definition steady (h h' : heap) : Prop :=
  (length h <= length h')%nat /\
  forall l o, h !! l = Some o -> exists o', h' !! l = Some o' /\ same_but_coords o o'.

(** A DataArray for the examples: a 2 x 2 grid over a day axis and a
    numbered axis, with a label of two lines. *)
Definition gray_values : ndarray := mk_ndarray (FloatBuf f_double [1; 2; 3; 4]%float) [2%nat; 2%nat].
Definition two_line_label : string := "temperature" +:+ String "010"%char "[K]".
Definition demo_DataArray : DataArray :=
  mk_DataArray 0%nat ["row"; "day"] {["day" := CoordDatetime [0; 86400]]} two_line_label.
Definition xarray_heap : heap := [ObjNdarray gray_values; ObjDataArray demo_DataArray].
Definition line_DataArray : DataArray := mk_DataArray 0%nat ["row"] ∅ "".
Definition line_heap : heap :=
  [ObjNdarray (mk_ndarray (FloatBuf f_double [1; 2]%float) [2%nat]); ObjDataArray line_DataArray].
Definition grid_DataArray : DataArray :=
  mk_DataArray 0%nat ["row"; "col"] {["col" := CoordNum [SInt 10; SInt 20]]} "height".
Definition grid_heap : heap := [ObjNdarray gray_values; ObjDataArray grid_DataArray].
Definition empty_2d : ndarray := mk_ndarray (FloatBuf f_double []) [0%nat; 5%nat].
Definition nan_rgb : ndarray := rgb_float [nan; infinity; neg_infinity]%float.

Definition with_labels_origin (labels : option (gmap string string)) (origin : option string)
    (asp : option string) (title : option string) (a : imshow_args) : imshow_args :=
  mk_args (arg_img a) (arg_zmin a) (arg_zmax a) origin labels
          (arg_color_continuous_scale a) (arg_color_continuous_midpoint a)
          (arg_range_color a) title (arg_template a) (arg_width a) (arg_height a) asp.

(** The argument of [imshow] is a DataArray. *)
Definition is_labeled (h : heap) (img : loc) : bool :=
  match h !! img with Some (ObjDataArray _) => true | _ => false end.

(** The three entries of the layout that tie the scales of the axes. *)
Definition axis_constraints (lay : layout) : option string * option string * option string :=
  (xaxis_scaleanchor lay, xaxis_constrain lay, yaxis_constrain lay).

Definition set_color_options (scale : option colorscale_spec) (mid : option scalar)
    (rc : option (list scalar)) (a : imshow_args) : imshow_args :=
  mk_args (arg_img a) (arg_zmin a) (arg_zmax a) (arg_origin a) (arg_labels a)
          scale mid rc (arg_title a) (arg_template a) (arg_width a) (arg_height a)
          (arg_aspect a).

(** What is left of [read_xarray] on a DataArray, once its first two
    dimensions are known. *)
Definition read_labeled (repr_float : float -> string) (datetime_str : Z -> string)
    (img : loc) (asp : option string) (ydim xdim : string) : Py locals :=
  (_ <- datetime_to_str repr_float datetime_str img xdim ;;
   _ <- datetime_to_str repr_float datetime_str img ydim ;;
   x <- coords_getitem img xdim ;;
   y <- coords_getitem img ydim ;;
   d' <- load_DataArray img ;;
   ret (mk_locals (Some xdim) (Some ydim) (Some x) (Some y) true (xarray_aspect asp)
                  (replace_newline (xa_label d'))))%py.

(** The label that [labels] gives for [key], or the default. *)
Definition label_or (labels : option (gmap string string)) (key dflt : string) : string :=
  default dflt (labels ≫= (.!! key)).

Definition never_unbound (e : exn) : Prop := is_unbound e = false.

(** An exception of a collaborator, not one that this module raises. *)
Definition is_external (e : exn) : bool :=
  match e with External _ => true | _ => false end.

(** A range value that [_vectorize_zvalue] takes: one that is left out, a
    scalar, or a list or tuple of 1, 3 or 4 entries. *)
Definition accepted_zvalue (z : option zvalue) : bool :=
  match z ≫= zlen with
  | Some n => accepted_length n
  | None => true
  end.

(** * Properties *)

(** ** The store only grows, and the caller's arrays stay as they are *)

Lemma keeps_refl o : keeps o o.
Proof. destruct o; simpl; auto. Qed.

Lemma keeps_trans o1 o2 o3 : keeps o1 o2 -> keeps o2 o3 -> keeps o1 o3.
Proof.
  destruct o1 as [a|d]; simpl.
  - intros ->. auto.
  - destruct o2 as [|d2]; [tauto|]. destruct o3 as [|d3]; simpl; [tauto|].
    intros [-> ->] [-> ->]. auto.
Qed.

Lemma stable_refl h : stable h h.
Proof. split; [lia|]. intros l o Hl. exists o. split; [done|apply keeps_refl]. Qed.

Lemma stable_trans h1 h2 h3 : stable h1 h2 -> stable h2 h3 -> stable h1 h3.
Proof.
  intros [Hlen1 H1] [Hlen2 H2]. split; [lia|].
  intros l o Hl. destruct (H1 l o Hl) as (o2 & Hl2 & Hk2).
  destruct (H2 l o2 Hl2) as (o3 & Hl3 & Hk3).
  exists o3. split; [done|]. eapply keeps_trans; eauto.
Qed.

Lemma prefix_stable h h' : h `prefix_of` h' -> stable h h'.
Proof.
  intros [ext ->]. split.
  - rewrite length_app. lia.
  - intros l o Hl. exists o. split; [|apply keeps_refl].
    by apply lookup_app_l_Some.
Qed.

Lemma stable_input_array h h' img : stable h h' -> forall a,
  input_array h img = Some a -> input_array h' img = Some a.
Proof.
  intros [_ Hst] a. unfold input_array.
  destruct (h !! img) as [[x|d]|] eqn:Himg; [| |done].
  - destruct (Hst _ _ Himg) as (o' & -> & Hk). simpl in Hk. by subst o'.
  - destruct (Hst _ _ Himg) as (o' & -> & Hk). simpl in Hk.
    destruct o' as [|d']; [done|]. destruct Hk as [-> _].
    destruct (h !! xa_values d) as [[y|]|] eqn:Hv; try done.
    destruct (Hst _ _ Hv) as (o'' & -> & Hk'). simpl in Hk'. by subst o''.
Qed.

#[global] Instance prefix_growth : Growth (prefix : heap -> heap -> Prop).
Proof.
  split.
  - intros h. reflexivity.
  - intros h1 h2 h3. apply transitivity.
  - intros h o. by apply prefix_app_r.
Qed.

#[global] Instance stable_growth : Growth stable.
Proof.
  split.
  - apply stable_refl.
  - apply stable_trans.
  - intros h o. apply prefix_stable. by apply prefix_app_r.
Qed.

Create HintDb respects.

Section Respects.
Context (R : heap -> heap -> Prop) `{HR : !Growth R}.

Lemma respects_ret {A} (a : A) : respects R (ret a).
Proof. intros h. apply growth_refl. Qed.

Lemma respects_raise {A} e : respects R (@raise A e).
Proof. intros h. apply growth_refl. Qed.

Lemma respects_lift {A} (o : outcome A) : respects R (lift o).
Proof. intros h. apply growth_refl. Qed.

Lemma respects_bind {A B} (m : Py A) (k : A -> Py B) :
  respects R m -> (forall a, respects R (k a)) -> respects R (bind m k).
Proof.
  intros Hm Hk h. unfold bind. specialize (Hm h).
  destruct (m h) as [[a|e] h1]; simpl in *; [|done].
  eapply growth_trans; [exact Hm|apply Hk].
Qed.

Lemma respects_alloc o : respects R (alloc o).
Proof. intros h. apply growth_alloc. Qed.

Lemma respects_load l : respects R (load l).
Proof. intros h. unfold load. destruct (h !! l); apply growth_refl. Qed.

Lemma respects_external {A} (r : string + A) : respects R (external r).
Proof. destruct r; [apply respects_raise|apply respects_ret]. Qed.
End Respects.

#[global] Hint Resolve prefix_growth stable_growth respects_ret respects_raise respects_lift
  respects_alloc respects_load respects_external : respects.

Ltac respects_step :=
  match goal with
  | |- respects _ (bind _ _) => apply respects_bind; [..|intros]
  | |- respects _ (match ?x with _ => _ end) => destruct x
  | |- respects _ (let (_, _) := ?x in _) => destruct x
  end.
Ltac respects_auto := repeat first [solve [eauto with respects] | respects_step].

Section RespectsCalls.
Context (R : heap -> heap -> Prop) `{HR : !Growth R}.

Lemma respects_load_ndarray l : respects R (load_ndarray l).
Proof. unfold load_ndarray. respects_auto. Qed.
Hint Resolve respects_load_ndarray : respects.

Lemma respects_ndarray_max l : respects R (ndarray_max l).
Proof. unfold ndarray_max. respects_auto. Qed.

Lemma respects_ndarray_min l : respects R (ndarray_min l).
Proof. unfold ndarray_min. respects_auto. Qed.

Lemma respects_np_isfinite l : respects R (np_isfinite l).
Proof. unfold np_isfinite. respects_auto. Qed.

Lemma respects_ndarray_getitem_mask l m : respects R (ndarray_getitem_mask l m).
Proof. unfold ndarray_getitem_mask. respects_auto. Qed.
Hint Resolve respects_ndarray_max respects_ndarray_min respects_np_isfinite
  respects_ndarray_getitem_mask : respects.

Lemma respects_infer dm img : respects R (_infer_zmax_from_type dm img).
Proof. unfold _infer_zmax_from_type. respects_auto. Qed.
Hint Resolve respects_infer : respects.

Section Calls.
Variable dm : data_model.
Variable xarray_imported : bool.
Variable apply_default_cascade : imshow_args -> string + args_view.
Variable validate_coerce : option colorscale_spec -> string + Colorscale.
Variable repr_float : float -> string.
Variable datetime_str : Z -> string.
Variable plotly_accepts : plotly_call -> string + unit.

Lemma respects_np_asanyarray img : respects R (np_asanyarray img).
Proof. unfold np_asanyarray. respects_auto. Qed.
Hint Resolve respects_np_asanyarray : respects.

Lemma respects_normalize img : respects R (normalize dm img).
Proof. unfold normalize. respects_auto. Qed.

Lemma respects_heatmap_branch a args l img :
  respects R (heatmap_branch validate_coerce a args l img).
Proof. unfold heatmap_branch. respects_auto. Qed.

Lemma respects_image_branch a img : respects R (image_branch dm repr_float a img).
Proof. unfold image_branch. respects_auto. Qed.
Hint Resolve respects_heatmap_branch respects_image_branch : respects.

Lemma respects_build_trace a args l img :
  respects R (build_trace dm validate_coerce repr_float a args l img).
Proof. unfold build_trace. respects_auto. Qed.

Lemma respects_finish args l img tl : respects R (finish plotly_accepts args l img tl).
Proof. unfold finish. respects_auto. Qed.
End Calls.
End RespectsCalls.

(** ** Which exceptions the parts of [imshow] raise *)

Lemma zero_size_not_shape op : not_shape_error (zero_size op).
Proof. intros s. unfold zero_size, shape_message. intros [=]. Qed.

Lemma zmax_message_not_shape repr z : not_shape_error (ValueError (zmax_message repr z)).
Proof. intros s. unfold zmax_message, shape_message. intros [=]. Qed.

Lemma raises_only_ret {A} P (a : A) : raises_only P (ret a).
Proof. intros h e. discriminate. Qed.

Lemma raises_only_raise {A} (P : exn -> Prop) e : P e -> raises_only P (@raise A e).
Proof. intros HP h e' [= <-]. exact HP. Qed.

Lemma raises_only_bind {A B} P (m : Py A) (k : A -> Py B) :
  raises_only P m -> (forall a, raises_only P (k a)) -> raises_only P (bind m k).
Proof.
  intros Hm Hk h e. unfold bind. specialize (Hm h).
  destruct (m h) as [[a|e'] h1]; simpl in *.
  - apply Hk.
  - intros [= <-]. by apply Hm.
Qed.

Lemma raises_only_alloc P o : raises_only P (alloc o).
Proof. intros h e. discriminate. Qed.

Lemma raises_only_store P l o : raises_only P (store l o).
Proof. intros h e. discriminate. Qed.

Lemma raises_only_load l : raises_only not_shape_error (load l).
Proof.
  intros h e. unfold load. destruct (h !! l); simpl; [discriminate|].
  intros [= <-] s. discriminate.
Qed.

Lemma raises_only_external {A} (r : string + A) : raises_only not_shape_error (external r).
Proof.
  destruct r; [|apply raises_only_ret].
  apply raises_only_raise. intros s'. discriminate.
Qed.

Lemma raises_only_getitem {A} what (l : list A) i :
  raises_only not_shape_error (lift (getitem what l i)).
Proof.
  intros h e. unfold lift, getitem. destruct (l !! i); simpl; [discriminate|].
  intros [= <-] s. discriminate.
Qed.

Lemma raises_only_read_local {A} name (v : option A) :
  raises_only not_shape_error (lift (read_local name v)).
Proof.
  intros h e. unfold lift, read_local. destruct v; simpl; [discriminate|].
  intros [= <-] s. discriminate.
Qed.

Lemma raises_only_vectorize repr z :
  raises_only not_shape_error (lift (_vectorize_zvalue repr z)).
Proof.
  intros h e. unfold lift, _vectorize_zvalue. simpl.
  destruct z as [[s|l|l]|]; try discriminate;
    repeat case_bool_decide; try discriminate;
    intros [= <-]; apply zmax_message_not_shape.
Qed.

Create HintDb raises.
#[global] Hint Resolve raises_only_ret raises_only_alloc raises_only_store raises_only_load
  raises_only_external raises_only_getitem raises_only_read_local raises_only_vectorize
  zero_size_not_shape : raises.

Ltac raises_step :=
  match goal with
  | |- raises_only _ (bind _ _) => apply raises_only_bind; [|intros]
  | |- raises_only _ (raise _) => apply raises_only_raise; try (intros ?; discriminate)
  | |- raises_only _ (match ?x with _ => _ end) => destruct x
  | |- raises_only _ (let (_, _) := ?x in _) => destruct x
  end.
Ltac raises_auto := repeat first [solve [eauto with raises] | raises_step].

Lemma raises_only_load_ndarray l : raises_only not_shape_error (load_ndarray l).
Proof. unfold load_ndarray. raises_auto. Qed.
#[global] Hint Resolve raises_only_load_ndarray : raises.

Lemma raises_only_ndarray_max l : raises_only not_shape_error (ndarray_max l).
Proof. unfold ndarray_max. raises_auto. Qed.

Lemma raises_only_ndarray_min l : raises_only not_shape_error (ndarray_min l).
Proof. unfold ndarray_min. raises_auto. Qed.

Lemma raises_only_np_isfinite l : raises_only not_shape_error (np_isfinite l).
Proof. unfold np_isfinite. raises_auto. Qed.

Lemma raises_only_ndarray_getitem_mask l m :
  raises_only not_shape_error (ndarray_getitem_mask l m).
Proof. unfold ndarray_getitem_mask. raises_auto. Qed.
#[global] Hint Resolve raises_only_ndarray_max raises_only_ndarray_min raises_only_np_isfinite
  raises_only_ndarray_getitem_mask : raises.

Lemma raises_only_infer dm img : raises_only not_shape_error (_infer_zmax_from_type dm img).
Proof. unfold _infer_zmax_from_type. raises_auto. Qed.
#[global] Hint Resolve raises_only_infer : raises.

Section RaisesCalls.
Variable dm : data_model.
Variable xarray_imported : bool.
Variable apply_default_cascade : imshow_args -> string + args_view.
Variable validate_coerce : option colorscale_spec -> string + Colorscale.
Variable repr_float : float -> string.
Variable datetime_str : Z -> string.
Variable plotly_accepts : plotly_call -> string + unit.

Lemma raises_only_load_DataArray l : raises_only not_shape_error (load_DataArray l).
Proof. unfold load_DataArray. raises_auto. Qed.
Hint Resolve raises_only_load_DataArray : raises.

Lemma raises_only_coords_getitem img key :
  raises_only not_shape_error (coords_getitem img key).
Proof. unfold coords_getitem. raises_auto. Qed.

Lemma raises_only_coords_setitem img key c :
  raises_only not_shape_error (coords_setitem img key c).
Proof. unfold coords_setitem. raises_auto. Qed.
Hint Resolve raises_only_coords_getitem raises_only_coords_setitem : raises.

Lemma raises_only_datetime_to_str img ax :
  raises_only not_shape_error (datetime_to_str repr_float datetime_str img ax).
Proof. unfold datetime_to_str. raises_auto. Qed.

Lemma raises_only_is_DataArray img : raises_only not_shape_error (is_DataArray img).
Proof. unfold is_DataArray. raises_auto. Qed.
Hint Resolve raises_only_datetime_to_str raises_only_is_DataArray : raises.

Lemma raises_only_read_xarray a :
  raises_only not_shape_error (read_xarray xarray_imported repr_float datetime_str a).
Proof. unfold read_xarray. raises_auto. Qed.

Lemma raises_only_np_asanyarray img : raises_only not_shape_error (np_asanyarray img).
Proof. unfold np_asanyarray. raises_auto. Qed.
Hint Resolve raises_only_np_asanyarray : raises.

Lemma raises_only_normalize img : raises_only not_shape_error (normalize dm img).
Proof. unfold normalize. raises_auto. Qed.

Lemma raises_only_heatmap_branch a args l img :
  raises_only not_shape_error (heatmap_branch validate_coerce a args l img).
Proof. unfold heatmap_branch. raises_auto. Qed.

Lemma raises_only_image_branch a img :
  raises_only not_shape_error (image_branch dm repr_float a img).
Proof. unfold image_branch. raises_auto. Qed.

Lemma raises_only_finish args l img tl :
  raises_only not_shape_error (finish plotly_accepts args l img tl).
Proof. unfold finish. raises_auto. Qed.
End RaisesCalls.

(** ** What each part of [imshow] computes *)

Lemma bind_ext {A B} (m : Py A) (k1 k2 : A -> Py B) h :
  (forall a h', k1 a h' = k2 a h') -> bind m k1 h = bind m k2 h.
Proof. intros Hk. unfold bind. destruct (m h) as [[a|e] h']; [apply Hk|done]. Qed.

Lemma load_ndarray_eq h l a : h !! l = Some (ObjNdarray a) -> load_ndarray l h = (Ok a, h).
Proof. intros Hl. unfold load_ndarray, bind, load. by rewrite Hl. Qed.

Lemma load_ndarray_inv h l a h' :
  load_ndarray l h = (Ok a, h') -> h' = h /\ h !! l = Some (ObjNdarray a).
Proof.
  unfold load_ndarray, bind, load.
  destruct (h !! l) as [[x|d]|]; simpl; intros [= <- <-] || intros [=]; auto.
Qed.

Lemma input_array_plain h img a : h !! img = Some (ObjNdarray a) -> input_array h img = Some a.
Proof. intros Hl. unfold input_array. by rewrite Hl. Qed.

Lemma normalized_shape a : shape (normalized a) = shape a.
Proof. unfold normalized. by destruct (buf a). Qed.

Lemma normalized_not_bool a : dtype_type a <> np_bool -> normalized a = a.
Proof. unfold normalized, dtype_type. by destruct (buf a). Qed.

Lemma uint8_mul_astype l :
  uint8_mul 255 (astype_uint8 (BoolBuf l)) = map remap l.
Proof.
  unfold uint8_mul. simpl. rewrite map_map. apply map_ext. by intros [].
Qed.

Lemma dtype_eq_bool dm a :
  dtype_eq dm (img_dtype a) (TypeObject np_bool)
  = match buf a with BoolBuf _ => true | _ => false end.
Proof. unfold dtype_eq, img_dtype, dtype_type. simpl. by destruct (buf a). Qed.

(** The identity test of line 230 never succeeds: a dtype instance is not a
    type object. *)
Lemma dtype_is_not_a_type a t : py_is (img_dtype a) (TypeObject t) = false.
Proof. reflexivity. Qed.

Lemma buffer_max_nonempty b : buffer_size b <> 0%nat -> is_Some (buffer_max b).
Proof. destruct b as [[|? ?]|? [|? ?]|? [|? ?]]; simpl; eauto; done. Qed.

Lemma buffer_min_nonempty b : buffer_size b <> 0%nat -> is_Some (buffer_min b).
Proof. destruct b as [[|? ?]|? [|? ?]|? [|? ?]]; simpl; eauto; done. Qed.

Lemma ndarray_max_eq h l a :
  h !! l = Some (ObjNdarray a) ->
  ndarray_max l h = (match buffer_max (buf a) with
                     | Some s => Ok s
                     | None => Raise (zero_size "maximum")
                     end, h).
Proof.
  intros Hl. unfold ndarray_max, bind. rewrite (load_ndarray_eq _ _ _ Hl).
  by destruct (buffer_max (buf a)).
Qed.

Lemma ndarray_min_eq h l a :
  h !! l = Some (ObjNdarray a) ->
  ndarray_min l h = (match buffer_min (buf a) with
                     | Some s => Ok s
                     | None => Raise (zero_size "minimum")
                     end, h).
Proof.
  intros Hl. unfold ndarray_min, bind. rewrite (load_ndarray_eq _ _ _ Hl).
  by destruct (buffer_min (buf a)).
Qed.

Lemma in_integer_types c : bool_decide (np_integer c ∈ _integer_types) = true.
Proof. by destruct c. Qed.

Lemma integer_ranges_get dm c :
  dict_get (_integer_ranges dm) (np_integer c) = Some (iinfo_min dm c, iinfo_max dm c).
Proof. by destruct c. Qed.

Lemma floating_not_integer k : bool_decide (np_floating k ∈ _integer_types) = false.
Proof. by destruct k. Qed.

Lemma bool_not_integer : bool_decide (np_bool ∈ _integer_types) = false.
Proof. done. Qed.

Lemma infer_integer dm h img a c l :
  h !! img = Some (ObjNdarray a) -> buf a = IntBuf c l ->
  _infer_zmax_from_type dm img h = (Ok (SInt (iinfo_max dm c)), h).
Proof.
  intros Hl Hb. unfold _infer_zmax_from_type, bind. rewrite (load_ndarray_eq _ _ _ Hl).
  unfold dtype_type. rewrite Hb, in_integer_types, integer_ranges_get. done.
Qed.

(** The three comparisons of the source, as a search through the buckets. *)
Lemma bucket_search (m : scalar) :
  (if scalar_le m (Z2float 1 * rtol) then 1
   else if scalar_le m (Z2float 255 * rtol) then 255
   else if scalar_le m (Z2float 65535 * rtol) then 65535
   else 2 ^ 32)
  = default (2 ^ 32) (smallest_within [1; 255; 65535] m).
Proof.
  unfold smallest_within, within_tolerance.
  simpl. repeat (destruct (scalar_le m _); simpl; try done).
Qed.

Lemma infer_floating dm h img a k l :
  h !! img = Some (ObjNdarray a) -> buf a = FloatBuf k l ->
  exists h', h `prefix_of` h' /\
    _infer_zmax_from_type dm img h
    = (match reduce fmaximum (finite_values l) with
       | Some m => Ok (SInt (default (2 ^ 32) (smallest_within [1; 255; 65535] (SFloat m))))
       | None => Raise (zero_size "maximum")
       end, h').
Proof.
  intros Hl Hb. unfold _infer_zmax_from_type. unfold bind at 1.
  rewrite (load_ndarray_eq _ _ _ Hl). unfold dtype_type. rewrite Hb, floating_not_integer.
  set (mask := ObjNdarray (mk_ndarray (BoolBuf (isfinite (buf a))) (shape a))).
  set (sel := ObjNdarray (getitem_mask a (isfinite (buf a)))).
  exists (h ++ [mask] ++ [sel]). split; [by apply prefix_app_r|].
  assert (np_isfinite img h = (Ok (length h), h ++ [mask])) as Hfin.
  { unfold np_isfinite, bind. by rewrite (load_ndarray_eq _ _ _ Hl). }
  assert (ndarray_getitem_mask img (length h) (h ++ [mask])
          = (Ok (length (h ++ [mask])), (h ++ [mask]) ++ [sel])) as Hget.
  { unfold ndarray_getitem_mask, bind.
    rewrite (load_ndarray_eq _ _ a) by (by apply lookup_app_l_Some).
    rewrite (load_ndarray_eq _ (length h) (mk_ndarray (BoolBuf (isfinite (buf a))) (shape a)))
      by (by rewrite list_lookup_middle).
    done. }
  unfold bind at 1. rewrite Hfin. unfold bind at 1. rewrite Hget.
  unfold bind at 1.
  rewrite (ndarray_max_eq _ _ (getitem_mask a (isfinite (buf a))))
    by (by rewrite list_lookup_middle).
  rewrite <- (assoc_L (++)). unfold getitem_mask. rewrite Hb. simpl.
  fold (finite_values l).
  destruct (reduce fmaximum (finite_values l)) as [m|]; simpl; [|done].
  rewrite <- bucket_search. simpl.
  by repeat (destruct (scalar_le _ _)).
Qed.

Lemma vectorize_four repr z r :
  _vectorize_zvalue repr z = Ok r ->
  four_or_unset r /\ (z = None <-> r = None).
Proof.
  unfold _vectorize_zvalue.
  destruct z as [[s|l|l]|]; simpl.
  - intros [= <-]. simpl. split; [done|]. split; discriminate.
  - repeat case_bool_decide; intros [= <-]; simpl;
      (split; [|split; discriminate]); rewrite ?length_app; simpl;
      try (destruct l as [|? [|]]; simpl in *; congruence); try congruence.
    f_equal. lia.
  - repeat case_bool_decide; intros [= <-]; simpl;
      (split; [|split; discriminate]); rewrite ?length_app; simpl;
      try (destruct l as [|? [|]]; simpl in *; congruence); try congruence.
    f_equal. lia.
  - intros [= <-]. done.
Qed.

(** The calls of plotly that a run went through were accepted. *)
Ltac accepted_calls :=
  repeat match goal with
         | |- context [match ?pa ?c with inl _ => _ | inr _ => _ end] =>
             destruct (pa c) as [?|[]] eqn:?; simpl; try discriminate
         end.

(** When plotly accepts every call, getting to the figure is returning it. *)
Lemma returns_when_accepted plotly_accepts (r : outcome Figure) :
  (forall c, plotly_accepts c = inr tt) ->
  returns_unless_rejected plotly_accepts r -> exists fig, r = Ok fig.
Proof.
  intros Hall. destruct r as [fig|e]; simpl; [eauto|].
  intros (c & msg & Hc & _). by rewrite Hall in Hc.
Qed.

Section ImshowFacts.
Variable dm : data_model.
Variable xarray_imported : bool.
Variable apply_default_cascade : imshow_args -> string + args_view.
Variable validate_coerce : option colorscale_spec -> string + Colorscale.
Variable repr_float : float -> string.
Variable datetime_str : Z -> string.
Variable plotly_accepts : plotly_call -> string + unit.

Local Abbreviation read_xarray' := (read_xarray xarray_imported repr_float datetime_str).
Local Abbreviation build_trace' := (build_trace dm validate_coerce repr_float).
Local Abbreviation heatmap_branch' := (heatmap_branch validate_coerce).
Local Abbreviation image_branch' := (image_branch dm repr_float).
Local Abbreviation imshow' :=
  (imshow dm xarray_imported apply_default_cascade validate_coerce repr_float datetime_str
          plotly_accepts).

Lemma coords_setitem_stable img key c : respects stable (coords_setitem img key c).
Proof.
  intros h. unfold coords_setitem, bind, load_DataArray, bind, load, store. cbn beta.
  destruct (h !! img) as [[x|d]|] eqn:Himg; simpl; try apply stable_refl.
  split; [by rewrite length_insert|].
  intros l o Hl. destruct (decide (l = img)) as [->|Hne].
  - rewrite list_lookup_insert_eq; [|by eapply lookup_lt_Some].
    eexists. split; [done|]. rewrite Himg in Hl. injection Hl as <-. by simpl.
  - rewrite list_lookup_insert_ne; [|done]. exists o. split; [done|apply keeps_refl].
Qed.

Lemma read_xarray_stable a : respects stable (read_xarray' a).
Proof.
  pose proof coords_setitem_stable.
  assert (forall l, respects stable (load_DataArray l)) by (intros; unfold load_DataArray; respects_auto).
  assert (forall l k, respects stable (coords_getitem l k))
    by (intros; unfold coords_getitem; pose proof (respects_load_ndarray stable); respects_auto).
  assert (forall l k, respects stable (datetime_to_str repr_float datetime_str l k))
    by (intros; unfold datetime_to_str; respects_auto).
  unfold read_xarray, is_DataArray. respects_auto.
Qed.

Lemma read_xarray_plain a h arr :
  h !! arg_img a = Some (ObjNdarray arr) ->
  read_xarray' a h = (Ok (mk_locals None None None None false (arg_aspect a) ""), h).
Proof.
  intros Hl. unfold read_xarray. destruct xarray_imported; [|done].
  unfold bind, is_DataArray, bind, load. by rewrite Hl.
Qed.

(** A DataArray has been read: the labels and the coordinates are bound. *)
Lemma read_xarray_bound a h l h' :
  read_xarray' a h = (Ok l, h') -> img_is_xarray l = true ->
  is_Some (x_label l) /\ is_Some (y_label l) /\ is_Some (x l) /\ is_Some (y l).
Proof.
  unfold read_xarray. destruct xarray_imported; [|by intros [= <- _]].
  unfold bind at 1. destruct (is_DataArray _ h) as [[[]|] h1]; try by intros [= <- _].
  unfold bind.
  repeat match goal with
         | |- context [match ?m ?h with _ => _ end] =>
             lazymatch m with
             | context [match _ with _ => _ end] => fail
             | _ => destruct (m h) as [[?|?] ?]; try discriminate
             end
         end.
  intros [= <- _] _. simpl. eauto.
Qed.

Lemma normalize_spec h img arr :
  input_array h img = Some arr ->
  exists img' h', normalize dm img h = (Ok img', h')
    /\ h `prefix_of` h'
    /\ h' !! img' = Some (ObjNdarray (normalized arr))
    /\ (dtype_type arr = np_bool -> (length h <= img')%nat).
Proof.
  unfold input_array, normalize, np_asanyarray. intros Hin.
  assert (exists r, bind (load img) (fun o => match o with
               | ObjNdarray _ => ret img | ObjDataArray d => ret (xa_values d) end) h
             = (Ok r, h) /\ h !! r = Some (ObjNdarray arr)) as (r & Hr & Hlr).
  { unfold bind, load. destruct (h !! img) as [[x|d]|] eqn:Himg; try done.
    - exists img. simpl. split; [done|]. by injection Hin as ->.
    - exists (xa_values d). simpl. split; [done|].
      by destruct (h !! xa_values d) as [[y|]|]; try done; injection Hin as ->. }
  unfold bind at 1. rewrite Hr. unfold bind at 1. rewrite (load_ndarray_eq _ _ _ Hlr).
  rewrite dtype_eq_bool. unfold normalized, dtype_type.
  destruct (buf arr) as [bs|c zs|k fs] eqn:Hbuf.
  - unfold bind, alloc. eexists _, _. split; [done|]. split; [|split].
    + rewrite <- (assoc_L (++)). by apply prefix_app_r.
    + rewrite uint8_mul_astype. rewrite lookup_app_r; rewrite length_app; simpl; [|lia].
      by replace (length h + 1 - (length h + 1))%nat with 0%nat by lia.
    + intros _. rewrite length_app. simpl. lia.
  - exists r, h. split; [done|]. split; [done|]. split; [done|]. intros [=].
  - exists r, h. split; [done|]. split; [done|]. split; [done|]. intros [=].
Qed.

Lemma build_trace_eq a args l img h z :
  h !! img = Some (ObjNdarray z) ->
  build_trace' a args l img h
  = if bool_decide (ndim z = 2%nat) then heatmap_branch' a args l img h
    else if is_rgb_shape (shape z) then image_branch' a img h
    else (Raise (ValueError (shape_message (shape z))), h).
Proof.
  intros Hl. unfold build_trace. unfold bind at 1. rewrite (load_ndarray_eq _ _ _ Hl).
  repeat case_match; done.
Qed.

Lemma heatmap_branch_inv a args l img h z tr lay h' :
  h !! img = Some (ObjNdarray z) ->
  heatmap_branch' a args l img h = (Ok (tr, lay), h') ->
  h' = h
  /\ tr = mk_trace Heatmap z (Some "coloraxis1") None None None None None
  /\ exists ca, coloraxis1 lay = Some ca
       /\ validate_coerce (args_color_continuous_scale args) = inr (colorscale ca)
       /\ cmid ca = arg_color_continuous_midpoint a
       /\ colorbar_title ca = z_name l
       /\ resolved_range a z (cmin ca) (cmax ca).
Proof.
  intros Hl. unfold heatmap_branch, resolved_range.
  unfold bind at 1. rewrite (load_ndarray_eq _ _ _ Hl).
  destruct (arg_zmin a) as [zmin|], (arg_zmax a) as [zmax|]; simpl;
    unfold bind; simpl;
    rewrite ?(ndarray_max_eq _ _ _ Hl), ?(ndarray_min_eq _ _ _ Hl);
    try (destruct (buffer_max (buf z)) as [mx|]; [|discriminate]);
    try (destruct (buffer_min (buf z)) as [mn|]; [|discriminate]);
    simpl; unfold external;
    destruct (validate_coerce (args_color_continuous_scale args)) as [msg|cs];
    try discriminate; simpl;
    destruct (arg_range_color a) as [[|r0 [|r1 rest]]|]; simpl; try discriminate;
    intros [= <- <- <-]; (split; [done|]); (split; [done|]);
    eexists; simpl; repeat split; eauto.
Qed.

Lemma heatmap_branch_returns a args l img h z cs :
  h !! img = Some (ObjNdarray z) ->
  validate_coerce (args_color_continuous_scale args) = inr cs ->
  range_defined a z ->
  exists tl, heatmap_branch' a args l img h = (Ok tl, h).
Proof.
  intros Hl Hcs [Hfill Hrc]. unfold heatmap_branch.
  unfold bind at 1. rewrite (load_ndarray_eq _ _ _ Hl).
  assert (forall lo hi, exists lo' hi',
    (if truthy_list (arg_range_color a)
     then map (fun s => Some (ZScalar s)) (default [] (arg_range_color a))
     else [lo; hi]) = lo' :: hi' :: drop 2 (if truthy_list (arg_range_color a)
     then map (fun s => Some (ZScalar s)) (default [] (arg_range_color a))
     else [lo; hi])) as Hrange.
  { intros lo hi. destruct (arg_range_color a) as [[|r0 [|r1 rest]]|]; simpl in *; eauto.
    specialize (Hrc eq_refl). lia. }
  destruct (arg_zmin a) as [zmin|], (arg_zmax a) as [zmax|]; simpl;
    unfold bind; simpl;
    rewrite ?(ndarray_max_eq _ _ _ Hl), ?(ndarray_min_eq _ _ _ Hl);
    try (destruct (buffer_max_nonempty _ Hfill) as [mx ->]);
    try (destruct (buffer_min_nonempty _ Hfill) as [mn ->]);
    simpl; rewrite Hcs; simpl;
    match goal with
    | |- context [truthy_list _] =>
        match goal with
        | |- context [[?lo; ?hi]] => destruct (Hrange lo hi) as (lo' & hi' & ->)
        end
    end; simpl; eauto.
Qed.

Lemma image_branch_inv a img h z tr lay h' :
  h !! img = Some (ObjNdarray z) ->
  image_branch' a img h = (Ok (tr, lay), h') ->
  h `prefix_of` h' /\ tr_type tr = Image /\ tr_z tr = z
  /\ _vectorize_zvalue repr_float (arg_zmin a) = Ok (tr_zmin tr)
  /\ exists zmax, _vectorize_zvalue repr_float zmax = Ok (tr_zmax tr)
       /\ match arg_zmax a with
          | Some v => zmax = Some v
          | None => exists m, fst (_infer_zmax_from_type dm img h) = Ok m
                              /\ zmax = Some (ZScalar m)
          end.
Proof.
  intros Hl. unfold image_branch. unfold bind at 1. rewrite (load_ndarray_eq _ _ _ Hl).
  rewrite dtype_is_not_a_type. simpl negb.
  assert (exists zmax h1,
    (if bool_decide (arg_zmax a = None) && true
     then bind (_infer_zmax_from_type dm img) (fun m => ret (Some (ZScalar m)))
     else ret (arg_zmax a)) h = (zmax, h1)
    /\ h `prefix_of` h1
    /\ forall v, zmax = Ok v ->
         match arg_zmax a with
         | Some w => v = Some w
         | None => exists m, fst (_infer_zmax_from_type dm img h) = Ok m
                             /\ v = Some (ZScalar m)
         end) as (zmax & h1 & Hz & Hpre & Hzmax).
  { destruct (arg_zmax a) as [w|]; simpl.
    - eexists _, _. split; [done|]. split; [done|]. by intros v [= <-].
    - unfold bind. pose proof (respects_infer prefix dm img h) as Hp.
      destruct (_infer_zmax_from_type dm img h) as [[m|e] h1]; simpl in *.
      + eexists _, _. split; [done|]. split; [done|]. intros v [= <-]. eauto.
      + eexists _, _. split; [done|]. split; [done|]. intros v [=]. }
  unfold bind at 1. rewrite Hz. destruct zmax as [zmax|e]; [|discriminate].
  specialize (Hzmax _ eq_refl).
  unfold bind, lift.
  destruct (_vectorize_zvalue repr_float (arg_zmin a)) as [vmin|]; [|discriminate].
  destruct (_vectorize_zvalue repr_float zmax) as [vmax|] eqn:Hvmax; [|discriminate].
  intros [= <- <- <-]. simpl. repeat split; eauto.
Qed.

Lemma finish_inv args l img tl h fig h' :
  finish plotly_accepts args l img tl h = (Ok fig, h') ->
  h' = h
  /\ tr_type (fig_data fig) = tr_type (fst tl)
  /\ tr_z (fig_data fig) = tr_z (fst tl)
  /\ tr_zmin (fig_data fig) = tr_zmin (fst tl)
  /\ tr_zmax (fig_data fig) = tr_zmax (fst tl)
  /\ coloraxis1 (fig_layout fig) = coloraxis1 (snd tl).
Proof.
  unfold finish. unfold bind at 1.
  destruct (load_ndarray img h) as [[z|e] h1] eqn:Hload; [|discriminate].
  apply load_ndarray_inv in Hload as [-> _].
  unfold bind, lift, read_local, ret, external, raise.
  destruct (img_is_xarray l), (bool_decide (ndim z <= 2)%nat),
    (x_label l), (y_label l), (x l), (y l); simpl;
    accepted_calls; try discriminate; by intros [= <- <-].
Qed.

(** For an array that is not labeled, [finish] returns unless plotly does
    not accept one of the three calls that are made. *)
Lemma finish_plain args l img tl h z :
  h !! img = Some (ObjNdarray z) -> img_is_xarray l = false ->
  (exists fig, finish plotly_accepts args l img tl h = (Ok fig, h))
  \/ (exists e, plotly_rejection plotly_accepts e
                /\ finish plotly_accepts args l img tl h = (Raise e, h)).
Proof.
  intros Hl Hx. unfold finish, bind. rewrite (load_ndarray_eq _ _ _ Hl), Hx.
  unfold ret, external, raise, plotly_rejection.
  repeat match goal with
         | |- context [plotly_accepts ?c] =>
             destruct (plotly_accepts c) as [?|[]] eqn:?; simpl;
             [right; eexists; split;
              [eexists _, _; split; [eassumption|reflexivity]|reflexivity]|]
         end.
  eauto.
Qed.

(** [imshow] returned: each of its parts did, and the array that was drawn
    is the normalized input. *)
Lemma imshow_inv a h arr fig h' :
  input_array h (arg_img a) = Some arr ->
  imshow' a h = (Ok fig, h') ->
  exists args l h1 img h2 tl h3,
    apply_default_cascade a = inr args
    /\ read_xarray' a h = (Ok l, h1)
    /\ h2 !! img = Some (ObjNdarray (normalized arr))
    /\ build_trace' a args (apply_labels (arg_labels a) l) img h2 = (Ok tl, h3)
    /\ finish plotly_accepts args (apply_labels (arg_labels a) l) img tl h3 = (Ok fig, h').
Proof.
  intros Hin. unfold imshow. unfold bind at 1, external.
  destruct (apply_default_cascade a) as [msg|args]; [discriminate|]. simpl.
  unfold bind at 1. pose proof (read_xarray_stable a h) as Hst.
  destruct (read_xarray' a h) as [[l|e] h1] eqn:Hread; [|discriminate]. simpl in Hst.
  destruct (normalize_spec h1 (arg_img a) arr) as (img & h2 & Hnorm & _ & Hl2 & _).
  { eapply stable_input_array; eauto. }
  unfold bind at 1. rewrite Hnorm. unfold bind at 1.
  destruct (build_trace' a args _ img h2) as [[tl|e] h3] eqn:Hbuild; [|discriminate].
  intros Hfin. by exists args, l, h1, img, h2, tl, h3.
Qed.

(** A plain array of two dimensions is drawn whenever the collaborators
    accept their arguments and the range is defined: [imshow] returns, or
    raises what plotly raised for a call that it does not accept. *)
Lemma imshow_plain_heatmap_returns a h arr args cs :
  h !! arg_img a = Some (ObjNdarray arr) -> ndim arr = 2%nat ->
  apply_default_cascade a = inr args ->
  validate_coerce (args_color_continuous_scale args) = inr cs ->
  range_defined a (normalized arr) ->
  returns_unless_rejected plotly_accepts (fst (imshow' a h)).
Proof.
  intros Hl Hnd Hc Hv Hr. unfold imshow. unfold bind at 1, external. rewrite Hc. simpl.
  unfold bind at 1. rewrite (read_xarray_plain a h arr Hl).
  destruct (normalize_spec h (arg_img a) arr) as (img & h2 & Hnorm & _ & Hl2 & _).
  { by apply input_array_plain. }
  unfold bind at 1. rewrite Hnorm. unfold bind at 1.
  rewrite (build_trace_eq _ _ _ _ _ _ Hl2).
  unfold ndim. rewrite normalized_shape. fold (ndim arr). rewrite Hnd. simpl.
  destruct (heatmap_branch_returns a args
              (apply_labels (arg_labels a) (mk_locals None None None None false (arg_aspect a) ""))
              img h2 _ cs Hl2 Hv Hr) as (tl & ->).
  destruct (finish_plain args
              (apply_labels (arg_labels a) (mk_locals None None None None false (arg_aspect a) ""))
              img tl h2 _ Hl2) as [(fig & ->)|(e & Hrej & ->)]; [|done|done].
  unfold apply_labels. by repeat case_match.
Qed.
End ImshowFacts.

(** * The claims *)

Section VectorizeClaims.
Variable repr_float : float -> string.
Local Abbreviation vectorize := (_vectorize_zvalue repr_float).

(** C5. Vectorizing a value of [zmin] or [zmax]: a scalar or a value of one
    entry is repeated over the three colour channels and the opacity 1 is
    appended; a value of three entries gets the opacity 1 appended; a value
    of four entries is returned as it is; every other length raises a
    ValueError whose message holds [str] of the value and the accepted
    lengths, and nothing else raises.  So 5 gives [5, 5, 5, 1], [1, 2, 3]
    gives [1, 2, 3, 1], [1, 2, 3, 4] is unchanged and [1, 2] raises. *)
Theorem vectorize_zvalue_cases :
  (forall s, vectorize (Some (ZScalar s)) = Ok (Some (ZList [s; s; s; SInt 1])))
  /\ (forall s, vectorize (Some (ZList [s])) = Ok (Some (ZList [s; s; s; SInt 1]))
             /\ vectorize (Some (ZTuple [s])) = Ok (Some (ZList [s; s; s; SInt 1])))
  /\ (forall r g b, vectorize (Some (ZList [r; g; b])) = Ok (Some (ZList [r; g; b; SInt 1]))
                 /\ vectorize (Some (ZTuple [r; g; b])) = Ok (Some (ZList [r; g; b; SInt 1])))
  /\ (forall z, zlen z = Some 4%nat -> vectorize (Some z) = Ok (Some z))
  /\ (forall z n, zlen z = Some n -> accepted_length n = false ->
        vectorize (Some z)
        = Raise (ValueError
            ("zmax can be a scalar, or an iterable of length 1, 3 or 4. A value of "
             +:+ str_zvalue repr_float z +:+ " was passed for zmax.")))
  /\ (forall z, (exists e, vectorize z = Raise e)
               <-> exists v n, z = Some v /\ zlen v = Some n /\ accepted_length n = false)
  /\ vectorize (Some (ZScalar (SInt 5))) = Ok (Some (ZList [SInt 5; SInt 5; SInt 5; SInt 1]))
  /\ vectorize (Some (ZList [SInt 1; SInt 2; SInt 3]))
     = Ok (Some (ZList [SInt 1; SInt 2; SInt 3; SInt 1]))
  /\ vectorize (Some (ZList [SInt 1; SInt 2; SInt 3; SInt 4]))
     = Ok (Some (ZList [SInt 1; SInt 2; SInt 3; SInt 4]))
  /\ vectorize (Some (ZList [SInt 1; SInt 2]))
     = Raise (ValueError
         "zmax can be a scalar, or an iterable of length 1, 3 or 4. A value of [1, 2] was passed for zmax.").
Proof.
  assert (forall z n, zlen z = Some n -> accepted_length n = false ->
            vectorize (Some z) = Raise (ValueError (zmax_message repr_float z))) as Hraise.
  { intros z n Hn Hacc. unfold accepted_length in Hacc.
    destruct z as [s|l|l]; simpl in Hn; [discriminate| |];
      injection Hn as <-; simpl;
      repeat case_bool_decide; simpl in Hacc; try discriminate; done. }
  split_and!; try done.
  - intros z Hz. destruct z as [s|l|l]; simpl in Hz; [discriminate| |];
      injection Hz as Hz; simpl; rewrite Hz; done.
  - intros z. split.
    + intros [e He]. destruct z as [v|]; [|discriminate]. exists v.
      destruct v as [s|l|l]; simpl in He; [discriminate| |];
        exists (length l); (split; [done|]); (split; [done|]);
        unfold accepted_length; repeat case_bool_decide; try discriminate; done.
    + intros (v & n & -> & Hn & Hacc). eexists. by eapply Hraise.
Qed.
End VectorizeClaims.

Lemma foldl_pick {A} (f : A -> A -> A) :
  (forall x y, f x y = x \/ f x y = y) -> forall l x, foldl f x l ∈ x :: l.
Proof.
  intros Hf l. induction l as [|y l IH]; intros x; simpl.
  - apply list_elem_of_here.
  - specialize (IH (f x y)). apply elem_of_cons in IH as [IH|IH].
    + rewrite IH. destruct (Hf x y) as [-> | ->];
        [apply list_elem_of_here|apply list_elem_of_further, list_elem_of_here].
    + by do 2 apply list_elem_of_further.
Qed.

Lemma fmaximum_pick x y : fmaximum x y = x \/ fmaximum x y = y.
Proof. unfold fmaximum. repeat case_match; auto. Qed.

Lemma reduce_fmaximum_elem l m : reduce fmaximum l = Some m -> m ∈ l.
Proof.
  destruct l as [|x l]; [discriminate|]. simpl. intros [= <-].
  apply foldl_pick, fmaximum_pick.
Qed.

Lemma finite_values_finite l x : x ∈ finite_values l -> is_finite x = true /\ x ∈ l.
Proof.
  unfold finite_values. induction l as [|y l IH]; simpl; [by intros ?%elem_of_nil|].
  destruct (is_finite y) eqn:Hy.
  - intros [->|Hx]%elem_of_cons; [split; [done|apply list_elem_of_here]|].
    destruct (IH Hx). split; [done|by apply list_elem_of_further].
  - intros Hx. destruct (IH Hx). split; [done|by apply list_elem_of_further].
Qed.

Lemma buffer_max_int c l m :
  buffer_max (IntBuf c l) = Some (SInt m) -> m ∈ l /\ forall x, x ∈ l -> x <= m.
Proof.
  destruct l as [|x l]; [discriminate|]. simpl. intros [= <-].
  revert x. induction l as [|y l IH]; intros x; simpl.
  - split; [apply list_elem_of_here|]. intros z ->%list_elem_of_singleton. lia.
  - destruct (IH (Z.max x y)) as [Hin Hle]. split.
    + apply elem_of_cons in Hin as [->|Hin]; [|by do 2 apply list_elem_of_further].
      destruct (Z.max_spec x y) as [[_ ->]|[_ ->]];
        [apply list_elem_of_further|]; apply list_elem_of_here.
    + intros z Hz. pose proof (Hle (Z.max x y) (list_elem_of_here _ _)) as Hxy.
      apply elem_of_cons in Hz as [->|Hz]; [lia|].
      apply elem_of_cons in Hz as [->|Hz]; [lia|].
      apply Hle. by apply list_elem_of_further.
Qed.

Lemma buffer_min_int c l m :
  buffer_min (IntBuf c l) = Some (SInt m) -> m ∈ l /\ forall x, x ∈ l -> m <= x.
Proof.
  destruct l as [|x l]; [discriminate|]. simpl. intros [= <-].
  revert x. induction l as [|y l IH]; intros x; simpl.
  - split; [apply list_elem_of_here|]. intros z ->%list_elem_of_singleton. lia.
  - destruct (IH (Z.min x y)) as [Hin Hle]. split.
    + apply elem_of_cons in Hin as [->|Hin]; [|by do 2 apply list_elem_of_further].
      destruct (Z.min_spec x y) as [[_ ->]|[_ ->]];
        [|apply list_elem_of_further]; apply list_elem_of_here.
    + intros z Hz. pose proof (Hle (Z.min x y) (list_elem_of_here _ _)) as Hxy.
      apply elem_of_cons in Hz as [->|Hz]; [lia|].
      apply elem_of_cons in Hz as [->|Hz]; [lia|].
      apply Hle. by apply list_elem_of_further.
Qed.

(** C4, as the code has it.  For an array of an integer type the inferred
    [zmax] is the largest value of the type (65535 for the 16-bit unsigned
    type).  For an array of floats with a finite entry, [m] being the largest
    of them, it is the smallest of 1, 255 and 65535 that is at least [m]
    within the tolerance of 5%, and 2^32 when none of the three is: 0.98
    gives 1 and 200 gives 255. *)
Theorem infer_zmax_buckets dm (h : heap) (img : loc) (a : ndarray) :
  h !! img = Some (ObjNdarray a) ->
  (forall c l, buf a = IntBuf c l ->
     _infer_zmax_from_type dm img h = (Ok (SInt (iinfo_max dm c)), h)
     /\ iinfo_max dm c
        = (if ctype_signed c then 2 ^ (ctype_bits dm c - 1) - 1 else 2 ^ ctype_bits dm c - 1))
  /\ iinfo_max dm c_ushort = 65535
  /\ iinfo_max dm c_ubyte = 255
  /\ (forall k l m, buf a = FloatBuf k l -> reduce fmaximum (finite_values l) = Some m ->
        fst (_infer_zmax_from_type dm img h)
        = Ok (SInt (default (2 ^ 32) (smallest_within [1; 255; 65535] (SFloat m)))))
  /\ fst (_infer_zmax_from_type dm 0%nat (heap_of (rgb_float [f0_98; 0; nan]%float)))
     = Ok (SInt 1)
  /\ fst (_infer_zmax_from_type dm 0%nat (heap_of (rgb_float [200; 0; infinity]%float)))
     = Ok (SInt 255).
Proof.
  intros Hl. split_and!; try done.
  - intros c l Hb. split; [by eapply infer_integer|done].
  - intros k l m Hb Hm.
    destruct (infer_floating dm h img a k l Hl Hb) as (h' & _ & ->). by rewrite Hm.
Qed.

Section ImshowClaims.
Variable dm : data_model.
Variable xarray_imported : bool.
Variable apply_default_cascade : imshow_args -> string + args_view.
Variable validate_coerce : option colorscale_spec -> string + Colorscale.
Variable repr_float : float -> string.
Variable datetime_str : Z -> string.
Variable plotly_accepts : plotly_call -> string + unit.

Local Abbreviation read_xarray' := (read_xarray xarray_imported repr_float datetime_str).
Local Abbreviation build_trace' := (build_trace dm validate_coerce repr_float).
Local Abbreviation imshow' :=
  (imshow dm xarray_imported apply_default_cascade validate_coerce repr_float datetime_str
          plotly_accepts).

(** The trace of an array of two dimensions comes from [heatmap_branch]. *)
Lemma build_trace_heatmap a args l img h z tl h' :
  h !! img = Some (ObjNdarray z) -> ndim z = 2%nat ->
  build_trace' a args l img h = (Ok tl, h') ->
  heatmap_branch validate_coerce a args l img h = (Ok tl, h').
Proof.
  intros Hl Hnd. rewrite (build_trace_eq _ _ _ _ _ _ _ _ _ Hl), Hnd. done.
Qed.

(** The trace of an array with 3 or 4 channels comes from [image_branch]. *)
Lemma build_trace_image a args l img h z tl h' :
  h !! img = Some (ObjNdarray z) -> is_rgb_shape (shape z) = true ->
  build_trace' a args l img h = (Ok tl, h') ->
  image_branch dm repr_float a img h = (Ok tl, h').
Proof.
  intros Hl Hrgb. rewrite (build_trace_eq _ _ _ _ _ _ _ _ _ Hl), Hrgb.
  unfold is_rgb_shape in Hrgb. apply andb_true_iff in Hrgb as [Hlen _].
  apply bool_decide_eq_true in Hlen. unfold ndim. rewrite Hlen. done.
Qed.

(** C2, as the code has it.  For an array of two dimensions, when [imshow]
    returns, the ends of the colour axis are resolved in this order: a
    non-empty [range_color] gives both ends, whatever [zmin] and [zmax] are;
    otherwise [zmin] and [zmax] are used when both are given; when only one
    is given the other is the minimum or the maximum of the array; when
    none is given both ends stay unset.  And [imshow] does get to the
    figure for a plain array when the default cascade and the validator
    accept their arguments and the range is defined: it returns, unless
    plotly does not accept a call of lines 249-264, whose exception is then
    what [imshow] raises. *)
Theorem heatmap_range_priority a (h : heap) arr :
  input_array h (arg_img a) = Some arr -> ndim arr = 2%nat ->
  (forall fig h', imshow' a h = (Ok fig, h') ->
     exists ca, coloraxis1 (fig_layout fig) = Some ca
                /\ resolved_range a (normalized arr) (cmin ca) (cmax ca))
  /\ (forall args cs,
        h !! arg_img a = Some (ObjNdarray arr) ->
        apply_default_cascade a = inr args ->
        validate_coerce (args_color_continuous_scale args) = inr cs ->
        range_defined a (normalized arr) ->
        returns_unless_rejected plotly_accepts (fst (imshow' a h))).
Proof.
  intros Hin Hnd. split.
  - intros fig h' Hrun.
    destruct (imshow_inv _ _ _ _ _ _ _ _ _ _ _ _ Hin Hrun)
      as (args & l & h1 & img & h2 & [tr lay] & h3 & _ & _ & Hl2 & Hbuild & Hfin).
    apply (build_trace_heatmap _ _ _ _ _ _ _ _ Hl2) in Hbuild;
      [|by unfold ndim; rewrite normalized_shape].
    apply (heatmap_branch_inv _ _ _ _ _ _ _ _ _ _ Hl2) in Hbuild
      as (_ & _ & ca & Hca & _ & _ & _ & Hrange).
    apply finish_inv in Hfin as (_ & _ & _ & _ & _ & Hax). simpl in Hax.
    exists ca. by rewrite Hax.
  - intros args cs Hl Hc Hv Hr. by eapply imshow_plain_heatmap_returns.
Qed.

(** C6. For an array of two dimensions and no [range_color]: when only
    [zmin] is given, the colour axis runs from [zmin] to the maximum of the
    array; when only [zmax] is given, it runs from the minimum of the array
    to [zmax].  The array is the one that is drawn: the input itself, but
    for a boolean array, which is remapped first.  [imshow] gets to such a
    figure for a plain array with an entry, when the default cascade and the
    validator accept their arguments: it returns, unless plotly does not
    accept a call of lines 249-264, whose exception is then what [imshow]
    raises. *)
Theorem heatmap_fills_missing_bound a (h : heap) arr :
  input_array h (arg_img a) = Some arr -> ndim arr = 2%nat ->
  truthy_list (arg_range_color a) = false ->
  (forall zmin, arg_zmin a = Some zmin -> arg_zmax a = None ->
     forall fig h', imshow' a h = (Ok fig, h') ->
     exists ca m, coloraxis1 (fig_layout fig) = Some ca
                  /\ buffer_max (buf (normalized arr)) = Some m
                  /\ cmin ca = Some zmin /\ cmax ca = Some (ZScalar m))
  /\ (forall zmax, arg_zmin a = None -> arg_zmax a = Some zmax ->
        forall fig h', imshow' a h = (Ok fig, h') ->
        exists ca m, coloraxis1 (fig_layout fig) = Some ca
                     /\ buffer_min (buf (normalized arr)) = Some m
                     /\ cmin ca = Some (ZScalar m) /\ cmax ca = Some zmax)
  /\ (forall args cs,
        h !! arg_img a = Some (ObjNdarray arr) ->
        apply_default_cascade a = inr args ->
        validate_coerce (args_color_continuous_scale args) = inr cs ->
        buffer_size (buf arr) <> 0%nat ->
        returns_unless_rejected plotly_accepts (fst (imshow' a h)))
  /\ (dtype_type arr <> np_bool -> normalized arr = arr).
Proof.
  intros Hin Hnd Hrc.
  assert (forall fig h', imshow' a h = (Ok fig, h') ->
     exists ca, coloraxis1 (fig_layout fig) = Some ca
                /\ resolved_range a (normalized arr) (cmin ca) (cmax ca)) as Hres.
  { intros fig h' Hrun.
    destruct (imshow_inv _ _ _ _ _ _ _ _ _ _ _ _ Hin Hrun)
      as (args & l & h1 & img & h2 & [tr lay] & h3 & _ & _ & Hl2 & Hbuild & Hfin).
    apply (build_trace_heatmap _ _ _ _ _ _ _ _ Hl2) in Hbuild;
      [|by unfold ndim; rewrite normalized_shape].
    apply (heatmap_branch_inv _ _ _ _ _ _ _ _ _ _ Hl2) in Hbuild
      as (_ & _ & ca & Hca & _ & _ & _ & Hrange).
    apply finish_inv in Hfin as (_ & _ & _ & _ & _ & Hax). simpl in Hax.
    exists ca. by rewrite Hax. }
  split_and!.
  - intros zmin Hmin Hmax fig h' Hrun. destruct (Hres _ _ Hrun) as (ca & Hca & Hr).
    unfold resolved_range in Hr. rewrite Hmin, Hmax in Hr.
    destruct (arg_range_color a) as [[|r0 rest]|]; try discriminate;
      destruct Hr as (Hlo & m & Hm & Hhi); exists ca, m; auto.
  - intros zmax Hmin Hmax fig h' Hrun. destruct (Hres _ _ Hrun) as (ca & Hca & Hr).
    unfold resolved_range in Hr. rewrite Hmin, Hmax in Hr.
    destruct (arg_range_color a) as [[|r0 rest]|]; try discriminate;
      destruct Hr as ((m & Hm & Hlo) & Hhi); exists ca, m; auto.
  - intros args cs Hl Hc Hv Hne. eapply imshow_plain_heatmap_returns; eauto.
    split; [|by rewrite Hrc].
    assert (buffer_size (buf (normalized arr)) <> 0%nat) as Hne'.
    { unfold normalized. destruct (buf arr) eqn:Hb; simpl in *; by rewrite ?Hb, ?length_map. }
    by repeat case_match.
  - apply normalized_not_bool.
Qed.

(** C3, as the code has it.  For an array with 3 or 4 channels, when
    [imshow] returns: a [zmin] or [zmax] of four entries is on the trace as
    it was given; every other one that is given is on the trace as a list of
    four entries that ends in the opacity 1; a [zmin] that is not given
    stays unset on the trace; a [zmax] that is not given is unset or has four
    entries. *)
Theorem image_range_vectors a (h : heap) arr fig h' :
  input_array h (arg_img a) = Some arr -> is_rgb_shape (shape arr) = true ->
  imshow' a h = (Ok fig, h') ->
  tr_type (fig_data fig) = Image
  /\ match arg_zmin a with
     | Some v => vectorized v (tr_zmin (fig_data fig))
     | None => tr_zmin (fig_data fig) = None
     end
  /\ match arg_zmax a with
     | Some v => vectorized v (tr_zmax (fig_data fig))
     | None => four_or_unset (tr_zmax (fig_data fig))
     end.
Proof.
  intros Hin Hrgb Hrun.
  destruct (imshow_inv _ _ _ _ _ _ _ _ _ _ _ _ Hin Hrun)
    as (args & l & h1 & img & h2 & [tr lay] & h3 & _ & _ & Hl2 & Hbuild & Hfin).
  apply (build_trace_image _ _ _ _ _ _ _ _ Hl2) in Hbuild;
    [|by rewrite normalized_shape].
  eapply image_branch_inv in Hbuild as (_ & Hty & _ & Hzmin & zmax & Hzmax & Hgiven);
    [|exact Hl2].
  apply finish_inv in Hfin as (_ & -> & _ & -> & -> & _). simpl.
  assert (forall v r, _vectorize_zvalue repr_float (Some v) = Ok r -> vectorized v r) as Hvec.
  { intros v r. unfold vectorized, _vectorize_zvalue.
    destruct v as [s|vs|vs]; simpl.
    - intros [= <-]. eauto.
    - repeat case_bool_decide; try congruence; intros [= <-]; try done;
        eexists; (split; [done|]); rewrite ?length_app; simpl.
      + destruct vs as [|? [|]]; simpl in *; try discriminate. done.
      + destruct vs as [|? [|? [|? [|]]]]; simpl in *; try discriminate. done.
    - repeat case_bool_decide; try congruence; intros [= <-]; try done;
        eexists; (split; [done|]); rewrite ?length_app; simpl.
      + destruct vs as [|? [|]]; simpl in *; try discriminate. done.
      + destruct vs as [|? [|? [|? [|]]]]; simpl in *; try discriminate. done. }
  split; [done|]. split.
  - destruct (arg_zmin a) as [v|]; [by apply Hvec|]. by injection Hzmin as <-.
  - destruct (arg_zmax a) as [v|].
    + subst zmax. by apply Hvec.
    + by apply vectorize_four in Hzmax as [? _].
Qed.

(** The guard of line 230 lets every array through: an array of uint8 with
    3 or 4 channels and no [zmax] gets the inferred [255, 255, 255, 1]. *)
Lemma image_uint8_zmax_inferred a (h : heap) arr l fig h' :
  input_array h (arg_img a) = Some arr -> buf arr = IntBuf c_ubyte l ->
  is_rgb_shape (shape arr) = true -> arg_zmax a = None ->
  imshow' a h = (Ok fig, h') ->
  tr_zmax (fig_data fig) = Some (ZList [SInt 255; SInt 255; SInt 255; SInt 1]).
Proof.
  intros Hin Hb Hrgb Hzmax Hrun.
  destruct (imshow_inv _ _ _ _ _ _ _ _ _ _ _ _ Hin Hrun)
    as (args & l0 & h1 & img & h2 & [tr lay] & h3 & _ & _ & Hl2 & Hbuild & Hfin).
  apply (build_trace_image _ _ _ _ _ _ _ _ Hl2) in Hbuild;
    [|by rewrite normalized_shape].
  eapply image_branch_inv in Hbuild as (_ & _ & _ & _ & zmax & Hvec & Hgiven);
    [|exact Hl2].
  apply finish_inv in Hfin as (_ & _ & _ & _ & -> & _). simpl.
  rewrite Hzmax in Hgiven. destruct Hgiven as (m & Hm & ->).
  assert (buf (normalized arr) = IntBuf c_ubyte l) as Hb'.
  { unfold normalized. by rewrite Hb. }
  rewrite (infer_integer dm _ _ _ _ _ Hl2 Hb') in Hm. injection Hm as <-.
  simpl in Hvec. by injection Hvec as <-.
Qed.

(** C7, as the code has it.  When the part of [imshow] that comes before
    the choice of the trace completes, an array whose shape is neither of
    two dimensions nor of three with 3 or 4 channels makes [imshow] raise
    the ValueError whose message holds [str] of the shape; and [imshow]
    raises a ValueError with that message for no other array.  The shape
    (4, 5, 2) appears in the message as it is written. *)
Theorem shape_error_iff a (h : heap) arr :
  input_array h (arg_img a) = Some arr ->
  (forall args l h1,
     apply_default_cascade a = inr args -> read_xarray' a h = (Ok l, h1) ->
     accepted_shape (shape arr) = false ->
     fst (imshow' a h) = Raise (ValueError (shape_message (shape arr))))
  /\ (forall s, fst (imshow' a h) = Raise (ValueError (shape_message s)) ->
        accepted_shape (shape arr) = false
        /\ shape_message s = shape_message (shape arr))
  /\ shape_message [4; 5; 2]%nat
     = "px.imshow only accepts 2D single-channel, RGB or RGBA images. An image of shape (4, 5, 2) was provided".
Proof.
  intros Hin. split_and!; [| |done].
  - intros args l h1 Hc Hread Hacc.
    unfold imshow. unfold bind at 1, external. rewrite Hc. simpl.
    unfold bind at 1. rewrite Hread.
    pose proof (read_xarray_stable xarray_imported repr_float datetime_str a h) as Hst.
    rewrite Hread in Hst. simpl in Hst.
    destruct (normalize_spec dm h1 (arg_img a) arr) as (img & h2 & Hnorm & _ & Hl2 & _).
    { eapply stable_input_array; eauto. }
    unfold bind at 1. rewrite Hnorm. unfold bind at 1.
    rewrite (build_trace_eq _ _ _ _ _ _ _ _ _ Hl2).
    unfold ndim. rewrite normalized_shape.
    unfold accepted_shape in Hacc. apply orb_false_iff in Hacc as [-> ->]. done.
  - intros s. unfold imshow. unfold bind at 1, external.
    destruct (apply_default_cascade a) as [msg|args]; [discriminate|]. simpl.
    unfold bind at 1.
    pose proof (read_xarray_stable xarray_imported repr_float datetime_str a h) as Hst.
    pose proof (raises_only_read_xarray xarray_imported repr_float datetime_str a h) as Hrx.
    destruct (read_xarray' a h) as [[l|e] h1]; simpl in *;
      [|intros [= ->]; by destruct (Hrx _ eq_refl s)].
    destruct (normalize_spec dm h1 (arg_img a) arr) as (img & h2 & Hnorm & _ & Hl2 & _).
    { eapply stable_input_array; eauto. }
    unfold bind at 1. rewrite Hnorm. unfold bind at 1.
    rewrite (build_trace_eq _ _ _ _ _ _ _ _ _ Hl2).
    unfold ndim. rewrite normalized_shape. unfold accepted_shape.
    set (l' := apply_labels (arg_labels a) l).
    destruct (bool_decide (length (shape arr) = 2%nat)); simpl.
    { pose proof (raises_only_heatmap_branch validate_coerce a args l' img h2) as Hb.
      destruct (heatmap_branch validate_coerce a args l' img h2) as [[tl|e] h3]; simpl in *;
        [|intros [= ->]; by destruct (Hb _ eq_refl s)].
      intros Hf. by destruct (raises_only_finish plotly_accepts args l' img tl h3 _ Hf s). }
    destruct (is_rgb_shape (shape arr)); simpl.
    { pose proof (raises_only_image_branch dm repr_float a img h2) as Hb.
      destruct (image_branch dm repr_float a img h2) as [[tl|e] h3]; simpl in *;
        [|intros [= ->]; by destruct (Hb _ eq_refl s)].
      intros Hf. by destruct (raises_only_finish plotly_accepts args l' img tl h3 _ Hf s). }
    intros Hraise. cbn [fst] in Hraise. split; [done|]. congruence.
Qed.

(** C8. For an array of booleans, the array that [imshow] goes on with, and
    that it draws when it returns, holds 0 for every false entry and 255
    for every true one, in uint8 and with the shape of the input. *)
Theorem bool_array_is_remapped a (h : heap) bs shp :
  input_array h (arg_img a) = Some (mk_ndarray (BoolBuf bs) shp) ->
  (exists img h1, normalize dm (arg_img a) h = (Ok img, h1)
     /\ h1 !! img = Some (ObjNdarray (mk_ndarray (IntBuf c_ubyte (map remap bs)) shp)))
  /\ (forall fig h', imshow' a h = (Ok fig, h') ->
        tr_z (fig_data fig) = mk_ndarray (IntBuf c_ubyte (map remap bs)) shp)
  /\ remap false = 0 /\ remap true = 255.
Proof.
  intros Hin. split_and!; [| |done..].
  - destruct (normalize_spec dm h (arg_img a) _ Hin) as (img & h1 & Hnorm & _ & Hl & _).
    by exists img, h1.
  - intros fig h' Hrun.
    destruct (imshow_inv _ _ _ _ _ _ _ _ _ _ _ _ Hin Hrun)
      as (args & l & h1 & img & h2 & [tr lay] & h3 & _ & _ & Hl2 & Hbuild & Hfin).
    apply finish_inv in Hfin as (_ & _ & -> & _). simpl.
    rewrite (build_trace_eq _ _ _ _ _ _ _ _ _ Hl2) in Hbuild.
    destruct (bool_decide _) in Hbuild.
    { eapply heatmap_branch_inv in Hbuild as (_ & -> & _); [|exact Hl2]. done. }
    destruct (is_rgb_shape _) in Hbuild; [|discriminate].
    eapply image_branch_inv in Hbuild as (_ & _ & -> & _); [|exact Hl2]. done.
Qed.

(** C9. [imshow] on a plain array leaves every object of the caller as it
    was, the array included, whether it returns or raises: the store only
    grows.  The array of 0 and 255 that stands for a boolean array is a new
    object, not the caller's. *)
Theorem imshow_keeps_plain_input a (h : heap) arr r h' :
  h !! arg_img a = Some (ObjNdarray arr) ->
  imshow' a h = (r, h') ->
  h `prefix_of` h'
  /\ h' !! arg_img a = Some (ObjNdarray arr)
  /\ (dtype_type arr = np_bool ->
      exists img h1, normalize dm (arg_img a) h = (Ok img, h1)
        /\ img <> arg_img a
        /\ h1 !! img = Some (ObjNdarray (normalized arr))
        /\ h1 !! arg_img a = Some (ObjNdarray arr)).
Proof.
  intros Hl Hrun.
  assert (h `prefix_of` h') as Hpre.
  { revert Hrun. unfold imshow. unfold bind at 1, external.
    destruct (apply_default_cascade a) as [msg|args]; simpl; [by intros [= _ <-]|].
    unfold bind at 1. rewrite (read_xarray_plain _ _ _ a h arr Hl).
    set (l := apply_labels _ _). intros Hrun.
    assert (respects prefix
      (bind (normalize dm (arg_img a)) (fun img =>
         bind (build_trace' a args l img)
           (fun tl => finish plotly_accepts args l img tl)))) as Hresp.
    { apply respects_bind; [apply _|apply respects_normalize; apply _|intros img].
      apply respects_bind; [apply _|apply respects_build_trace; apply _|intros tl].
      apply respects_finish; apply _. }
    specialize (Hresp h). by rewrite Hrun in Hresp. }
  split; [done|]. split.
  - destruct Hpre as [ext ->]. by apply lookup_app_l_Some.
  - intros Hbool.
    destruct (normalize_spec dm h (arg_img a) arr (input_array_plain _ _ _ Hl))
      as (img & h1 & Hnorm & [ext ->] & Himg & Hfresh).
    exists img, (h ++ ext). split; [done|]. split; [|split; [done|]].
    + specialize (Hfresh Hbool). apply lookup_lt_Some in Hl. lia.
    + by apply lookup_app_l_Some.
Qed.

Lemma apply_labels_empty l : apply_labels (Some ∅) l = apply_labels None l.
Proof. unfold apply_labels. rewrite !lookup_empty. by destruct l. Qed.

(** C10. With [labels=None], [imshow] does what it does with the empty
    dict, whether that is to return a figure or to raise: the figure is the
    same, and none of the labels of the axes, the colour bar and the hover
    text is overridden.  The default cascade is taken not to read
    [labels]. *)
Theorem labels_none_is_empty_dict a (h : heap) :
  apply_default_cascade (set_labels None a)
  = apply_default_cascade (set_labels (Some ∅) a) ->
  imshow' (set_labels None a) h = imshow' (set_labels (Some ∅) a) h
  /\ (forall fig h', imshow' (set_labels (Some ∅) a) h = (Ok fig, h') ->
        imshow' (set_labels None a) h = (Ok fig, h'))
  /\ (forall l, x_label (apply_labels None l) = x_label l
               /\ y_label (apply_labels None l) = y_label l
               /\ z_name (apply_labels None l) = z_name l).
Proof.
  intros Hc.
  assert (imshow' (set_labels None a) h = imshow' (set_labels (Some ∅) a) h) as Heq.
  { unfold imshow. rewrite Hc.
    apply bind_ext. intros args h0.
    change (read_xarray' (set_labels None a)) with (read_xarray' (set_labels (Some ∅) a)).
    apply bind_ext. intros l h1.
    simpl arg_labels. rewrite apply_labels_empty. reflexivity. }
  split; [done|]. split; [by intros fig h'; rewrite Heq|].
  intros l. unfold apply_labels. simpl. by repeat case_match.
Qed.
End ImshowClaims.

(** ** The claims on concrete runs *)

(** C1. The code goes against the claim: for an array of uint8 with three
    channels and no [zmax], [imshow] does infer a [zmax]; the trace carries
    [255, 255, 255, 1] and not an unset [zmax]. *)
Theorem uint8_zmax_is_inferred :
  exists fig,
    fst (demo_imshow (plain_args 0%nat) (heap_of rgb_uint8)) = Ok fig
    /\ dtype_type rgb_uint8 = np_uint8
    /\ arg_zmax (plain_args 0%nat) = None
    /\ tr_zmax (fig_data fig) = Some (ZList [SInt 255; SInt 255; SInt 255; SInt 1]).
Proof. eexists. split; [reflexivity|]. by split_and!. Qed.

(** C2 fails as it is stated: with [zmin=0], [zmax=1] and [range_color=[5, 10]]
    the colour axis runs from 5 to 10, not from 0 to 1. *)
Lemma range_color_overrides_zmin_zmax :
  exists fig ca,
    fst (demo_imshow (with_range (Some (ZScalar (SInt 0))) (Some (ZScalar (SInt 1)))
                                 (Some [SInt 5; SInt 10]) (plain_args 0%nat))
                     (heap_of gray_2x2)) = Ok fig
    /\ coloraxis1 (fig_layout fig) = Some ca
    /\ cmin ca = Some (ZScalar (SInt 5)) /\ cmax ca = Some (ZScalar (SInt 10))
    /\ cmin ca <> Some (ZScalar (SInt 0)) /\ cmax ca <> Some (ZScalar (SInt 1)).
Proof. eexists _, _. split; [reflexivity|]. by split_and!. Qed.

Lemma heatmap_range_priority_witness :
  exists fig ca,
    fst (demo_imshow (with_range (Some (ZScalar (SInt 0))) None None (plain_args 0%nat))
                     (heap_of gray_2x2)) = Ok fig
    /\ coloraxis1 (fig_layout fig) = Some ca
    /\ cmin ca = Some (ZScalar (SInt 0)) /\ cmax ca = Some (ZScalar (SInt 300)).
Proof.
  destruct (heatmap_range_priority LP64 true demo_cascade demo_validate demo_repr_float
              demo_datetime_str demo_plotly
              (with_range (Some (ZScalar (SInt 0))) None None (plain_args 0%nat))
              (heap_of gray_2x2) gray_2x2 eq_refl eq_refl) as [Hrange _].
  eassert (demo_imshow (with_range (Some (ZScalar (SInt 0))) None None (plain_args 0%nat))
                       (heap_of gray_2x2) = (Ok _, _)) as Hrun by (vm_compute; reflexivity).
  destruct (Hrange _ _ Hrun) as (ca & Hca & Hlo & m & Hm & Hhi).
  eexists _, ca. rewrite Hrun.
  injection Hm as <-. by split_and!.
Defined.

(** C3 fails as it is stated: for an array with three channels and no [zmin],
    the [zmin] of the trace is unset; it does not have four entries. *)
Lemma image_zmin_stays_unset :
  exists fig,
    fst (demo_imshow (plain_args 0%nat) (heap_of rgb_uint16)) = Ok fig
    /\ is_rgb_shape (shape rgb_uint16) = true
    /\ tr_type (fig_data fig) = Image
    /\ tr_zmin (fig_data fig) = None.
Proof. eexists. split; [reflexivity|]. by split_and!. Qed.

Lemma image_range_vectors_witness :
  exists fig h',
    demo_imshow (with_range (Some (ZScalar (SInt 7))) (Some (ZTuple [SInt 1; SInt 2; SInt 3]))
                            None (plain_args 0%nat))
                (heap_of rgb_uint16) = (Ok fig, h')
    /\ tr_type (fig_data fig) = Image
    /\ vectorized (ZScalar (SInt 7)) (tr_zmin (fig_data fig))
    /\ vectorized (ZTuple [SInt 1; SInt 2; SInt 3]) (tr_zmax (fig_data fig)).
Proof.
  eexists _, _. split; [vm_compute; reflexivity|].
  exact (image_range_vectors LP64 true demo_cascade demo_validate demo_repr_float
           demo_datetime_str demo_plotly
           (with_range (Some (ZScalar (SInt 7))) (Some (ZTuple [SInt 1; SInt 2; SInt 3]))
                       None (plain_args 0%nat))
           (heap_of rgb_uint16) rgb_uint16 _ _ eq_refl eq_refl eq_refl).
Defined.

(** C4 fails as it is stated: for floats whose largest finite entry is 1e10
    the inferred [zmax] is 2^32, which is not at least 1e10 within the
    tolerance; none of 1, 255, 65535 and 2^32 is. *)
Lemma infer_above_largest_bucket :
  fst (_infer_zmax_from_type LP64 0%nat (heap_of (rgb_float [200; 0; 1e10]%float)))
  = Ok (SInt (2 ^ 32))
  /\ reduce fmaximum (finite_values [200; 0; 1e10]%float) = Some 1e10%float
  /\ within_tolerance (SFloat 1e10) (2 ^ 32) = false
  /\ smallest_within [1; 255; 65535; 2 ^ 32] (SFloat 1e10) = None.
Proof. by split_and!. Qed.

Lemma infer_zmax_buckets_witness :
  _infer_zmax_from_type LP64 0%nat (heap_of rgb_uint16)
  = (Ok (SInt 65535), heap_of rgb_uint16).
Proof.
  destruct (infer_zmax_buckets LP64 (heap_of rgb_uint16) 0%nat rgb_uint16 eq_refl)
    as [Hint _].
  exact (proj1 (Hint c_ushort [10; 20; 30] eq_refl)).
Defined.

Lemma heatmap_fills_missing_bound_witness :
  exists fig ca,
    fst (demo_imshow (with_range (Some (ZScalar (SInt 10))) None None (plain_args 0%nat))
                     (heap_of gray_2x2)) = Ok fig
    /\ coloraxis1 (fig_layout fig) = Some ca
    /\ cmin ca = Some (ZScalar (SInt 10)) /\ cmax ca = Some (ZScalar (SInt 300)).
Proof.
  destruct (heatmap_fills_missing_bound LP64 true demo_cascade demo_validate demo_repr_float
              demo_datetime_str demo_plotly
              (with_range (Some (ZScalar (SInt 10))) None None (plain_args 0%nat))
              (heap_of gray_2x2) gray_2x2 eq_refl eq_refl eq_refl)
    as (Hzmin & _ & _ & _).
  eassert (demo_imshow (with_range (Some (ZScalar (SInt 10))) None None (plain_args 0%nat))
                       (heap_of gray_2x2) = (Ok _, _)) as Hrun by (vm_compute; reflexivity).
  destruct (Hzmin _ eq_refl eq_refl _ _ Hrun) as (ca & m & Hca & Hm & Hlo & Hhi).
  eexists _, ca. rewrite Hrun.
  injection Hm as <-. by split_and!.
Defined.

(** C7 fails as it is stated: an array of shape (1, 1, 3), which is
    accepted, makes [imshow] raise a ValueError when [zmax] is [1, 2]. *)
Lemma value_error_for_accepted_shape :
  exists msg,
    fst (demo_imshow (with_range None (Some (ZList [SInt 1; SInt 2])) None (plain_args 0%nat))
                     (heap_of rgb_uint8)) = Raise (ValueError msg)
    /\ accepted_shape (shape rgb_uint8) = true.
Proof. eexists. split; reflexivity. Qed.

Lemma shape_error_iff_witness :
  fst (demo_imshow (plain_args 0%nat) (heap_of shape_4_5_2))
  = Raise (ValueError
      "px.imshow only accepts 2D single-channel, RGB or RGBA images. An image of shape (4, 5, 2) was provided").
Proof.
  destruct (shape_error_iff LP64 true demo_cascade demo_validate demo_repr_float
              demo_datetime_str demo_plotly (plain_args 0%nat) (heap_of shape_4_5_2)
              shape_4_5_2 eq_refl)
    as (Hraises & _ & _).
  exact (Hraises _ _ _ eq_refl eq_refl eq_refl).
Defined.

Lemma bool_array_is_remapped_witness :
  exists fig h',
    demo_imshow (plain_args 0%nat) (heap_of bool_1x2) = (Ok fig, h')
    /\ tr_z (fig_data fig) = mk_ndarray (IntBuf c_ubyte [255; 0]) [1%nat; 2%nat].
Proof.
  eexists _, _. split; [vm_compute; reflexivity|].
  destruct (bool_array_is_remapped LP64 true demo_cascade demo_validate demo_repr_float
              demo_datetime_str demo_plotly (plain_args 0%nat) (heap_of bool_1x2) [true; false]
              [1%nat; 2%nat] eq_refl) as (_ & Hdrawn & _).
  exact (Hdrawn _ _ eq_refl).
Defined.

Lemma imshow_keeps_plain_input_witness :
  exists r h',
    demo_imshow (plain_args 0%nat) (heap_of bool_1x2) = (r, h')
    /\ heap_of bool_1x2 `prefix_of` h'
    /\ h' !! 0%nat = Some (ObjNdarray bool_1x2).
Proof.
  eexists _, _. split; [vm_compute; reflexivity|].
  destruct (imshow_keeps_plain_input LP64 true demo_cascade demo_validate demo_repr_float
              demo_datetime_str demo_plotly (plain_args 0%nat) (heap_of bool_1x2) bool_1x2 _ _
              eq_refl eq_refl) as (Hgrows & Hkept & _).
  split; [exact Hgrows|exact Hkept].
Defined.

Lemma labels_none_is_empty_dict_witness :
  demo_imshow (set_labels None (plain_args 0%nat)) (heap_of gray_2x2)
  = demo_imshow (set_labels (Some ∅) (plain_args 0%nat)) (heap_of gray_2x2)
  /\ exists fig, fst (demo_imshow (set_labels None (plain_args 0%nat)) (heap_of gray_2x2))
                 = Ok fig.
Proof.
  split; [|eexists; reflexivity].
  exact (proj1 (labels_none_is_empty_dict LP64 true demo_cascade demo_validate
                  demo_repr_float demo_datetime_str demo_plotly (plain_args 0%nat)
                  (heap_of gray_2x2)
                  eq_refl)).
Defined.

(** * Further properties of the module *)

(** ** How a run of [imshow] that returns decomposes *)

Section Decomposition.
Variable dm : data_model.
Variable xarray_imported : bool.
Variable apply_default_cascade : imshow_args -> string + args_view.
Variable validate_coerce : option colorscale_spec -> string + Colorscale.
Variable repr_float : float -> string.
Variable datetime_str : Z -> string.
Variable plotly_accepts : plotly_call -> string + unit.

Local Abbreviation read_xarray' := (read_xarray xarray_imported repr_float datetime_str).
Local Abbreviation build_trace' := (build_trace dm validate_coerce repr_float).
Local Abbreviation imshow' :=
  (imshow dm xarray_imported apply_default_cascade validate_coerce repr_float datetime_str
          plotly_accepts).

Lemma normalize_inv img h img' h' :
  normalize dm img h = (Ok img', h') ->
  exists arr, input_array h img = Some arr
    /\ h `prefix_of` h' /\ h' !! img' = Some (ObjNdarray (normalized arr)).
Proof.
  intros Hn.
  assert (exists arr, input_array h img = Some arr) as [arr Hin].
  { revert Hn. unfold normalize, np_asanyarray, input_array, bind, load_ndarray, bind, load.
    destruct (h !! img) as [[x|d]|]; simpl; eauto; [|discriminate].
    destruct (h !! xa_values d) as [[y|]|]; simpl; eauto; discriminate. }
  exists arr. split; [done|].
  destruct (normalize_spec dm h img arr Hin) as (img2 & h2 & Hn2 & Hpre & Hl & _).
  rewrite Hn in Hn2. injection Hn2 as <- <-. done.
Qed.

Lemma imshow_returns_inv a h fig h' :
  imshow' a h = (Ok fig, h') ->
  exists args l h1 arr img h2 tl h3,
    apply_default_cascade a = inr args
    /\ read_xarray' a h = (Ok l, h1)
    /\ input_array h1 (arg_img a) = Some arr
    /\ h2 !! img = Some (ObjNdarray (normalized arr))
    /\ build_trace' a args (apply_labels (arg_labels a) l) img h2 = (Ok tl, h3)
    /\ finish plotly_accepts args (apply_labels (arg_labels a) l) img tl h3 = (Ok fig, h').
Proof.
  unfold imshow. unfold bind at 1, external.
  destruct (apply_default_cascade a) as [msg|args]; [discriminate|]. simpl.
  unfold bind at 1.
  destruct (read_xarray' a h) as [[l|e] h1] eqn:Hread; [|discriminate].
  unfold bind at 1.
  destruct (normalize dm (arg_img a) h1) as [[img|e] h2] eqn:Hnorm; [|discriminate].
  apply normalize_inv in Hnorm as (arr & Hin & _ & Hl2).
  unfold bind at 1.
  destruct (build_trace' a args _ img h2) as [[tl|e] h3] eqn:Hbuild; [|discriminate].
  intros Hfin. by exists args, l, h1, arr, img, h2, tl, h3.
Qed.

(** The figure that [finish] assembles. *)
Lemma finish_figure args l img tl h fig h' :
  finish plotly_accepts args l img tl h = (Ok fig, h') ->
  exists z, h !! img = Some (ObjNdarray z) /\ h' = h
    /\ fig_layout fig
       = mk_layout (yaxis_autorange (snd tl)) (yaxis_constrain (snd tl))
           (xaxis_scaleanchor (snd tl)) (xaxis_constrain (snd tl)) (coloraxis1 (snd tl))
           (if truthy_str (args_title args) then args_title args else None)
           (if truthy_num (args_height args) then args_height args else None)
           (if truthy_num (args_width args) then args_width args else None)
           (if bool_decide ((if truthy_str (args_title args) then args_title args else None)
                            = None)
               && bool_decide (template_margin_t (args_template args) = None)
            then Some 60 else None)
           (if img_is_xarray l then x_label l else None)
           (if img_is_xarray l then y_label l else None)
           (Some (args_template args))
    /\ (if img_is_xarray l && bool_decide (ndim z <= 2)%nat
        then exists xl yl,
               x_label l = Some xl /\ y_label l = Some yl
               /\ fig_data fig
                  = mk_trace (tr_type (fst tl)) (tr_z (fst tl)) (tr_coloraxis (fst tl))
                      (tr_zmin (fst tl)) (tr_zmax (fst tl)) (x l) (y l)
                      (Some (hover_text xl yl (z_name l)))
        else fig_data fig = fst tl).
Proof.
  unfold finish. unfold bind at 1.
  destruct (load_ndarray img h) as [[z|e] h1] eqn:Hload; [|discriminate].
  apply load_ndarray_inv in Hload as [-> Hl]. intros Hfin.
  exists z. split; [done|]. revert Hfin.
  unfold bind, lift, read_local, ret, external, raise.
  destruct (img_is_xarray l), (bool_decide (ndim z <= 2)%nat),
    (x_label l), (y_label l), (x l), (y l); simpl;
    accepted_calls; try discriminate; intros [= <- <-]; simpl; eauto 10.
Qed.

Lemma finish_trace args l img tl h fig h' :
  finish plotly_accepts args l img tl h = (Ok fig, h') ->
  tr_type (fig_data fig) = tr_type (fst tl) /\ tr_z (fig_data fig) = tr_z (fst tl)
  /\ tr_coloraxis (fig_data fig) = tr_coloraxis (fst tl)
  /\ tr_zmin (fig_data fig) = tr_zmin (fst tl) /\ tr_zmax (fig_data fig) = tr_zmax (fst tl).
Proof.
  intros Hfin. apply finish_figure in Hfin as (z & _ & _ & _ & Hdata).
  destruct (img_is_xarray l && bool_decide (ndim z <= 2)%nat); [|by rewrite Hdata].
  destruct Hdata as (xl & yl & _ & _ & ->). done.
Qed.

Lemma heatmap_branch_layout a args l img h z tr lay h' :
  h !! img = Some (ObjNdarray z) ->
  heatmap_branch validate_coerce a args l img h = (Ok (tr, lay), h') ->
  exists ca,
    lay = mk_layout
            (Some (if str_eq (arg_origin a) "lower" then AutorangeTrue else AutorangeReversed))
            (if str_eq (aspect l) "equal" then Some "domain" else None)
            (if str_eq (aspect l) "equal" then Some "y" else None)
            (if str_eq (aspect l) "equal" then Some "domain" else None)
            (Some ca) None None None None None None None.
Proof.
  intros Hl. unfold heatmap_branch.
  unfold bind at 1. rewrite (load_ndarray_eq _ _ _ Hl).
  destruct (arg_zmin a) as [zmin|], (arg_zmax a) as [zmax|]; simpl;
    unfold bind; simpl;
    rewrite ?(ndarray_max_eq _ _ _ Hl), ?(ndarray_min_eq _ _ _ Hl);
    try (destruct (buffer_max (buf z)) as [mx|]; [|discriminate]);
    try (destruct (buffer_min (buf z)) as [mn|]; [|discriminate]);
    simpl; unfold external;
    destruct (validate_coerce (args_color_continuous_scale args)) as [msg|cs];
    try discriminate; simpl;
    destruct (arg_range_color a) as [[|r0 [|r1 rest]]|]; simpl; try discriminate;
    intros [= <- <- <-]; eauto.
Qed.

Lemma image_branch_layout a img h z tr lay h' :
  h !! img = Some (ObjNdarray z) ->
  image_branch dm repr_float a img h = (Ok (tr, lay), h') ->
  tr_coloraxis tr = None /\ tr_x tr = None /\ tr_y tr = None /\ tr_hovertemplate tr = None
  /\ lay = mk_layout (if str_eq (arg_origin a) "lower" then Some AutorangeTrue else None)
             None None None None None None None None None None None.
Proof.
  intros Hl. unfold image_branch. unfold bind at 1. rewrite (load_ndarray_eq _ _ _ Hl).
  rewrite dtype_is_not_a_type.
  destruct (arg_zmax a) as [w|]; simpl; unfold bind, lift, ret;
    [|destruct (_infer_zmax_from_type dm img h) as [[m|e] h1]; [|discriminate]];
    destruct (_vectorize_zvalue repr_float (arg_zmin a)) as [vmin|]; try discriminate;
    destruct (_vectorize_zvalue repr_float _) as [vmax|]; try discriminate;
    by intros [= <- <- <-].
Qed.

(** What [build_trace] returns, by the shape of the array. *)
Lemma build_trace_cases a args l img h z tr lay h' :
  h !! img = Some (ObjNdarray z) ->
  build_trace' a args l img h = (Ok (tr, lay), h') ->
  (ndim z = 2%nat
   /\ heatmap_branch validate_coerce a args l img h = (Ok (tr, lay), h'))
  \/ (ndim z <> 2%nat /\ is_rgb_shape (shape z) = true
      /\ image_branch dm repr_float a img h = (Ok (tr, lay), h')).
Proof.
  intros Hl. rewrite (build_trace_eq _ _ _ _ _ _ _ _ _ Hl).
  case_bool_decide; [by left|].
  destruct (is_rgb_shape (shape z)); [by right|discriminate].
Qed.
End Decomposition.

(** ** The layout and the trace of a figure that is returned *)

Section FigureProperties.
Variable dm : data_model.
Variable xarray_imported : bool.
Variable apply_default_cascade : imshow_args -> string + args_view.
Variable validate_coerce : option colorscale_spec -> string + Colorscale.
Variable repr_float : float -> string.
Variable datetime_str : Z -> string.
Variable plotly_accepts : plotly_call -> string + unit.

Local Abbreviation read_xarray' := (read_xarray xarray_imported repr_float datetime_str).
Local Abbreviation build_trace' := (build_trace dm validate_coerce repr_float).
Local Abbreviation imshow' :=
  (imshow dm xarray_imported apply_default_cascade validate_coerce repr_float datetime_str
          plotly_accepts).

Lemma apply_labels_fields labels l :
  img_is_xarray (apply_labels labels l) = img_is_xarray l
  /\ x (apply_labels labels l) = x l /\ y (apply_labels labels l) = y l
  /\ aspect (apply_labels labels l)
     = (if img_is_xarray l then aspect l else plain_aspect (aspect l))
  /\ x_label (apply_labels labels l)
     = match labels ≫= (.!! "x") with Some v => Some v | None => x_label l end
  /\ y_label (apply_labels labels l)
     = match labels ≫= (.!! "y") with Some v => Some v | None => y_label l end
  /\ z_name (apply_labels labels l)
     = match labels ≫= (.!! "color") with Some v => v | None => z_name l end.
Proof.
  unfold apply_labels, plain_aspect.
  destruct l as [xl yl xv yv [] [asp|] zn]; destruct labels as [m|]; simpl;
    repeat split; by repeat case_match.
Qed.

(** What the first part of [imshow] finds out about its argument. *)
Lemma read_xarray_kind a h l h1 :
  read_xarray' a h = (Ok l, h1) ->
  img_is_xarray l = xarray_imported && is_labeled h (arg_img a)
  /\ aspect l = (if img_is_xarray l then xarray_aspect (arg_aspect a) else arg_aspect a)
  /\ (img_is_xarray l = false ->
      l = mk_locals None None None None false (arg_aspect a) "" /\ h1 = h).
Proof.
  unfold read_xarray, is_labeled. destruct xarray_imported; [|by intros [= <- <-]].
  unfold bind at 1, is_DataArray, bind at 1, load.
  destruct (h !! arg_img a) as [[z|d]|] eqn:Himg; simpl; try discriminate;
    [by intros [= <- <-]|].
  unfold bind.
  repeat match goal with
         | |- context [match ?m ?h with _ => _ end] =>
             lazymatch m with
             | context [match _ with _ => _ end] => fail
             | _ => destruct (m h) as [[?|?] ?]; try discriminate
             end
         end.
  intros [= <- <-]. simpl. split; [done|]. split; [by destruct (arg_aspect a)|]. discriminate.
Qed.

(** X1. The vertical axis of a figure that [imshow] returns: for a Heatmap
    it increases upwards when [origin] is "lower" and is reversed for every
    other [origin], also one that is left out; for an Image it is set to
    increase upwards when [origin] is "lower" and is not set otherwise. *)
Theorem origin_sets_yaxis a (h : heap) fig h' :
  imshow' a h = (Ok fig, h') ->
  yaxis_autorange (fig_layout fig)
  = match tr_type (fig_data fig) with
    | Heatmap => Some (if str_eq (arg_origin a) "lower" then AutorangeTrue
                       else AutorangeReversed)
    | Image => if str_eq (arg_origin a) "lower" then Some AutorangeTrue else None
    end.
Proof.
  intros Hrun.
  destruct (imshow_returns_inv _ _ _ _ _ _ _ _ _ _ _ Hrun)
    as (args & l & h1 & arr & img & h2 & [tr lay] & h3 & _ & _ & _ & Hl2 & Hbuild & Hfin).
  destruct (finish_trace _ _ _ _ _ _ _ _ Hfin) as (-> & _).
  apply finish_figure in Hfin as (z & _ & _ & -> & _). simpl.
  destruct (build_trace_cases _ _ _ _ _ _ _ _ _ _ _ _ Hl2 Hbuild)
    as [[_ Hheat]|(_ & _ & Himage)].
  - destruct (heatmap_branch_layout _ _ _ _ _ _ _ _ _ _ Hl2 Hheat) as (ca & ->).
    eapply heatmap_branch_inv in Hheat as (_ & -> & _); [|exact Hl2]. done.
  - destruct (image_branch_layout _ _ _ _ _ _ _ _ _ Hl2 Himage) as (_ & _ & _ & _ & ->).
    eapply image_branch_inv in Himage as (_ & -> & _); [|exact Hl2]. done.
Qed.

(** X2. The scales of the axes of a figure that [imshow] returns are tied
    (the x axis anchored to y, both axes constrained to the domain) exactly
    for a Heatmap whose aspect mode is "equal"; the aspect mode is the
    [aspect] that is given and, when none is given, "auto" for a DataArray
    and "equal" for a plain array.  An Image never has them tied. *)
Theorem aspect_ties_the_axes a (h : heap) fig h' :
  imshow' a h = (Ok fig, h') ->
  axis_constraints (fig_layout fig)
  = match tr_type (fig_data fig) with
    | Heatmap =>
        if str_eq (if xarray_imported && is_labeled h (arg_img a)
                   then xarray_aspect (arg_aspect a) else plain_aspect (arg_aspect a))
                  "equal"
        then (Some "y", Some "domain", Some "domain")
        else (None, None, None)
    | Image => (None, None, None)
    end.
Proof.
  intros Hrun.
  destruct (imshow_returns_inv _ _ _ _ _ _ _ _ _ _ _ Hrun)
    as (args & l & h1 & arr & img & h2 & [tr lay] & h3 & _ & Hread & _ & Hl2 & Hbuild & Hfin).
  destruct (finish_trace _ _ _ _ _ _ _ _ Hfin) as (-> & _).
  apply finish_figure in Hfin as (z & _ & _ & Hlay & _). simpl in *.
  unfold axis_constraints. rewrite Hlay. simpl.
  destruct (read_xarray_kind _ _ _ _ Hread) as (Hkind & Hasp & _).
  destruct (apply_labels_fields (arg_labels a) l) as (Hx & _ & _ & Hasp' & _).
  destruct (build_trace_cases _ _ _ _ _ _ _ _ _ _ _ _ Hl2 Hbuild)
    as [[_ Hheat]|(_ & _ & Himage)].
  - destruct (heatmap_branch_layout _ _ _ _ _ _ _ _ _ _ Hl2 Hheat) as (ca & ->).
    eapply heatmap_branch_inv in Hheat as (_ & -> & _); [|exact Hl2]. simpl.
    rewrite Hasp', Hasp, <- Hkind.
    destruct (img_is_xarray l); simpl; clear; by case_match.
  - destruct (image_branch_layout _ _ _ _ _ _ _ _ _ Hl2 Himage) as (_ & _ & _ & _ & ->).
    eapply image_branch_inv in Himage as (_ & -> & _); [|exact Hl2]. done.
Qed.

(** X3. The chrome of a figure that [imshow] returns, read after the default
    cascade: the title is set exactly when it is a non-empty string, the
    height and the width exactly when they are not 0, the top margin is set
    to 60 exactly when no title is set and the template has no top margin of
    its own, and the template is always the one of the cascade. *)
Theorem layout_patch_entries a (h : heap) fig h' :
  imshow' a h = (Ok fig, h') ->
  exists args,
    apply_default_cascade a = inr args
    /\ layout_title (fig_layout fig)
       = (if truthy_str (args_title args) then args_title args else None)
    /\ layout_height (fig_layout fig)
       = (if truthy_num (args_height args) then args_height args else None)
    /\ layout_width (fig_layout fig)
       = (if truthy_num (args_width args) then args_width args else None)
    /\ margin_t (fig_layout fig)
       = (if negb (truthy_str (args_title args))
             && bool_decide (template_margin_t (args_template args) = None)
          then Some 60 else None)
    /\ layout_template (fig_layout fig) = Some (args_template args).
Proof.
  intros Hrun.
  destruct (imshow_returns_inv _ _ _ _ _ _ _ _ _ _ _ Hrun)
    as (args & l & h1 & arr & img & h2 & tl & h3 & Hc & _ & _ & _ & _ & Hfin).
  apply finish_figure in Hfin as (z & _ & _ & -> & _). simpl.
  exists args. repeat split; try done.
  unfold truthy_str. destruct (args_title args) as [t|]; simpl; [|done].
  by destruct (bool_decide (t = "")).
Qed.

(** X4. The trace of a figure that [imshow] returns holds the array that
    stands for the input (the input itself unless it is boolean).  It is a
    Heatmap on the colour axis "coloraxis1", with no [zmin] and [zmax] of its
    own, exactly for an array of two dimensions; otherwise it is an Image,
    the array has three dimensions with 3 or 4 channels, and the layout has
    no colour axis. *)
Theorem trace_follows_the_shape a (h : heap) arr fig h' :
  input_array h (arg_img a) = Some arr ->
  imshow' a h = (Ok fig, h') ->
  tr_z (fig_data fig) = normalized arr
  /\ (dtype_type arr <> np_bool -> tr_z (fig_data fig) = arr)
  /\ ((ndim arr = 2%nat /\ tr_type (fig_data fig) = Heatmap
       /\ tr_coloraxis (fig_data fig) = Some "coloraxis1"
       /\ tr_zmin (fig_data fig) = None /\ tr_zmax (fig_data fig) = None
       /\ is_Some (coloraxis1 (fig_layout fig)))
      \/ (ndim arr <> 2%nat /\ is_rgb_shape (shape arr) = true
          /\ tr_type (fig_data fig) = Image
          /\ tr_coloraxis (fig_data fig) = None
          /\ coloraxis1 (fig_layout fig) = None)).
Proof.
  intros Hin Hrun.
  destruct (imshow_inv _ _ _ _ _ _ _ _ _ _ _ _ Hin Hrun)
    as (args & l & h1 & img & h2 & [tr lay] & h3 & _ & _ & Hl2 & Hbuild & Hfin).
  destruct (finish_trace _ _ _ _ _ _ _ _ Hfin) as (-> & -> & -> & -> & ->).
  apply finish_figure in Hfin as (z & _ & _ & Hlay & _). simpl in *.
  rewrite Hlay. simpl.
  assert (tr_z tr = normalized arr) as Hz.
  { destruct (build_trace_cases _ _ _ _ _ _ _ _ _ _ _ _ Hl2 Hbuild)
      as [[_ Hheat]|(_ & _ & Himage)].
    - eapply heatmap_branch_inv in Hheat as (_ & -> & _); [|exact Hl2]. done.
    - eapply image_branch_inv in Himage as (_ & _ & -> & _); [|exact Hl2]. done. }
  split; [done|]. split; [intros Hnb; by rewrite Hz, normalized_not_bool|].
  destruct (build_trace_cases _ _ _ _ _ _ _ _ _ _ _ _ Hl2 Hbuild)
    as [[Hnd Hheat]|(Hnd & Hrgb & Himage)];
    unfold ndim in Hnd; rewrite normalized_shape in Hnd.
  - left. destruct (heatmap_branch_layout _ _ _ _ _ _ _ _ _ _ Hl2 Hheat) as (ca & ->).
    eapply heatmap_branch_inv in Hheat as (_ & -> & _); [|exact Hl2]. simpl.
    repeat split; eauto.
  - right. rewrite normalized_shape in Hrgb.
    destruct (image_branch_layout _ _ _ _ _ _ _ _ _ Hl2 Himage) as (Hca & _ & _ & _ & ->).
    eapply image_branch_inv in Himage as (_ & Hty & _); [|exact Hl2]. done.
Qed.
End FigureProperties.

(** ** Errors and edge cases *)

Lemma buffer_empty_reductions b :
  buffer_size b = 0%nat -> buffer_max b = None /\ buffer_min b = None.
Proof. destruct b as [[|? ?]|? [|? ?]|? [|? ?]]; simpl; by intros. Qed.

Lemma normalized_size a : buffer_size (buf (normalized a)) = buffer_size (buf a).
Proof. unfold normalized. destruct (buf a) eqn:Hb; simpl; by rewrite ?Hb, ?length_map. Qed.

Lemma select_all {A} (l : list A) : select (map (fun _ => true) l) l = l.
Proof. induction l as [|x l IH]; simpl; by rewrite ?IH. Qed.

Lemma finite_values_nil l : finite_values l = [] <-> existsb is_finite l = false.
Proof.
  unfold finite_values. induction l as [|x l IH]; simpl; [done|].
  destruct (is_finite x); simpl; [split; discriminate|done].
Qed.

Lemma reduce_None {A} (f : A -> A -> A) l : reduce f l = None <-> l = [].
Proof. destruct l; simpl; split; done. Qed.

Lemma iinfo_max_pos dm c : 0 < iinfo_max dm c.
Proof. by destruct dm, c. Qed.

Lemma smallest_within_pos m : 0 < default (2 ^ 32) (smallest_within [1; 255; 65535] m).
Proof.
  unfold smallest_within. simpl. repeat (case_decide; simpl; [done|]). done.
Qed.

Lemma infer_raises_iff dm (h : heap) (img : loc) (a : ndarray) e :
  h !! img = Some (ObjNdarray a) ->
  fst (_infer_zmax_from_type dm img h) = Raise e
  <-> e = zero_size "maximum"
      /\ is_integer_buffer (buf a) = false /\ has_finite (buf a) = false.
Proof.
  intros Hl.
  destruct (buf a) as [bs|c zs|k fs] eqn:Hb; simpl.
  - unfold _infer_zmax_from_type. unfold bind at 1.
    rewrite (load_ndarray_eq _ _ _ Hl). unfold dtype_type. rewrite Hb, bool_not_integer.
    unfold bind at 1, np_isfinite, bind at 1. rewrite (load_ndarray_eq _ _ _ Hl).
    unfold alloc. unfold bind at 1, ndarray_getitem_mask, bind at 1.
    rewrite (load_ndarray_eq _ _ a) by (by apply lookup_app_l_Some).
    unfold bind at 1.
    rewrite (load_ndarray_eq _ (length h) (mk_ndarray (BoolBuf (isfinite (buf a))) (shape a)))
      by (by rewrite list_lookup_middle).
    simpl. unfold alloc, bind at 1.
    erewrite ndarray_max_eq by (rewrite length_app; simpl;
      rewrite lookup_app_r by (rewrite length_app; simpl; lia);
      rewrite length_app; simpl;
      replace (length h + 1 - (length h + 1))%nat with 0%nat by lia; reflexivity).
    unfold getitem_mask. rewrite Hb. simpl. rewrite select_all.
    destruct bs as [|b bs]; simpl.
    + split; [by intros [= <-]|by intros (-> & _)].
    + split; [|by intros (_ & _ & ?)].
      destruct (foldl orb b bs); simpl; discriminate.
  - rewrite (infer_integer dm _ _ _ _ _ Hl Hb). simpl.
    split; [discriminate|by intros (_ & ? & _)].
  - destruct (infer_floating dm h img a k fs Hl Hb) as (h' & _ & ->). simpl.
    destruct (reduce fmaximum (finite_values fs)) as [m|] eqn:Hred.
    + split; [discriminate|]. intros (_ & _ & Hnone).
      apply finite_values_nil in Hnone. by rewrite Hnone in Hred.
    + apply reduce_None, finite_values_nil in Hred.
      split; [by intros [= <-]|by intros (-> & _)].
Qed.

(** X7. [_infer_zmax_from_type] on an array of the store raises only the
    ValueError of a reduction over no entry, and it raises exactly when the
    array is not of an integer type and has no finite entry (it is empty, or
    holds only NaN and infinities).  What it returns is a positive integer,
    and it leaves every object of the store as it was. *)
Theorem infer_raises_without_finite_entry dm (h : heap) (img : loc) (a : ndarray) :
  h !! img = Some (ObjNdarray a) ->
  (forall e, fst (_infer_zmax_from_type dm img h) = Raise e
     <-> e = zero_size "maximum"
         /\ is_integer_buffer (buf a) = false /\ has_finite (buf a) = false)
  /\ (forall m, fst (_infer_zmax_from_type dm img h) = Ok m -> exists z, m = SInt z /\ 0 < z)
  /\ h `prefix_of` snd (_infer_zmax_from_type dm img h).
Proof.
  intros Hl. split_and!; [| |apply (respects_infer prefix)].
  - intros e. by apply infer_raises_iff.
  - intros m. destruct (buf a) as [bs|c zs|k fs] eqn:Hb.
    + unfold _infer_zmax_from_type. unfold bind at 1.
      rewrite (load_ndarray_eq _ _ _ Hl). unfold dtype_type. rewrite Hb, bool_not_integer.
      unfold bind.
      repeat match goal with
             | |- context [match ?m ?h with _ => _ end] =>
                 lazymatch m with
                 | context [match _ with _ => _ end] => fail
                 | _ => destruct (m h) as [[?|?] ?]; try discriminate
                 end
             end.
      repeat case_match; intros [= <-]; eexists; (split; [done|done]).
    + rewrite (infer_integer dm _ _ _ _ _ Hl Hb). intros [= <-].
      eexists. split; [done|apply iinfo_max_pos].
    + destruct (infer_floating dm h img a k fs Hl Hb) as (h' & _ & ->). simpl.
      destruct (reduce fmaximum (finite_values fs)) as [mx|]; [|discriminate].
      intros [= <-]. eexists. split; [done|apply smallest_within_pos].
Qed.

(** X8. Vectorizing is idempotent: what [_vectorize_zvalue] returns is
    returned as it is when it is vectorized again. *)
Theorem vectorize_is_idempotent repr z r :
  _vectorize_zvalue repr z = Ok r -> _vectorize_zvalue repr r = Ok r.
Proof.
  intros Hv. destruct (vectorize_four repr z r Hv) as [Hfour _].
  destruct r as [[s|l|l]|]; simpl in *; try done;
    injection Hfour as Hlen; by rewrite Hlen.
Qed.

Section EdgeCases.
Variable dm : data_model.
Variable xarray_imported : bool.
Variable apply_default_cascade : imshow_args -> string + args_view.
Variable validate_coerce : option colorscale_spec -> string + Colorscale.
Variable repr_float : float -> string.
Variable datetime_str : Z -> string.
Variable plotly_accepts : plotly_call -> string + unit.

Local Abbreviation read_xarray' := (read_xarray xarray_imported repr_float datetime_str).
Local Abbreviation build_trace' := (build_trace dm validate_coerce repr_float).
Local Abbreviation imshow' :=
  (imshow dm xarray_imported apply_default_cascade validate_coerce repr_float datetime_str
          plotly_accepts).

(** On a plain array of two dimensions, [imshow] is its Heatmap branch run on
    the normalized array, followed by [finish]. *)
Lemma imshow_plain_heatmap a h arr args :
  h !! arg_img a = Some (ObjNdarray arr) -> ndim arr = 2%nat ->
  apply_default_cascade a = inr args ->
  exists img h2 l,
    h `prefix_of` h2 /\ h2 !! img = Some (ObjNdarray (normalized arr))
    /\ img_is_xarray l = false
    /\ imshow' a h
       = bind (heatmap_branch validate_coerce a args l img) (finish plotly_accepts args l img) h2.
Proof.
  intros Hl Hnd Hc.
  destruct (normalize_spec dm h (arg_img a) arr (input_array_plain _ _ _ Hl))
    as (img & h2 & Hnorm & Hpre & Hl2 & _).
  exists img, h2,
    (apply_labels (arg_labels a) (mk_locals None None None None false (arg_aspect a) "")).
  split; [done|]. split; [done|]. split.
  { by destruct (apply_labels_fields (arg_labels a)
                   (mk_locals None None None None false (arg_aspect a) "")) as (-> & _). }
  unfold imshow. unfold bind at 1, external. rewrite Hc. simpl.
  unfold bind at 1. rewrite (read_xarray_plain _ _ _ a h arr Hl).
  unfold bind at 1. rewrite Hnorm.
  unfold bind. rewrite (build_trace_eq _ _ _ _ _ _ _ _ _ Hl2).
  unfold ndim. rewrite normalized_shape. fold (ndim arr). by rewrite Hnd.
Qed.

(** X5. A plain array of two dimensions without an entry, such as one of
    shape (0, 5): when exactly one of [zmin] and [zmax] is given, [imshow]
    raises the ValueError of the reduction that was to fill the other one,
    also when a [range_color] is given that would have replaced both. *)
Theorem empty_heatmap_cannot_fill_a_bound a (h : heap) arr args :
  h !! arg_img a = Some (ObjNdarray arr) -> ndim arr = 2%nat ->
  buffer_size (buf arr) = 0%nat ->
  apply_default_cascade a = inr args ->
  (arg_zmin a <> None -> arg_zmax a = None ->
     fst (imshow' a h)
     = Raise (ValueError
         "zero-size array to reduction operation maximum which has no identity"))
  /\ (arg_zmin a = None -> arg_zmax a <> None ->
        fst (imshow' a h)
        = Raise (ValueError
            "zero-size array to reduction operation minimum which has no identity")).
Proof.
  intros Hl Hnd Hempty Hc.
  destruct (imshow_plain_heatmap a h arr args Hl Hnd Hc) as (img & h2 & l & _ & Hl2 & _ & ->).
  rewrite <- normalized_size in Hempty.
  destruct (buffer_empty_reductions _ Hempty) as [Hmax Hmin].
  split; intros Hzmin Hzmax; unfold bind at 1, heatmap_branch; unfold bind at 1;
    rewrite (load_ndarray_eq _ _ _ Hl2);
    destruct (arg_zmin a) as [zmin|], (arg_zmax a) as [zmax|]; try done; simpl;
    unfold bind; simpl;
    rewrite ?(ndarray_max_eq _ _ _ Hl2), ?(ndarray_min_eq _ _ _ Hl2), ?Hmax, ?Hmin; done.
Qed.

(** X6. A [range_color] of a single entry makes [imshow] raise an IndexError
    on a plain array of two dimensions that has an entry, once the colour
    scale is accepted: its second entry is read. *)
Theorem range_color_needs_two_entries a (h : heap) arr args cs r :
  h !! arg_img a = Some (ObjNdarray arr) -> ndim arr = 2%nat ->
  buffer_size (buf arr) <> 0%nat ->
  apply_default_cascade a = inr args ->
  validate_coerce (args_color_continuous_scale args) = inr cs ->
  arg_range_color a = Some [r] ->
  fst (imshow' a h) = Raise (IndexError "list index out of range").
Proof.
  intros Hl Hnd Hne Hc Hv Hrc.
  destruct (imshow_plain_heatmap a h arr args Hl Hnd Hc) as (img & h2 & l & _ & Hl2 & _ & ->).
  rewrite <- normalized_size in Hne.
  destruct (buffer_max_nonempty _ Hne) as [mx Hmax].
  destruct (buffer_min_nonempty _ Hne) as [mn Hmin].
  unfold bind at 1, heatmap_branch. unfold bind at 1.
  rewrite (load_ndarray_eq _ _ _ Hl2), Hrc.
  destruct (arg_zmin a) as [zmin|], (arg_zmax a) as [zmax|]; simpl;
    unfold bind; simpl;
    rewrite ?(ndarray_max_eq _ _ _ Hl2), ?(ndarray_min_eq _ _ _ Hl2), ?Hmax, ?Hmin; simpl;
    rewrite Hv; done.
Qed.

(** X10. A DataArray with fewer than two dimensions makes [imshow] raise an
    IndexError as soon as the default cascade is through, and nothing of the
    store has changed by then. *)
Theorem labeled_array_needs_two_dims a (h : heap) d args :
  xarray_imported = true ->
  h !! arg_img a = Some (ObjDataArray d) ->
  (length (xa_dims d) < 2)%nat ->
  apply_default_cascade a = inr args ->
  imshow dm xarray_imported apply_default_cascade validate_coerce repr_float datetime_str
         plotly_accepts a h
  = (Raise (IndexError "tuple index out of range"), h).
Proof.
  intros Hx Hl Hdims Hc. unfold imshow. unfold bind at 1, external. rewrite Hc. simpl.
  unfold bind at 1, read_xarray. rewrite Hx.
  unfold bind at 1, is_DataArray, bind at 1, load. rewrite Hl. simpl.
  unfold bind at 1, load_DataArray, bind at 1, load. rewrite Hl. simpl.
  destruct (xa_dims d) as [|d0 [|d1 ds]]; simpl in *; try lia; done.
Qed.
End EdgeCases.

Lemma bind_ext_run {A B} (m : Py A) (k1 k2 : A -> Py B) h :
  (forall a h', m h = (Ok a, h') -> k1 a h' = k2 a h') -> bind m k1 h = bind m k2 h.
Proof. intros Hk. unfold bind. destruct (m h) as [[a|e] h']; [by apply Hk|done]. Qed.

Lemma external_inv {A} (r : string + A) h a h' : external r h = (Ok a, h') -> h' = h.
Proof. destruct r; simpl; by intros [= _ <-]. Qed.

(** X9. For an array that is not of two dimensions, [imshow] never consults
    the colour scale validator: it does the same with every validator, so an
    unknown colour scale does not make it fail.  And when the default cascade
    gives the same for them, the colour scale, the midpoint and the
    [range_color] that are passed make no difference either. *)
Theorem image_ignores_colour_options dm xi cascade v1 v2 rf ds pa a (h : heap) arr :
  input_array h (arg_img a) = Some arr -> ndim arr <> 2%nat ->
  imshow dm xi cascade v1 rf ds pa a h = imshow dm xi cascade v2 rf ds pa a h
  /\ (forall scale mid rc,
        cascade (set_color_options scale mid rc a) = cascade a ->
        imshow dm xi cascade v1 rf ds pa (set_color_options scale mid rc a) h
        = imshow dm xi cascade v1 rf ds pa a h).
Proof.
  intros Hin Hnd.
  assert (forall args l h1 img h2,
            read_xarray xi rf ds a h = (Ok l, h1) ->
            normalize dm (arg_img a) h1 = (Ok img, h2) ->
            forall v a' l',
              (forall i, image_branch dm rf a' i = image_branch dm rf a i) ->
              build_trace dm v rf a' args l' img h2
              = (if is_rgb_shape (shape (normalized arr)) then image_branch dm rf a img h2
                 else (Raise (ValueError (shape_message (shape (normalized arr)))), h2)))
    as Hbuild.
  { intros args l h1 img h2 Hread Hnorm v a' l' Himage.
    pose proof (read_xarray_stable xi rf ds a h) as Hst. rewrite Hread in Hst. simpl in Hst.
    apply normalize_inv in Hnorm as (arr' & Hin' & _ & Hl2).
    rewrite (stable_input_array _ _ _ Hst _ Hin) in Hin'. injection Hin' as <-.
    rewrite (build_trace_eq _ _ _ _ _ _ _ _ _ Hl2).
    unfold ndim. rewrite normalized_shape. fold (ndim arr).
    rewrite bool_decide_eq_false_2 by done. by rewrite Himage. }
  split.
  - unfold imshow. apply bind_ext_run. intros args h0 ->%external_inv.
    apply bind_ext_run. intros l h1 Hread.
    apply bind_ext_run. intros img h2 Hnorm.
    unfold bind. by rewrite !(Hbuild args l h1 img h2 Hread Hnorm _ a).
  - intros scale mid rc Hc. unfold imshow. rewrite Hc.
    apply bind_ext_run. intros args h0 ->%external_inv.
    change (read_xarray xi rf ds (set_color_options scale mid rc a))
      with (read_xarray xi rf ds a).
    apply bind_ext_run. intros l h1 Hread.
    change (arg_img (set_color_options scale mid rc a)) with (arg_img a).
    apply bind_ext_run. intros img h2 Hnorm.
    unfold bind.
    rewrite (Hbuild args l h1 img h2 Hread Hnorm v1 (set_color_options scale mid rc a))
      by done.
    by rewrite (Hbuild args l h1 img h2 Hread Hnorm v1 a).
Qed.

(** ** What [imshow] does to the objects of the caller *)

Lemma same_but_coords_refl o : same_but_coords o o.
Proof. destruct o; simpl; auto. Qed.

Lemma same_but_coords_trans o1 o2 o3 :
  same_but_coords o1 o2 -> same_but_coords o2 o3 -> same_but_coords o1 o3.
Proof.
  destruct o1 as [a|d]; simpl.
  - intros ->. auto.
  - destruct o2 as [|d2]; [tauto|]. destruct o3 as [|d3]; simpl; [tauto|].
    intros (-> & -> & ->) (-> & -> & ->). auto.
Qed.

#[global] Instance steady_growth : Growth steady.
Proof.
  split.
  - intros h. split; [lia|]. intros l o Hl. exists o. split; [done|apply same_but_coords_refl].
  - intros h1 h2 h3 [Hlen1 H1] [Hlen2 H2]. split; [lia|].
    intros l o Hl. destruct (H1 l o Hl) as (o2 & Hl2 & Hk2).
    destruct (H2 l o2 Hl2) as (o3 & Hl3 & Hk3).
    exists o3. split; [done|]. eapply same_but_coords_trans; eauto.
  - intros h o. split; [rewrite length_app; lia|].
    intros l o' Hl. exists o'. split; [by apply lookup_app_l_Some|apply same_but_coords_refl].
Qed.

#[global] Hint Resolve steady_growth : respects.

Section CallerObjects.
Variable dm : data_model.
Variable xarray_imported : bool.
Variable apply_default_cascade : imshow_args -> string + args_view.
Variable validate_coerce : option colorscale_spec -> string + Colorscale.
Variable repr_float : float -> string.
Variable datetime_str : Z -> string.
Variable plotly_accepts : plotly_call -> string + unit.

Local Abbreviation read_xarray' := (read_xarray xarray_imported repr_float datetime_str).
Local Abbreviation build_trace' := (build_trace dm validate_coerce repr_float).
Local Abbreviation imshow' :=
  (imshow dm xarray_imported apply_default_cascade validate_coerce repr_float datetime_str
          plotly_accepts).

Lemma coords_setitem_steady img key c : respects steady (coords_setitem img key c).
Proof.
  intros h. unfold coords_setitem, bind, load_DataArray, bind, load, store. cbn beta.
  destruct (h !! img) as [[z|d]|] eqn:Himg; simpl; try apply (growth_refl (R:=steady)).
  split; [by rewrite length_insert|].
  intros l o Hl. destruct (decide (l = img)) as [->|Hne].
  - rewrite list_lookup_insert_eq; [|by eapply lookup_lt_Some].
    eexists. split; [done|]. rewrite Himg in Hl. injection Hl as <-. by simpl.
  - rewrite list_lookup_insert_ne; [|done]. exists o. split; [done|apply same_but_coords_refl].
Qed.

(** The tail of [imshow], after the DataArray has been read, only allocates. *)
Lemma imshow_tail_respects R `{!Growth R} a args l :
  respects R (bind (normalize dm (arg_img a)) (fun img =>
     bind (build_trace' a args l img) (fun tl => finish plotly_accepts args l img tl))).
Proof.
  apply respects_bind; [done|by apply respects_normalize|intros img].
  apply respects_bind; [done|by apply respects_build_trace|intros tl].
  by apply respects_finish.
Qed.

Lemma read_xarray_steady a : respects steady (read_xarray' a).
Proof.
  pose proof coords_setitem_steady.
  assert (forall l, respects steady (load_DataArray l))
    by (intros; unfold load_DataArray; respects_auto).
  assert (forall l k, respects steady (coords_getitem l k))
    by (intros; unfold coords_getitem; pose proof (respects_load_ndarray steady);
        respects_auto).
  assert (forall l k, respects steady (datetime_to_str repr_float datetime_str l k))
    by (intros; unfold datetime_to_str; respects_auto).
  unfold read_xarray, is_DataArray. respects_auto.
Qed.

Lemma imshow_steady a : respects steady (imshow' a).
Proof.
  unfold imshow. apply respects_bind; [apply _|apply respects_external; apply _|intros args].
  apply respects_bind; [apply _|apply read_xarray_steady|intros l].
  apply imshow_tail_respects; apply _.
Qed.

(** X11. Whatever [imshow] is called on and whether it returns or raises,
    it changes no numpy array of the store, and of a DataArray it changes
    nothing but coordinates: the values, the dimensions and the label stay.
    No object is removed. *)
Theorem imshow_changes_coordinates_only a (h : heap) (l : loc) :
  let after :=
    snd (imshow dm xarray_imported apply_default_cascade validate_coerce repr_float
                datetime_str plotly_accepts a h) in
  (forall z, h !! l = Some (ObjNdarray z) -> after !! l = Some (ObjNdarray z))
  /\ (forall d, h !! l = Some (ObjDataArray d) ->
        exists d', after !! l = Some (ObjDataArray d')
                   /\ xa_values d' = xa_values d /\ xa_dims d' = xa_dims d
                   /\ xa_label d' = xa_label d).
Proof.
  destruct (imshow_steady a h) as [_ Hst]. split.
  - intros z Hl. destruct (Hst _ _ Hl) as (o' & Ho' & Hk). simpl in Hk. by subst o'.
  - intros d Hl. destruct (Hst _ _ Hl) as (o' & Ho' & Hk). simpl in Hk.
    destruct o' as [|d']; [done|]. by exists d'.
Qed.

(** X14. For a plain array the labels "x" and "y" have no effect: the figure
    that [imshow] returns has no axis titles, no coordinates and no hover
    text, whatever [labels] holds; only the label "color" is used, as the
    title of the colour bar of a Heatmap, which is empty without it. *)
Theorem plain_array_uses_only_the_color_label a (h : heap) arr fig h' :
  h !! arg_img a = Some (ObjNdarray arr) ->
  imshow dm xarray_imported apply_default_cascade validate_coerce repr_float datetime_str
         plotly_accepts a h
  = (Ok fig, h') ->
  xaxis_title_text (fig_layout fig) = None /\ yaxis_title_text (fig_layout fig) = None
  /\ tr_x (fig_data fig) = None /\ tr_y (fig_data fig) = None
  /\ tr_hovertemplate (fig_data fig) = None
  /\ (forall ca, coloraxis1 (fig_layout fig) = Some ca ->
        colorbar_title ca = default "" (arg_labels a ≫= (.!! "color"))).
Proof.
  intros Hl Hrun.
  destruct (imshow_returns_inv _ _ _ _ _ _ _ _ _ _ _ Hrun)
    as (args & l & h1 & arr' & img & h2 & [tr lay] & h3 & _ & Hread & _ & Hl2 & Hbuild & Hfin).
  rewrite (read_xarray_plain _ _ _ a h arr Hl) in Hread. injection Hread as <- <-.
  set (l0 := mk_locals None None None None false (arg_aspect a) "") in *.
  destruct (apply_labels_fields (arg_labels a) l0) as (Hx & _ & _ & _ & _ & _ & Hzn).
  apply finish_figure in Hfin as (z & _ & _ & Hlay & Hdata).
  rewrite Hx in Hlay, Hdata. simpl in Hlay, Hdata. rewrite Hlay, Hdata. simpl.
  destruct (build_trace_cases _ _ _ _ _ _ _ _ _ _ _ _ Hl2 Hbuild)
    as [[_ Hheat]|(_ & _ & Himage)].
  - eapply heatmap_branch_inv in Hheat as (_ & -> & ca & -> & _ & _ & Htitle & _);
      [|exact Hl2].
    simpl. repeat split; try done. intros ca' [= <-]. rewrite Htitle, Hzn.
    by destruct (arg_labels a ≫= _).
  - destruct (image_branch_layout _ _ _ _ _ _ _ _ _ Hl2 Himage) as (_ & -> & -> & -> & ->).
    simpl. repeat split; try done.
Qed.
End CallerObjects.

(** ** The coordinates of a DataArray *)

#[global] Instance keeps_coord_growth img ax c : Growth (keeps_coord img ax c).
Proof.
  split.
  - by intros h Hc.
  - intros h1 h2 h3 H12 H23 Hc. by apply H23, H12.
  - intros h o (d & Hl & Hc). exists d. split; [by apply lookup_app_l_Some|done].
Qed.
#[global] Hint Resolve keeps_coord_growth : respects.

Lemma respects_load_DataArray R `{!Growth R} l : respects R (load_DataArray l).
Proof. unfold load_DataArray. respects_auto. Qed.

Lemma respects_coords_getitem R `{!Growth R} l k : respects R (coords_getitem l k).
Proof.
  unfold coords_getitem.
  pose proof (respects_load_DataArray R). pose proof (respects_load_ndarray R).
  respects_auto.
Qed.
#[global] Hint Resolve respects_load_DataArray respects_coords_getitem : respects.

Lemma load_DataArray_eq h l d :
  h !! l = Some (ObjDataArray d) -> load_DataArray l h = (Ok d, h).
Proof. intros Hl. unfold load_DataArray, bind, load. by rewrite Hl. Qed.

Lemma load_DataArray_inv h l d h' :
  load_DataArray l h = (Ok d, h') -> h' = h /\ h !! l = Some (ObjDataArray d).
Proof.
  unfold load_DataArray, bind, load.
  destruct (h !! l) as [[z|d0]|]; simpl; intros [= <- <-] || intros [=]; auto.
Qed.

(** Reading a coordinate changes nothing, and gives the one that is stored. *)
Lemma coords_getitem_unchanged img key h : unchanged (coords_getitem img key) h.
Proof.
  unfold unchanged, coords_getitem, bind, load_DataArray, bind, load, load_ndarray, bind, load.
  cbn beta. destruct (h !! img) as [[z|d]|]; simpl; try done.
  destruct (xa_coords d !! key); simpl; [done|].
  destruct (h !! xa_values d) as [[v|]|]; simpl; try done.
  by case_match.
Qed.

Lemma coords_getitem_stored img key h d c :
  h !! img = Some (ObjDataArray d) -> xa_coords d !! key = Some c ->
  coords_getitem img key h = (Ok c, h).
Proof.
  intros Hl Hc. unfold coords_getitem. unfold bind at 1.
  by rewrite (load_DataArray_eq _ _ _ Hl), Hc.
Qed.

(** A coordinate that [coords_getitem] makes up is an integer index. *)
Lemma coords_getitem_missing img key h d c h' :
  h !! img = Some (ObjDataArray d) -> xa_coords d !! key = None ->
  coords_getitem img key h = (Ok c, h') -> is_datetime64 c = false.
Proof.
  intros Hl Hc. unfold coords_getitem. unfold bind at 1.
  rewrite (load_DataArray_eq _ _ _ Hl), Hc.
  unfold bind. destruct (load_ndarray (xa_values d) h) as [[v|e] h1]; [|discriminate].
  case_match; [|discriminate]. by intros [= <- <-].
Qed.

Section Coordinates.
Variable repr_float : float -> string.
Variable datetime_str : Z -> string.

Local Abbreviation datetime_to_str' := (datetime_to_str repr_float datetime_str).

(** A coordinate of datetimes is replaced, in the DataArray of the caller,
    by its text. *)
Lemma datetime_to_str_converts img ax h d ns :
  h !! img = Some (ObjDataArray d) -> xa_coords d !! ax = Some (CoordDatetime ns) ->
  exists h', datetime_to_str' img ax h = (Ok tt, h')
             /\ coord_at img ax (CoordStr (map datetime_str ns)) h'.
Proof.
  intros Hl Hc. unfold datetime_to_str.
  unfold bind at 1. rewrite (coords_getitem_stored _ _ _ _ _ Hl Hc). simpl.
  unfold bind at 1. rewrite (coords_getitem_stored _ _ _ _ _ Hl Hc). simpl.
  unfold coords_setitem, bind. rewrite (load_DataArray_eq _ _ _ Hl). unfold store.
  eexists. split; [done|]. eexists. split.
  - apply list_lookup_insert_eq. by eapply lookup_lt_Some.
  - simpl. apply lookup_insert_eq.
Qed.

(** Every other coordinate stays where it is. *)
Lemma datetime_to_str_keeps img ax c img' ax' :
  is_datetime64 c = false ->
  respects (keeps_coord img ax c) (datetime_to_str' img' ax').
Proof.
  intros Hc h (d & Hl & Hd). unfold datetime_to_str.
  pose proof (coords_getitem_unchanged img' ax' h) as Hun. unfold unchanged in Hun.
  unfold bind at 1.
  destruct (coords_getitem img' ax' h) as [[c1|e] h1] eqn:Hget; simpl in Hun; subst h1;
    [|by exists d].
  destruct (is_datetime64 c1) eqn:Hdt; [|by exists d].
  unfold bind at 1. rewrite Hget. simpl.
  unfold coords_setitem, bind, load_DataArray, bind, load, store. cbn beta.
  destruct (h !! img') as [[z|d']|] eqn:Hl'; simpl; try by exists d.
  destruct (decide (img' = img)) as [->|Hne].
  - rewrite Hl in Hl'. injection Hl' as <-.
    eexists. split; [apply list_lookup_insert_eq; by eapply lookup_lt_Some|]. simpl.
    destruct (decide (ax' = ax)) as [->|Hax]; [|by rewrite lookup_insert_ne].
    rewrite (coords_getitem_stored _ _ _ _ _ Hl Hd) in Hget. injection Hget as <-.
    congruence.
  - exists d. split; [by rewrite list_lookup_insert_ne|done].
Qed.

(** A coordinate that is not of datetimes is not written. *)
Lemma datetime_to_str_unchanged img ax h d :
  h !! img = Some (ObjDataArray d) ->
  (forall ns, xa_coords d !! ax <> Some (CoordDatetime ns)) ->
  unchanged (datetime_to_str' img ax) h.
Proof.
  intros Hl Hno. unfold unchanged, datetime_to_str.
  pose proof (coords_getitem_unchanged img ax h) as Hun. unfold unchanged in Hun.
  unfold bind at 1.
  destruct (coords_getitem img ax h) as [[c|e] h1] eqn:Hget; simpl in Hun; subst h1; [|done].
  destruct (is_datetime64 c) eqn:Hdt; [|done].
  destruct (xa_coords d !! ax) as [c0|] eqn:Hc.
  - rewrite (coords_getitem_stored _ _ _ _ _ Hl Hc) in Hget. injection Hget as <-.
    destruct c0 as [v|ns|v]; simpl in Hdt; try discriminate. by destruct (Hno ns).
  - by rewrite (coords_getitem_missing _ _ _ _ _ _ Hl Hc Hget) in Hdt.
Qed.
End Coordinates.

Lemma unchanged_bind {A B} (m : Py A) (k : A -> Py B) h :
  unchanged m h -> (forall a, fst (m h) = Ok a -> unchanged (k a) h) ->
  unchanged (bind m k) h.
Proof.
  unfold unchanged, bind. intros Hm Hk.
  destruct (m h) as [[a|e] h1]; simpl in *; subst h1; [by apply Hk|done].
Qed.

Lemma unchanged_load_DataArray l h : unchanged (load_DataArray l) h.
Proof.
  unfold unchanged, load_DataArray, bind, load. by destruct (h !! l) as [[z|d]|].
Qed.

Lemma coords_getitem_prefix img key h h' c :
  h `prefix_of` h' -> coords_getitem img key h = (Ok c, h) ->
  coords_getitem img key h' = (Ok c, h').
Proof.
  intros Hpre. unfold coords_getitem, bind, load_DataArray, bind, load, load_ndarray, bind, load.
  cbn beta. destruct (h !! img) as [[z|d]|] eqn:Hl; simpl; try discriminate.
  rewrite (prefix_lookup_Some _ _ _ _ Hl Hpre). simpl.
  destruct (xa_coords d !! key); simpl; [by intros [= <-]|].
  destruct (h !! xa_values d) as [[v|]|] eqn:Hv; simpl; try discriminate.
  rewrite (prefix_lookup_Some _ _ _ _ Hv Hpre). simpl.
  case_match; [|discriminate]. by intros [= <-].
Qed.

Section LabeledArrays.
Variable dm : data_model.
Variable apply_default_cascade : imshow_args -> string + args_view.
Variable validate_coerce : option colorscale_spec -> string + Colorscale.
Variable repr_float : float -> string.
Variable datetime_str : Z -> string.
Variable plotly_accepts : plotly_call -> string + unit.

Local Abbreviation datetime_to_str' := (datetime_to_str repr_float datetime_str).
Local Abbreviation read_xarray' := (read_xarray true repr_float datetime_str).
Local Abbreviation read_labeled' := (read_labeled repr_float datetime_str).
Local Abbreviation build_trace' := (build_trace dm validate_coerce repr_float).
Local Abbreviation imshow' :=
  (imshow dm true apply_default_cascade validate_coerce repr_float datetime_str
          plotly_accepts).

Lemma read_xarray_labeled a h d ydim xdim :
  h !! arg_img a = Some (ObjDataArray d) ->
  xa_dims d !! 0%nat = Some ydim -> xa_dims d !! 1%nat = Some xdim ->
  read_xarray' a h = read_labeled' (arg_img a) (arg_aspect a) ydim xdim h.
Proof.
  intros Hl Hy Hx. unfold read_xarray.
  unfold bind at 1, is_DataArray, bind at 1, load. rewrite Hl. simpl.
  unfold bind at 1. rewrite (load_DataArray_eq _ _ _ Hl).
  unfold bind at 1, lift, getitem. rewrite Hy.
  unfold bind at 1. rewrite Hx. reflexivity.
Qed.

Lemma imshow_after_cascade a h args :
  apply_default_cascade a = inr args ->
  imshow' a h
  = bind (read_xarray' a) (fun l =>
      bind (normalize dm (arg_img a)) (fun img =>
        bind (build_trace' a args (apply_labels (arg_labels a) l) img) (fun tl =>
          finish plotly_accepts args (apply_labels (arg_labels a) l) img tl))) h.
Proof. intros Hc. unfold imshow. unfold bind at 1, external. by rewrite Hc. Qed.

(** With [imshow] past its default cascade, the store at the end is the one
    that the tail of [imshow] leaves, or the one at which [read_xarray]
    raised. *)
Lemma imshow_final_store R `{!Growth R} a h args :
  apply_default_cascade a = inr args ->
  R (snd (read_xarray' a h)) (snd (imshow' a h)).
Proof.
  intros Hc. rewrite (imshow_after_cascade a h args Hc).
  unfold bind at 1. destruct (read_xarray' a h) as [[l|e] h1]; cbn [fst snd];
    [|apply growth_refl].
  apply (imshow_tail_respects dm validate_coerce repr_float plotly_accepts R a args
           (apply_labels (arg_labels a) l) h1).
Qed.

(** X13. A coordinate of datetimes on one of the first two dimensions of a
    DataArray is replaced by its text in the DataArray of the caller: once
    the default cascade is through, the store that [imshow] leaves, whether
    it returns or raises, holds the text for the second dimension, and for
    the first one as well when the second one has a stored coordinate. *)
Theorem datetime_coordinates_become_text a (h : heap) d ydim xdim args :
  h !! arg_img a = Some (ObjDataArray d) ->
  xa_dims d !! 0%nat = Some ydim -> xa_dims d !! 1%nat = Some xdim ->
  apply_default_cascade a = inr args ->
  (forall ns, xa_coords d !! xdim = Some (CoordDatetime ns) ->
     coord_at (arg_img a) xdim (CoordStr (map datetime_str ns)) (snd (imshow' a h)))
  /\ (forall ns, xa_coords d !! ydim = Some (CoordDatetime ns) ->
        is_Some (xa_coords d !! xdim) ->
        coord_at (arg_img a) ydim (CoordStr (map datetime_str ns)) (snd (imshow' a h))).
Proof.
  intros Hl Hy Hx Hc.
  assert (forall ns, xa_coords d !! xdim = Some (CoordDatetime ns) ->
            coord_at (arg_img a) xdim (CoordStr (map datetime_str ns))
              (snd (imshow' a h))) as Hxtext.
  { intros ns Hns.
    apply (imshow_final_store (keeps_coord (arg_img a) xdim (CoordStr (map datetime_str ns)))
             a h args Hc).
    rewrite (read_xarray_labeled a h d ydim xdim Hl Hy Hx). unfold read_labeled.
    destruct (datetime_to_str_converts repr_float datetime_str _ _ _ _ _ Hl Hns)
      as (hx & Hstep & Hat).
    unfold bind at 1. rewrite Hstep.
    match goal with
    | |- coord_at _ _ ?c (snd (?m ?h0)) =>
        assert (respects (keeps_coord (arg_img a) xdim c) m) as Hr
    end.
    { pose proof (datetime_to_str_keeps repr_float datetime_str (arg_img a) xdim
                    (CoordStr (map datetime_str ns)) (arg_img a) ydim eq_refl).
      respects_auto. }
    by apply (Hr hx). }
  split; [done|].
  intros ns Hns [cx Hcx].
  destruct (decide (ydim = xdim)) as [->|Hne]; [by apply Hxtext|].
  apply (imshow_final_store (keeps_coord (arg_img a) ydim (CoordStr (map datetime_str ns)))
           a h args Hc).
  rewrite (read_xarray_labeled a h d ydim xdim Hl Hy Hx). unfold read_labeled.
  assert (exists hx d1, datetime_to_str' (arg_img a) xdim h = (Ok tt, hx)
            /\ hx !! arg_img a = Some (ObjDataArray d1)
            /\ xa_coords d1 !! ydim = Some (CoordDatetime ns)) as (hx & d1 & Hstep & Hl1 & Hd1).
  { destruct (is_datetime64 cx) eqn:Hdt.
    - destruct cx as [v|nx|v]; try discriminate.
      unfold datetime_to_str.
      unfold bind at 1. rewrite (coords_getitem_stored _ _ _ _ _ Hl Hcx). simpl.
      unfold bind at 1. rewrite (coords_getitem_stored _ _ _ _ _ Hl Hcx). simpl.
      unfold coords_setitem, bind. rewrite (load_DataArray_eq _ _ _ Hl). unfold store.
      eexists _, _. split; [done|]. split.
      + apply list_lookup_insert_eq. by eapply lookup_lt_Some.
      + simpl. by rewrite lookup_insert_ne.
    - unfold datetime_to_str.
      unfold bind at 1. rewrite (coords_getitem_stored _ _ _ _ _ Hl Hcx), Hdt.
      by exists h, d. }
  unfold bind at 1. rewrite Hstep.
  destruct (datetime_to_str_converts repr_float datetime_str _ _ _ _ _ Hl1 Hd1)
    as (hy & Hstep2 & Hat).
  unfold bind at 1. rewrite Hstep2.
  match goal with
  | |- coord_at _ _ ?c (snd (?m ?h0)) =>
      assert (respects (keeps_coord (arg_img a) ydim c) m) as Hr by respects_auto
  end.
  by apply (Hr hy).
Qed.

Lemma read_xarray_unchanged a h d :
  h !! arg_img a = Some (ObjDataArray d) ->
  (forall i ax ns, (i < 2)%nat -> xa_dims d !! i = Some ax ->
     xa_coords d !! ax <> Some (CoordDatetime ns)) ->
  unchanged (read_xarray' a) h.
Proof.
  intros Hl Hno.
  destruct (xa_dims d !! 0%nat) as [ydim|] eqn:Hy;
    [destruct (xa_dims d !! 1%nat) as [xdim|] eqn:Hx|].
  - unfold unchanged. rewrite (read_xarray_labeled a h d ydim xdim Hl Hy Hx).
    unfold read_labeled.
    apply unchanged_bind.
    { apply (datetime_to_str_unchanged _ _ _ _ _ d Hl). intros ns. by apply (Hno 1%nat); [lia|]. }
    intros _ _. apply unchanged_bind.
    { apply (datetime_to_str_unchanged _ _ _ _ _ d Hl). intros ns. by apply (Hno 0%nat); [lia|]. }
    intros _ _. apply unchanged_bind; [apply coords_getitem_unchanged|intros xv _].
    apply unchanged_bind; [apply coords_getitem_unchanged|intros yv _].
    apply unchanged_bind; [apply unchanged_load_DataArray|by intros d' _].
  - unfold unchanged, read_xarray.
    unfold bind at 1, is_DataArray, bind at 1, load. rewrite Hl. simpl.
    unfold bind at 1. rewrite (load_DataArray_eq _ _ _ Hl).
    unfold bind at 1, lift, getitem. rewrite Hy.
    unfold bind at 1. by rewrite Hx.
  - unfold unchanged, read_xarray.
    unfold bind at 1, is_DataArray, bind at 1, load. rewrite Hl. simpl.
    unfold bind at 1. rewrite (load_DataArray_eq _ _ _ Hl).
    unfold bind at 1, lift, getitem. by rewrite Hy.
Qed.

(** X12. A DataArray whose first two dimensions have no coordinate of
    datetimes is left as it is, with all the store, whether [imshow] returns
    or raises: the store only grows. *)
Theorem labeled_array_without_datetimes_is_kept a (h : heap) d :
  h !! arg_img a = Some (ObjDataArray d) ->
  (forall i ax ns, (i < 2)%nat -> xa_dims d !! i = Some ax ->
     xa_coords d !! ax <> Some (CoordDatetime ns)) ->
  let after :=
    snd (imshow dm true apply_default_cascade validate_coerce repr_float datetime_str
                plotly_accepts a h) in
  h `prefix_of` after /\ after !! arg_img a = Some (ObjDataArray d).
Proof.
  intros Hl Hno.
  assert (h `prefix_of` snd (imshow' a h)) as Hpre.
  { destruct (apply_default_cascade a) as [msg|args] eqn:Hc.
    - unfold imshow. unfold bind at 1, external. by rewrite Hc.
    - pose proof (imshow_final_store prefix a h args Hc) as Hfin.
      by rewrite (read_xarray_unchanged a h d Hl Hno) in Hfin. }
  split; [done|]. by eapply prefix_lookup_Some.
Qed.
End LabeledArrays.

Section LabeledFigure.
Variable dm : data_model.
Variable apply_default_cascade : imshow_args -> string + args_view.
Variable validate_coerce : option colorscale_spec -> string + Colorscale.
Variable repr_float : float -> string.
Variable datetime_str : Z -> string.
Variable plotly_accepts : plotly_call -> string + unit.

Local Abbreviation datetime_to_str' := (datetime_to_str repr_float datetime_str).
Local Abbreviation read_xarray' := (read_xarray true repr_float datetime_str).
Local Abbreviation read_labeled' := (read_labeled repr_float datetime_str).
Local Abbreviation build_trace' := (build_trace dm validate_coerce repr_float).
Local Abbreviation imshow' :=
  (imshow dm true apply_default_cascade validate_coerce repr_float datetime_str
          plotly_accepts).

Lemma read_xarray_two_dims a h d l h1 :
  h !! arg_img a = Some (ObjDataArray d) ->
  read_xarray' a h = (Ok l, h1) ->
  exists ydim xdim, xa_dims d !! 0%nat = Some ydim /\ xa_dims d !! 1%nat = Some xdim.
Proof.
  intros Hl. unfold read_xarray.
  unfold bind at 1, is_DataArray, bind at 1, load. rewrite Hl. simpl.
  unfold bind at 1. rewrite (load_DataArray_eq _ _ _ Hl).
  unfold bind at 1, lift, getitem.
  destruct (xa_dims d !! 0%nat) as [ydim|]; [|discriminate].
  unfold bind at 1. destruct (xa_dims d !! 1%nat) as [xdim|]; [|discriminate]. eauto.
Qed.

Lemma read_labeled_inv img asp ydim xdim h l h1 :
  read_labeled' img asp ydim xdim h = (Ok l, h1) ->
  x_label l = Some xdim /\ y_label l = Some ydim /\ img_is_xarray l = true
  /\ exists xv yv d',
       x l = Some xv /\ y l = Some yv
       /\ coords_getitem img xdim h1 = (Ok xv, h1)
       /\ coords_getitem img ydim h1 = (Ok yv, h1)
       /\ h1 !! img = Some (ObjDataArray d')
       /\ z_name l = replace_newline (xa_label d').
Proof.
  unfold read_labeled.
  unfold bind at 1. destruct (datetime_to_str' img xdim h) as [[[]|e] ha]; [|discriminate].
  unfold bind at 1. destruct (datetime_to_str' img ydim ha) as [[[]|e] hb]; [|discriminate].
  pose proof (coords_getitem_unchanged img xdim hb) as Hux.
  pose proof (coords_getitem_unchanged img ydim hb) as Huy.
  unfold unchanged in Hux, Huy.
  unfold bind at 1.
  destruct (coords_getitem img xdim hb) as [[xv|e] hc] eqn:Hgx; [|discriminate].
  simpl in Hux. subst hc.
  unfold bind at 1.
  destruct (coords_getitem img ydim hb) as [[yv|e] hc] eqn:Hgy; [|discriminate].
  simpl in Huy. subst hc.
  unfold bind at 1.
  destruct (load_DataArray img hb) as [[d'|e] hc] eqn:Hld; [|discriminate].
  apply load_DataArray_inv in Hld as [-> Hl'].
  intros [= <- <-]. simpl. repeat split; eauto 10.
Qed.

(** X15. For a DataArray, a figure that [imshow] returns has the x axis
    titled by the label "x", or by the name of the second dimension when
    there is none, and the y axis by the label "y" or the name of the first
    dimension.  A Heatmap has the hover text made of these two and of the
    title of the colour bar, which is the label "color" or else the label of
    the array with its newlines turned into [<br>]; its [x] and [y] are the
    coordinates of the two dimensions as the DataArray holds them after the
    call.  An Image gets neither hover text nor coordinates. *)
Theorem labeled_array_titles a (h : heap) d fig h' :
  h !! arg_img a = Some (ObjDataArray d) ->
  imshow' a h = (Ok fig, h') ->
  exists ydim xdim,
    xa_dims d !! 0%nat = Some ydim /\ xa_dims d !! 1%nat = Some xdim
    /\ xaxis_title_text (fig_layout fig) = Some (label_or (arg_labels a) "x" xdim)
    /\ yaxis_title_text (fig_layout fig) = Some (label_or (arg_labels a) "y" ydim)
    /\ match tr_type (fig_data fig) with
       | Heatmap =>
           tr_hovertemplate (fig_data fig)
           = Some (hover_text (label_or (arg_labels a) "x" xdim)
                              (label_or (arg_labels a) "y" ydim)
                              (label_or (arg_labels a) "color"
                                        (replace_newline (xa_label d))))
           /\ (exists ca, coloraxis1 (fig_layout fig) = Some ca
                 /\ colorbar_title ca
                    = label_or (arg_labels a) "color" (replace_newline (xa_label d)))
           /\ (exists xv yv,
                 tr_x (fig_data fig) = Some xv /\ tr_y (fig_data fig) = Some yv
                 /\ coords_getitem (arg_img a) xdim h' = (Ok xv, h')
                 /\ coords_getitem (arg_img a) ydim h' = (Ok yv, h'))
       | Image =>
           tr_hovertemplate (fig_data fig) = None
           /\ tr_x (fig_data fig) = None /\ tr_y (fig_data fig) = None
       end.
Proof.
  intros Hl Hrun.
  destruct (imshow_returns_inv _ _ _ _ _ _ _ _ _ _ _ Hrun)
    as (args & l & h1 & arr & img & h2 & [tr lay] & h3 & Hc & Hread & _ & Hl2 & Hbuild & Hfin).
  destruct (read_xarray_two_dims a h d l h1 Hl Hread) as (ydim & xdim & Hy & Hx).
  exists ydim, xdim. split; [done|]. split; [done|].
  pose proof (imshow_final_store dm apply_default_cascade validate_coerce repr_float
                datetime_str plotly_accepts prefix a h args Hc) as Hpre.
  rewrite Hread, Hrun in Hpre. simpl in Hpre.
  pose proof (read_xarray_steady true repr_float datetime_str a h) as [_ Hst].
  rewrite Hread in Hst. simpl in Hst.
  rewrite (read_xarray_labeled _ _ a h d ydim xdim Hl Hy Hx) in Hread.
  apply read_labeled_inv in Hread
    as (Hxl & Hyl & Hisx & xv & yv & d' & Hxv & Hyv & Hgx & Hgy & Hl' & Hzn).
  destruct (Hst _ _ Hl) as (o' & Ho' & Hsame). rewrite Hl' in Ho'. injection Ho' as <-.
  simpl in Hsame. destruct Hsame as (_ & _ & Hlabel). rewrite Hlabel in Hzn.
  destruct (apply_labels_fields (arg_labels a) l)
    as (Hisx' & Hx' & Hy' & _ & Hxl' & Hyl' & Hzn').
  rewrite Hxl in Hxl'. rewrite Hyl in Hyl'. rewrite Hzn in Hzn'.
  set (l' := apply_labels (arg_labels a) l) in *.
  assert (x_label l' = Some (label_or (arg_labels a) "x" xdim)) as Hxlab.
  { rewrite Hxl'. unfold label_or. destruct (arg_labels a) as [m|]; simpl; [|done].
    by destruct (m !! "x"). }
  assert (y_label l' = Some (label_or (arg_labels a) "y" ydim)) as Hylab.
  { rewrite Hyl'. unfold label_or. destruct (arg_labels a) as [m|]; simpl; [|done].
    by destruct (m !! "y"). }
  assert (z_name l' = label_or (arg_labels a) "color" (replace_newline (xa_label d)))
    as Hzlab.
  { rewrite Hzn'. unfold label_or. destruct (arg_labels a) as [m|]; simpl; [|done].
    by destruct (m !! "color"). }
  destruct (finish_trace _ _ _ _ _ _ _ _ Hfin) as (Hty & _).
  apply finish_figure in Hfin as (z & Hl3 & _ & Hlay & Hdata).
  rewrite Hisx', Hisx in Hlay, Hdata. simpl in Hlay, Hdata, Hty.
  rewrite Hlay. simpl. split; [done|]. split; [done|]. rewrite Hty.
  destruct (build_trace_cases _ _ _ _ _ _ _ _ _ _ _ _ Hl2 Hbuild)
    as [[Hnd Hheat]|(Hnd & Hrgb & Himage)].
  - eapply heatmap_branch_inv in Hheat as (-> & -> & ca & -> & _ & _ & Htitle & _);
      [|exact Hl2].
    rewrite Hl2 in Hl3. injection Hl3 as <-.
    rewrite bool_decide_eq_true_2 in Hdata by lia.
    destruct Hdata as (xl0 & yl0 & Hxl0 & Hyl0 & ->). simpl.
    rewrite Hxlab in Hxl0. rewrite Hylab in Hyl0.
    injection Hxl0 as <-. injection Hyl0 as <-. rewrite Hzlab.
    split; [done|]. split; [exists ca; by rewrite Htitle|].
    exists xv, yv. rewrite Hx', Hy'. repeat split; try done;
      by eapply coords_getitem_prefix.
  - pose proof Himage as Himage'.
    eapply image_branch_inv in Himage' as (Hpre3 & -> & _); [|exact Hl2].
    rewrite (prefix_lookup_Some _ _ _ _ Hl2 Hpre3) in Hl3. injection Hl3 as <-.
    assert (ndim (normalized arr) = 3%nat) as Hnd3.
    { unfold is_rgb_shape in Hrgb. apply andb_true_iff in Hrgb as [Hlen _].
      by apply bool_decide_eq_true in Hlen. }
    rewrite bool_decide_eq_false_2 in Hdata by lia. rewrite Hdata. simpl.
    by destruct (image_branch_layout _ _ _ _ _ _ _ _ _ Hl2 Himage) as (_ & -> & -> & -> & _).
Qed.
End LabeledFigure.

(** Turning the newlines of a label into [<br>] leaves no newline, and
    leaves a label without newlines as it is. *)
Lemma replace_newline_leaves_none s :
  has_newline (replace_newline s) = false
  /\ (has_newline s = false -> replace_newline s = s).
Proof.
  induction s as [|c s [IH1 IH2]]; simpl; [done|].
  case_bool_decide as Hc; simpl.
  - split; [|discriminate].
    repeat (rewrite bool_decide_eq_false_2 by done; simpl). done.
  - rewrite bool_decide_eq_false_2 by done. simpl. split; [done|].
    intros Hs. by rewrite IH2.
Qed.

(** ** No local variable is read before it is bound *)

Lemma never_unbound_load l : raises_only never_unbound (load l).
Proof. intros h e. unfold load. destruct (h !! l); simpl; [discriminate|]. by intros [= <-]. Qed.

Lemma never_unbound_external {A} (r : string + A) : raises_only never_unbound (external r).
Proof. destruct r; [by apply raises_only_raise|apply raises_only_ret]. Qed.

Lemma never_unbound_getitem {A} what (l : list A) i :
  raises_only never_unbound (lift (getitem what l i)).
Proof.
  intros h e. unfold lift, getitem. destruct (l !! i); simpl; [discriminate|].
  by intros [= <-].
Qed.

Lemma never_unbound_vectorize repr z :
  raises_only never_unbound (lift (_vectorize_zvalue repr z)).
Proof.
  intros h e. unfold lift, _vectorize_zvalue. simpl.
  destruct z as [[s|l|l]|]; try discriminate;
    repeat case_bool_decide; try discriminate; by intros [= <-].
Qed.

Create HintDb unbound.
#[global] Hint Resolve raises_only_ret raises_only_alloc raises_only_store never_unbound_load
  never_unbound_external never_unbound_getitem never_unbound_vectorize : unbound.

Ltac unbound_step :=
  match goal with
  | |- raises_only _ (bind _ _) => apply raises_only_bind; [|intros]
  | |- raises_only _ (raise _) => apply raises_only_raise; reflexivity
  | |- raises_only _ (match ?x with _ => _ end) => destruct x
  | |- raises_only _ (let (_, _) := ?x in _) => destruct x
  end.
Ltac unbound_auto := repeat first [solve [eauto with unbound] | unbound_step].

Lemma never_unbound_load_ndarray l : raises_only never_unbound (load_ndarray l).
Proof. unfold load_ndarray. unbound_auto. Qed.
#[global] Hint Resolve never_unbound_load_ndarray : unbound.

Lemma never_unbound_ndarray_max l : raises_only never_unbound (ndarray_max l).
Proof. unfold ndarray_max. unbound_auto. Qed.

Lemma never_unbound_ndarray_min l : raises_only never_unbound (ndarray_min l).
Proof. unfold ndarray_min. unbound_auto. Qed.

Lemma never_unbound_np_isfinite l : raises_only never_unbound (np_isfinite l).
Proof. unfold np_isfinite. unbound_auto. Qed.

Lemma never_unbound_ndarray_getitem_mask l m :
  raises_only never_unbound (ndarray_getitem_mask l m).
Proof. unfold ndarray_getitem_mask. unbound_auto. Qed.
#[global] Hint Resolve never_unbound_ndarray_max never_unbound_ndarray_min
  never_unbound_np_isfinite never_unbound_ndarray_getitem_mask : unbound.

Lemma never_unbound_infer dm img : raises_only never_unbound (_infer_zmax_from_type dm img).
Proof. unfold _infer_zmax_from_type. unbound_auto. Qed.

Lemma never_unbound_load_DataArray l : raises_only never_unbound (load_DataArray l).
Proof. unfold load_DataArray. unbound_auto. Qed.
#[global] Hint Resolve never_unbound_infer never_unbound_load_DataArray : unbound.

Lemma never_unbound_coords_getitem img key : raises_only never_unbound (coords_getitem img key).
Proof. unfold coords_getitem. unbound_auto. Qed.

Lemma never_unbound_coords_setitem img key c :
  raises_only never_unbound (coords_setitem img key c).
Proof. unfold coords_setitem. unbound_auto. Qed.
#[global] Hint Resolve never_unbound_coords_getitem never_unbound_coords_setitem : unbound.

Section NeverUnbound.
Variable dm : data_model.
Variable xarray_imported : bool.
Variable apply_default_cascade : imshow_args -> string + args_view.
Variable validate_coerce : option colorscale_spec -> string + Colorscale.
Variable repr_float : float -> string.
Variable datetime_str : Z -> string.
Variable plotly_accepts : plotly_call -> string + unit.

Local Abbreviation read_xarray' := (read_xarray xarray_imported repr_float datetime_str).
Local Abbreviation imshow' :=
  (imshow dm xarray_imported apply_default_cascade validate_coerce repr_float datetime_str
          plotly_accepts).

Lemma never_unbound_datetime_to_str img ax :
  raises_only never_unbound (datetime_to_str repr_float datetime_str img ax).
Proof. unfold datetime_to_str. unbound_auto. Qed.
Hint Resolve never_unbound_datetime_to_str : unbound.

Lemma never_unbound_read_xarray a : raises_only never_unbound (read_xarray' a).
Proof. unfold read_xarray, is_DataArray. unbound_auto. Qed.

Lemma never_unbound_normalize img : raises_only never_unbound (normalize dm img).
Proof. unfold normalize, np_asanyarray. unbound_auto. Qed.

Lemma never_unbound_build_trace a args l img :
  raises_only never_unbound (build_trace dm validate_coerce repr_float a args l img).
Proof. unfold build_trace, heatmap_branch, image_branch. unbound_auto. Qed.

(** [finish] reads the labels and the coordinates of a DataArray only. *)
Lemma never_unbound_finish args l img tl :
  bound_if_xarray l -> raises_only never_unbound (finish plotly_accepts args l img tl).
Proof.
  intros Hb. unfold finish. apply raises_only_bind; [eauto with unbound|intros z].
  destruct (img_is_xarray l) eqn:Hx; [|unbound_auto].
  destruct (Hb Hx) as ([xl ->] & [yl ->] & [xv ->] & [yv ->]).
  unfold read_local. unbound_auto; intros h e; discriminate.
Qed.

Lemma apply_labels_bound labels l : bound_if_xarray l -> bound_if_xarray (apply_labels labels l).
Proof.
  intros Hb. unfold bound_if_xarray.
  destruct (apply_labels_fields labels l) as (-> & -> & -> & _ & -> & -> & _).
  intros Hx. destruct (Hb Hx) as (Hxl & Hyl & Hxv & Hyv).
  repeat split; try done; by case_match.
Qed.

(** X16. [imshow] never raises for a local variable that is not bound:
    [x_label], [y_label], [x] and [y] are bound on every path that reads
    them, whatever the argument and the labels are. *)
Theorem imshow_reads_no_unbound_local a (h : heap) e :
  fst (imshow' a h) = Raise e -> is_unbound e = false.
Proof.
  change (is_unbound e = false) with (never_unbound e).
  unfold imshow. unfold bind at 1.
  pose proof (never_unbound_external (apply_default_cascade a) h) as Hc.
  destruct (external (apply_default_cascade a) h) as [[args|e0] h0]; simpl in *;
    [|intros [= <-]; by apply Hc].
  unfold bind at 1.
  pose proof (never_unbound_read_xarray a h0) as Hr.
  destruct (read_xarray' a h0) as [[l|e0] h1] eqn:Hread; simpl in *;
    [|intros [= <-]; by apply Hr].
  unfold bind at 1.
  pose proof (never_unbound_normalize (arg_img a) h1) as Hn.
  destruct (normalize dm (arg_img a) h1) as [[img|e0] h2]; simpl in *;
    [|intros [= <-]; by apply Hn].
  unfold bind at 1.
  pose proof (never_unbound_build_trace a args (apply_labels (arg_labels a) l) img h2) as Hb.
  destruct (build_trace dm validate_coerce repr_float a args _ img h2) as [[tl|e0] h3];
    simpl in *; [|intros [= <-]; by apply Hb].
  apply never_unbound_finish, apply_labels_bound.
  intros Hx. by eapply read_xarray_bound.
Qed.
End NeverUnbound.

(** ** When an Image is returned *)

Lemma vectorize_returns_iff repr z :
  (exists r, _vectorize_zvalue repr z = Ok r) <-> accepted_zvalue z = true.
Proof.
  unfold accepted_zvalue, accepted_length, _vectorize_zvalue.
  destruct z as [[sc|l|l]|]; simpl; try (by split; eauto);
    repeat case_bool_decide; simpl; (split; [|eauto]); try done; by intros [r [=]].
Qed.

Lemma infer_returns_iff dm (h : heap) (img : loc) (a : ndarray) :
  h !! img = Some (ObjNdarray a) ->
  (exists m, fst (_infer_zmax_from_type dm img h) = Ok m)
  <-> is_integer_buffer (buf a) || has_finite (buf a) = true.
Proof.
  intros Hl. pose proof (fun e => infer_raises_iff dm h img a e Hl) as Hraises.
  destruct (fst (_infer_zmax_from_type dm img h)) as [m|e].
  - split; [intros _|eauto].
    destruct (is_integer_buffer (buf a)) eqn:Hint; [done|].
    destruct (has_finite (buf a)) eqn:Hfin; [done|].
    discriminate (proj2 (Hraises (zero_size "maximum")) (conj eq_refl (conj eq_refl eq_refl))).
  - destruct (proj1 (Hraises e) eq_refl) as (_ & -> & ->).
    split; [by intros [m [=]]|discriminate].
Qed.

Section ImageReturns.
Variable dm : data_model.
Variable xarray_imported : bool.
Variable apply_default_cascade : imshow_args -> string + args_view.
Variable validate_coerce : option colorscale_spec -> string + Colorscale.
Variable repr_float : float -> string.
Variable datetime_str : Z -> string.
Variable plotly_accepts : plotly_call -> string + unit.

Local Abbreviation read_xarray' := (read_xarray xarray_imported repr_float datetime_str).
Local Abbreviation build_trace' := (build_trace dm validate_coerce repr_float).
Local Abbreviation image_branch' := (image_branch dm repr_float).
Local Abbreviation imshow' :=
  (imshow dm xarray_imported apply_default_cascade validate_coerce repr_float datetime_str
          plotly_accepts).

Lemma image_branch_returns a img h z :
  h !! img = Some (ObjNdarray z) ->
  (arg_zmax a = None -> is_integer_buffer (buf z) || has_finite (buf z) = true) ->
  accepted_zvalue (arg_zmin a) = true -> accepted_zvalue (arg_zmax a) = true ->
  exists tl h', image_branch' a img h = (Ok tl, h') /\ h `prefix_of` h'.
Proof.
  intros Hl Hinfer Hzmin Hzmax. unfold image_branch. unfold bind at 1.
  rewrite (load_ndarray_eq _ _ _ Hl). rewrite dtype_is_not_a_type. simpl negb.
  apply vectorize_returns_iff with (repr := repr_float) in Hzmin as [vmin Hvmin].
  destruct (arg_zmax a) as [w|] eqn:Hw; simpl.
  - apply vectorize_returns_iff with (repr := repr_float) in Hzmax as [vmax Hvmax].
    unfold bind, ret, lift. rewrite Hvmin, Hvmax. eauto.
  - destruct (proj2 (infer_returns_iff dm h img z Hl) (Hinfer eq_refl)) as [m Hm].
    pose proof (respects_infer prefix dm img h) as Hpre.
    unfold bind, ret, lift.
    destruct (_infer_zmax_from_type dm img h) as [r h1]; simpl in *. subst r.
    rewrite Hvmin. simpl. eauto.
Qed.

(** What [image_branch] raises is an exception of this module. *)
Lemma image_branch_raises a img h z e h' :
  h !! img = Some (ObjNdarray z) ->
  image_branch' a img h = (Raise e, h') -> is_external e = false.
Proof.
  intros Hl. unfold image_branch. unfold bind at 1.
  rewrite (load_ndarray_eq _ _ _ Hl). rewrite dtype_is_not_a_type. simpl negb.
  assert (forall zv e0, _vectorize_zvalue repr_float zv = Raise e0 -> is_external e0 = false)
    as Hvec.
  { intros zv e0. unfold _vectorize_zvalue.
    destruct zv as [[sc|l0|l0]|]; try discriminate;
      repeat case_bool_decide; try discriminate; by intros [= <-]. }
  destruct (arg_zmax a) as [w|]; simpl; unfold bind, ret, lift.
  - destruct (_vectorize_zvalue repr_float (arg_zmin a)) as [vmin|e1] eqn:Hmin;
      [destruct (_vectorize_zvalue repr_float (Some w)) as [vmax|e2] eqn:Hmax;
         [discriminate|]|];
      intros [= <- _]; eauto.
  - pose proof (infer_raises_iff dm h img z) as Hinf.
    destruct (_infer_zmax_from_type dm img h) as [[m|e0] h1]; simpl in *.
    + destruct (_vectorize_zvalue repr_float (arg_zmin a)) as [vmin|e1] eqn:Hmin;
        [destruct (_vectorize_zvalue repr_float (Some (ZScalar m))) as [vmax|e2] eqn:Hmax;
           [discriminate|]|];
        intros [= <- _]; eauto.
    + intros [= <- _]. by destruct (proj1 (Hinf e0 Hl) eq_refl) as [-> _].
Qed.

(** [imshow] on a plain array with 3 or 4 channels: [image_branch] on the
    normalized array, followed by [finish]. *)
Lemma imshow_plain_image a h arr args :
  h !! arg_img a = Some (ObjNdarray arr) -> is_rgb_shape (shape arr) = true ->
  apply_default_cascade a = inr args ->
  exists img h2 l,
    h2 !! img = Some (ObjNdarray (normalized arr))
    /\ img_is_xarray l = false
    /\ imshow' a h = bind (image_branch' a img) (finish plotly_accepts args l img) h2.
Proof.
  intros Hl Hrgb Hc.
  assert (ndim arr <> 2%nat) as Hndim.
  { unfold is_rgb_shape in Hrgb. apply andb_true_iff in Hrgb as [Hlen _].
    apply bool_decide_eq_true in Hlen. unfold ndim. lia. }
  destruct (normalize_spec dm h (arg_img a) arr (input_array_plain _ _ _ Hl))
    as (img & h2 & Hnorm & _ & Hl2 & _).
  exists img, h2,
    (apply_labels (arg_labels a) (mk_locals None None None None false (arg_aspect a) "")).
  split; [done|]. split.
  { by destruct (apply_labels_fields (arg_labels a)
                   (mk_locals None None None None false (arg_aspect a) "")) as (-> & _). }
  unfold imshow. unfold bind at 1, external. rewrite Hc. simpl.
  unfold bind at 1. rewrite (read_xarray_plain _ _ _ a h arr Hl).
  unfold bind at 1. rewrite Hnorm.
  unfold bind. rewrite (build_trace_eq _ _ _ _ _ _ _ _ _ Hl2).
  unfold ndim. rewrite normalized_shape. fold (ndim arr).
  rewrite bool_decide_eq_false_2 by done. by rewrite Hrgb.
Qed.

(** X17. For a plain array of three dimensions with 3 or 4 channels, once
    the default cascade is through, [imshow] gets to the figure (it returns,
    or raises only what plotly raised for a call of lines 249-264 that it
    does not accept) exactly when [zmin] and [zmax] are each left out, a
    scalar, or of 1, 3 or 4 entries, and, when [zmax] is left out, the array
    that is drawn is of an integer type or has a finite entry. *)
Theorem image_returns_exactly_when a (h : heap) arr args :
  h !! arg_img a = Some (ObjNdarray arr) -> is_rgb_shape (shape arr) = true ->
  apply_default_cascade a = inr args ->
  returns_unless_rejected plotly_accepts (fst (imshow' a h))
  <-> (arg_zmax a = None ->
         is_integer_buffer (buf (normalized arr)) || has_finite (buf (normalized arr)) = true)
      /\ accepted_zvalue (arg_zmin a) = true /\ accepted_zvalue (arg_zmax a) = true.
Proof.
  intros Hl Hrgb Hc.
  destruct (imshow_plain_image a h arr args Hl Hrgb Hc) as (img & h2 & l & Hl2 & Hx & ->).
  unfold bind at 1.
  destruct (image_branch' a img h2) as [[[tr lay]|e] h3] eqn:Hbranch.
  - destruct (image_branch_inv dm repr_float _ _ _ _ _ _ _ Hl2 Hbranch)
      as (Hpre & _ & _ & Hvmin & zmax & Hvmax & Hzmax).
    split.
    + intros _. split_and!.
      * intros Hnone. rewrite Hnone in Hzmax. destruct Hzmax as (m & Hm & _).
        apply (infer_returns_iff dm h2 img _ Hl2). eauto.
      * apply (vectorize_returns_iff repr_float). eauto.
      * destruct (arg_zmax a) as [w|] eqn:Hw; [|done]. subst zmax.
        apply (vectorize_returns_iff repr_float). eauto.
    + intros _.
      destruct (finish_plain plotly_accepts args l img (tr, lay) h3 (normalized arr))
        as [(fig & ->)|(e & Hrej & ->)]; [by eapply prefix_lookup_Some|done|done|done].
  - simpl. split.
    + intros (c & msg & _ & ->).
      by pose proof (image_branch_raises _ _ _ _ _ _ Hl2 Hbranch).
    + intros (Hinfer & Hzmin & Hzmax).
      destruct (image_branch_returns a img h2 _ Hl2 Hinfer Hzmin Hzmax)
        as (tl & h4 & Hok & _).
      by rewrite Hok in Hbranch.
Qed.
End ImageReturns.

(** ** When a Heatmap is returned *)

Section HeatmapReturns.
Variable dm : data_model.
Variable xarray_imported : bool.
Variable apply_default_cascade : imshow_args -> string + args_view.
Variable validate_coerce : option colorscale_spec -> string + Colorscale.
Variable repr_float : float -> string.
Variable datetime_str : Z -> string.
Variable plotly_accepts : plotly_call -> string + unit.

Local Abbreviation heatmap_branch' := (heatmap_branch validate_coerce).
Local Abbreviation imshow' :=
  (imshow dm xarray_imported apply_default_cascade validate_coerce repr_float datetime_str
          plotly_accepts).

Lemma heatmap_branch_returns_inv a args l img h z tl h' :
  h !! img = Some (ObjNdarray z) ->
  heatmap_branch' a args l img h = (Ok tl, h') ->
  (exists cs, validate_coerce (args_color_continuous_scale args) = inr cs)
  /\ range_defined a z.
Proof.
  intros Hl. unfold heatmap_branch, range_defined.
  unfold bind at 1. rewrite (load_ndarray_eq _ _ _ Hl).
  assert (forall m : scalar, buffer_max (buf z) = Some m -> buffer_size (buf z) <> 0%nat)
    as Hmax.
  { intros m Hm Hsize. apply buffer_empty_reductions in Hsize as [? _]. congruence. }
  assert (forall m : scalar, buffer_min (buf z) = Some m -> buffer_size (buf z) <> 0%nat)
    as Hmin.
  { intros m Hm Hsize. apply buffer_empty_reductions in Hsize as [_ ?]. congruence. }
  destruct (arg_zmin a) as [zmin|], (arg_zmax a) as [zmax|]; simpl;
    unfold bind; simpl;
    rewrite ?(ndarray_max_eq _ _ _ Hl), ?(ndarray_min_eq _ _ _ Hl);
    try (destruct (buffer_max (buf z)) as [mx|] eqn:Hmx; [|discriminate]);
    try (destruct (buffer_min (buf z)) as [mn|] eqn:Hmn; [|discriminate]);
    simpl;
    (destruct (validate_coerce (args_color_continuous_scale args)) as [msg|cs];
       [discriminate|]);
    simpl; intros Hrun; (split; [eauto|]); (split; [eauto|]);
    destruct (arg_range_color a) as [[|r0 [|r1 rest]]|]; simpl in *;
    try discriminate; intros; lia.
Qed.

(** What [heatmap_branch] raises once the validator accepts the colour scale
    is an exception of this module. *)
Lemma heatmap_branch_raises a args l img h z cs e h' :
  h !! img = Some (ObjNdarray z) ->
  validate_coerce (args_color_continuous_scale args) = inr cs ->
  heatmap_branch' a args l img h = (Raise e, h') -> is_external e = false.
Proof.
  intros Hl Hcs. unfold heatmap_branch.
  unfold bind at 1. rewrite (load_ndarray_eq _ _ _ Hl).
  destruct (arg_zmin a) as [zmin|], (arg_zmax a) as [zmax|]; simpl;
    unfold bind; simpl;
    rewrite ?(ndarray_max_eq _ _ _ Hl), ?(ndarray_min_eq _ _ _ Hl);
    try (destruct (buffer_max (buf z)) as [mx|]; [|by intros [= <- _]]);
    try (destruct (buffer_min (buf z)) as [mn|]; [|by intros [= <- _]]);
    simpl; rewrite Hcs; simpl;
    destruct (arg_range_color a) as [[|r0 [|r1 rest]]|]; simpl;
    try discriminate; by intros [= <- _].
Qed.

Lemma range_defined_normalized a arr : range_defined a (normalized arr) <-> range_defined a arr.
Proof. unfold range_defined. by rewrite normalized_size. Qed.

(** X18. For a plain array of two dimensions, once the default cascade is
    through and the validator accepts the colour scale, [imshow] gets to the
    figure (it returns, or raises only what plotly raised for a call of lines
    249-264 that it does not accept) exactly when a [range_color] that is
    given and not empty has at least two entries and the array has an entry
    whenever exactly one of [zmin] and [zmax] is given. *)
Theorem heatmap_returns_exactly_when a (h : heap) arr args cs :
  h !! arg_img a = Some (ObjNdarray arr) -> ndim arr = 2%nat ->
  apply_default_cascade a = inr args ->
  validate_coerce (args_color_continuous_scale args) = inr cs ->
  returns_unless_rejected plotly_accepts (fst (imshow' a h)) <-> range_defined a arr.
Proof.
  intros Hl Hnd Hc Hcs. rewrite <- range_defined_normalized. split.
  - destruct (imshow_plain_heatmap dm xarray_imported apply_default_cascade validate_coerce
                repr_float datetime_str plotly_accepts a h arr args Hl Hnd Hc)
      as (img & h2 & l & _ & Hl2 & _ & ->).
    unfold bind at 1.
    destruct (heatmap_branch' a args l img h2) as [[tl|e] h3] eqn:Hbranch.
    + intros _. by eapply heatmap_branch_returns_inv.
    + simpl. intros (c & msg & _ & ->).
      by pose proof (heatmap_branch_raises _ _ _ _ _ _ _ _ _ Hl2 Hcs Hbranch).
  - intros Hrange.
    by eapply (imshow_plain_heatmap_returns dm xarray_imported apply_default_cascade
                 validate_coerce repr_float datetime_str plotly_accepts).
Qed.
End HeatmapReturns.

(** ** The further properties on concrete calls *)

Lemma origin_sets_yaxis_witness :
  exists fig h',
    demo_imshow (with_labels_origin (Some ∅) (Some "lower") None None (plain_args 0%nat))
                (heap_of gray_2x2) = (Ok fig, h')
    /\ yaxis_autorange (fig_layout fig) = Some AutorangeTrue.
Proof.
  eexists _, _. split; [vm_compute; reflexivity|].
  exact (origin_sets_yaxis LP64 true demo_cascade demo_validate demo_repr_float
           demo_datetime_str demo_plotly
           (with_labels_origin (Some ∅) (Some "lower") None None (plain_args 0%nat))
           (heap_of gray_2x2) _ _ eq_refl).
Defined.

Lemma aspect_ties_the_axes_witness :
  exists fig h',
    demo_imshow (plain_args 0%nat) (heap_of gray_2x2) = (Ok fig, h')
    /\ axis_constraints (fig_layout fig) = (Some "y", Some "domain", Some "domain").
Proof.
  eexists _, _. split; [vm_compute; reflexivity|].
  exact (aspect_ties_the_axes LP64 true demo_cascade demo_validate demo_repr_float
           demo_datetime_str demo_plotly (plain_args 0%nat) (heap_of gray_2x2) _ _ eq_refl).
Defined.

Lemma layout_patch_entries_witness :
  exists fig h',
    demo_imshow (with_labels_origin (Some ∅) None None (Some "Heights") (plain_args 0%nat))
                (heap_of gray_2x2) = (Ok fig, h')
    /\ layout_title (fig_layout fig) = Some "Heights"
    /\ layout_height (fig_layout fig) = None
    /\ margin_t (fig_layout fig) = None
    /\ layout_template (fig_layout fig) = Some plotly_template.
Proof.
  eexists _, _. split; [vm_compute; reflexivity|].
  destruct (layout_patch_entries LP64 true demo_cascade demo_validate demo_repr_float
              demo_datetime_str demo_plotly
              (with_labels_origin (Some ∅) None None (Some "Heights") (plain_args 0%nat))
              (heap_of gray_2x2) _ _ eq_refl)
    as (args & Hargs & Htitle & Hheight & _ & Hmargin & Htemplate).
  injection Hargs as <-. by split_and!.
Defined.

Lemma trace_follows_the_shape_witness :
  exists fig h',
    demo_imshow (plain_args 0%nat) (heap_of rgb_uint16) = (Ok fig, h')
    /\ tr_z (fig_data fig) = rgb_uint16 /\ tr_type (fig_data fig) = Image
    /\ coloraxis1 (fig_layout fig) = None.
Proof.
  eexists _, _. split; [vm_compute; reflexivity|].
  destruct (trace_follows_the_shape LP64 true demo_cascade demo_validate demo_repr_float
              demo_datetime_str demo_plotly (plain_args 0%nat) (heap_of rgb_uint16) rgb_uint16 _ _
              eq_refl eq_refl)
    as (Hz & _ & [(Hndim & _)|(_ & _ & Htype & _ & Haxis)]); [discriminate Hndim|].
  by split_and!.
Defined.

Lemma empty_heatmap_cannot_fill_a_bound_witness :
  fst (demo_imshow (with_range (Some (ZScalar (SInt 0))) None None (plain_args 0%nat))
                   (heap_of empty_2d))
  = Raise (ValueError "zero-size array to reduction operation maximum which has no identity").
Proof.
  destruct (empty_heatmap_cannot_fill_a_bound LP64 true demo_cascade demo_validate
              demo_repr_float demo_datetime_str demo_plotly
              (with_range (Some (ZScalar (SInt 0))) None None (plain_args 0%nat))
              (heap_of empty_2d) empty_2d _ eq_refl eq_refl eq_refl eq_refl) as [Hmax _].
  apply Hmax; [discriminate|reflexivity].
Defined.

Lemma range_color_needs_two_entries_witness :
  fst (demo_imshow (with_range None None (Some [SInt 5]) (plain_args 0%nat)) (heap_of gray_2x2))
  = Raise (IndexError "list index out of range").
Proof.
  eapply (range_color_needs_two_entries LP64 true demo_cascade demo_validate demo_repr_float
            demo_datetime_str demo_plotly (with_range None None (Some [SInt 5]) (plain_args 0%nat))
            (heap_of gray_2x2) gray_2x2);
    [reflexivity|reflexivity|discriminate|reflexivity|reflexivity|reflexivity].
Defined.

Lemma infer_raises_without_finite_entry_witness :
  fst (_infer_zmax_from_type LP64 0%nat (heap_of nan_rgb))
  = Raise (ValueError "zero-size array to reduction operation maximum which has no identity").
Proof.
  destruct (infer_raises_without_finite_entry LP64 (heap_of nan_rgb) 0%nat nan_rgb eq_refl)
    as (Hraises & _ & _).
  apply Hraises. by split_and!.
Defined.

Lemma vectorize_is_idempotent_witness :
  exists r,
    _vectorize_zvalue demo_repr_float (Some (ZScalar (SInt 5))) = Ok r
    /\ _vectorize_zvalue demo_repr_float r = Ok r.
Proof.
  eexists. split; [reflexivity|].
  exact (vectorize_is_idempotent demo_repr_float (Some (ZScalar (SInt 5))) _ eq_refl).
Defined.

Lemma image_ignores_colour_options_witness :
  imshow LP64 true demo_cascade demo_validate demo_repr_float demo_datetime_str demo_plotly
         (plain_args 0%nat) (heap_of rgb_uint16)
  = imshow LP64 true demo_cascade (fun _ => inl "unknown colour scale") demo_repr_float
           demo_datetime_str demo_plotly (plain_args 0%nat) (heap_of rgb_uint16).
Proof.
  refine (proj1 (image_ignores_colour_options LP64 true demo_cascade demo_validate
                   (fun _ => inl "unknown colour scale") demo_repr_float demo_datetime_str
                   demo_plotly
                   (plain_args 0%nat) (heap_of rgb_uint16) rgb_uint16 eq_refl _)).
  discriminate.
Defined.

Lemma labeled_array_needs_two_dims_witness :
  demo_imshow (plain_args 1%nat) line_heap
  = (Raise (IndexError "tuple index out of range"), line_heap).
Proof.
  refine (labeled_array_needs_two_dims LP64 true demo_cascade demo_validate demo_repr_float
            demo_datetime_str demo_plotly (plain_args 1%nat) line_heap line_DataArray _
            eq_refl eq_refl _ eq_refl).
  simpl. lia.
Defined.

Lemma labeled_array_without_datetimes_is_kept_witness :
  exists fig h',
    demo_imshow (plain_args 1%nat) grid_heap = (Ok fig, h')
    /\ grid_heap `prefix_of` h'
    /\ h' !! 1%nat = Some (ObjDataArray grid_DataArray).
Proof.
  eexists _, _. split; [vm_compute; reflexivity|].
  refine (labeled_array_without_datetimes_is_kept LP64 demo_cascade demo_validate
            demo_repr_float demo_datetime_str demo_plotly (plain_args 1%nat) grid_heap
            grid_DataArray
            eq_refl _).
  intros [|[|i]] ax ns Hi; [| |lia]; intros [= <-]; discriminate.
Defined.

Lemma datetime_coordinates_become_text_witness :
  coord_at 1%nat "day" (CoordStr ["0"; "86400"])
           (snd (demo_imshow (plain_args 1%nat) xarray_heap)).
Proof.
  destruct (datetime_coordinates_become_text LP64 demo_cascade demo_validate demo_repr_float
              demo_datetime_str demo_plotly (plain_args 1%nat) xarray_heap demo_DataArray
              "row" "day" _
              eq_refl eq_refl eq_refl eq_refl) as [Hday _].
  exact (Hday [0; 86400] eq_refl).
Defined.

Lemma plain_array_uses_only_the_color_label_witness :
  exists fig h',
    demo_imshow (with_labels_origin (Some {["x" := "time"]}) None None None (plain_args 0%nat))
                (heap_of gray_2x2) = (Ok fig, h')
    /\ xaxis_title_text (fig_layout fig) = None
    /\ tr_hovertemplate (fig_data fig) = None.
Proof.
  eexists _, _. split; [vm_compute; reflexivity|].
  destruct (plain_array_uses_only_the_color_label LP64 true demo_cascade demo_validate
              demo_repr_float demo_datetime_str demo_plotly
              (with_labels_origin (Some {["x" := "time"]}) None None None (plain_args 0%nat))
              (heap_of gray_2x2) gray_2x2 _ _ eq_refl eq_refl)
    as (Hx & _ & _ & _ & Hhover & _).
  by split.
Defined.

Lemma labeled_array_titles_witness :
  exists fig h',
    demo_imshow (with_labels_origin (Some {["x" := "time"]}) None None None (plain_args 1%nat))
                xarray_heap = (Ok fig, h')
    /\ xaxis_title_text (fig_layout fig) = Some "time"
    /\ yaxis_title_text (fig_layout fig) = Some "row"
    /\ tr_hovertemplate (fig_data fig)
       = Some "time: %{x} <br>row: %{y} <br>temperature<br>[K] : %{z}<extra></extra>".
Proof.
  eassert (demo_imshow
             (with_labels_origin (Some {["x" := "time"]}) None None None (plain_args 1%nat))
             xarray_heap = (Ok _, _)) as Hrun by (vm_compute; reflexivity).
  eexists _, _. split; [exact Hrun|].
  destruct (labeled_array_titles LP64 demo_cascade demo_validate demo_repr_float
              demo_datetime_str demo_plotly
              (with_labels_origin (Some {["x" := "time"]}) None None None (plain_args 1%nat))
              xarray_heap demo_DataArray _ _ eq_refl Hrun)
    as (ydim & xdim & Hy & Hx & Hxtitle & Hytitle & Hheatmap).
  injection Hy as <-. injection Hx as <-.
  hnf in Hheatmap. destruct Hheatmap as (Hhover & _).
  by split_and!.
Defined.

Lemma imshow_reads_no_unbound_local_witness :
  exists e,
    fst (demo_imshow (plain_args 1%nat) line_heap) = Raise e /\ is_unbound e = false.
Proof.
  eexists. split; [vm_compute; reflexivity|].
  exact (imshow_reads_no_unbound_local LP64 true demo_cascade demo_validate demo_repr_float
           demo_datetime_str demo_plotly (plain_args 1%nat) line_heap _ eq_refl).
Defined.

Lemma image_returns_exactly_when_witness :
  returns_unless_rejected demo_plotly
    (fst (demo_imshow (with_range (Some (ZScalar (SInt 0))) None None (plain_args 0%nat))
                      (heap_of (rgb_float [f0_98; 0.5; 0.25]%float))))
  /\ exists fig h',
       demo_imshow (with_range (Some (ZScalar (SInt 0))) None None (plain_args 0%nat))
                   (heap_of (rgb_float [f0_98; 0.5; 0.25]%float)) = (Ok fig, h').
Proof.
  split; [|eexists _, _; vm_compute; reflexivity].
  refine (proj2 (image_returns_exactly_when LP64 true demo_cascade demo_validate
                   demo_repr_float demo_datetime_str demo_plotly
                   (with_range (Some (ZScalar (SInt 0))) None None (plain_args 0%nat))
                   (heap_of (rgb_float [f0_98; 0.5; 0.25]%float))
                   (rgb_float [f0_98; 0.5; 0.25]%float) _ eq_refl eq_refl eq_refl) _).
  by split_and!.
Defined.

Lemma heatmap_returns_exactly_when_witness :
  returns_unless_rejected demo_plotly
    (fst (demo_imshow (with_range None None (Some [SInt 0; SInt 255]) (plain_args 0%nat))
                      (heap_of gray_2x2)))
  /\ exists fig h',
       demo_imshow (with_range None None (Some [SInt 0; SInt 255]) (plain_args 0%nat))
                   (heap_of gray_2x2) = (Ok fig, h').
Proof.
  split; [|eexists _, _; vm_compute; reflexivity].
  refine (proj2 (heatmap_returns_exactly_when LP64 true demo_cascade demo_validate
                   demo_repr_float demo_datetime_str demo_plotly
                   (with_range None None (Some [SInt 0; SInt 255]) (plain_args 0%nat))
                   (heap_of gray_2x2) gray_2x2 _ _ eq_refl eq_refl eq_refl eq_refl) _).
  split; [done|]. simpl. lia.
Defined.

(** ** Calls that plotly does not accept *)

(** A height of 5 passes every check of [imshow] itself; the figure is
    refused by plotly, and [imshow] raises what [fig.update_layout] raised. *)
Lemma height_below_ten_is_refused :
  exists msg,
    demo_imshow (mk_args 0%nat None None None (Some ∅) (Some (ScaleName "gray")) None None
                         None None None (Some 5) None)
                (heap_of gray_2x2) = (Raise (External msg), heap_of gray_2x2)
    /\ demo_plotly (Update_layout None (Some 5) None (Some 60)) = inl msg.
Proof. eexists. split; vm_compute; reflexivity. Qed.

(** Lists for [zmin] and [zmax] on an array of two dimensions become the ends
    of the colour axis, which [go.Figure] refuses. *)
Lemma list_valued_bounds_are_refused :
  exists msg,
    fst (demo_imshow (with_range (Some (ZList [SInt 1; SInt 2])) (Some (ZList [SInt 3; SInt 4]))
                                 None (plain_args 0%nat))
                     (heap_of gray_2x2)) = Raise (External msg)
    /\ plotly_rejection demo_plotly (External msg).
Proof.
  eexists. split; [vm_compute; reflexivity|].
  eexists (New_Figure
             (mk_trace Heatmap gray_2x2 (Some "coloraxis1") None None None None None)
             (mk_layout (Some AutorangeReversed) (Some "domain") (Some "y") (Some "domain")
                (Some (mk_coloraxis [(0%float, "black"); (1%float, "white")] None
                         (Some (ZList [SInt 1; SInt 2])) (Some (ZList [SInt 3; SInt 4])) ""))
                None None None None None None None)), _.
  split; reflexivity.
Qed.
